(** * Rekognition CI pipeline: label normalisation, item building and the
      failure isolation of the event handlers and the batch driver.

    Shallow embedding of
      - [src/lambda/lambda_handler.py]   (module [Lambda]),
      - [src/lambda_handler.py]          (module [RootLambda]),
      - [src/analyze_image.py]           (module [Batch]),
    together with the Python built-ins they rely on ([urllib.parse.unquote_plus],
    [round] on floats, [str] of a float, [decimal.Decimal]). *)

From Stdlib Require Import ZArith NArith List String Ascii Bool Lia.
From Stdlib Require Import Floats.SpecFloat.
From stdpp Require Import base option list strings gmap.

Local Open Scope Z_scope.

(* ===================================================================== *)
(** ** Python strings and exceptions *)
(* ===================================================================== *)

(** A Python [str] is a sequence of Unicode code points. *)
Definition pystr := list N.

(** ASCII literals of the source, written as Rocq strings. *)
Definition py (s : string) : pystr :=
  List.map N_of_ascii (list_ascii_of_string s).

(** The exception classes that occur in the three programs.  All of them
    derive from [Exception]; only [ClientError] is matched by
    [except ClientError].  A boto3 call raises a [ClientError] for an error
    answer of the service, and a [BotoCoreError] (which is no [ClientError])
    when the request does not get that far: an endpoint that cannot be
    reached, a time-out, a parameter of the wrong type. *)
Inductive exn : Type :=
  | KeyError
  | IndexError
  | TypeError
  | AttributeError
  | InvalidOperation
  | ClientError
  | BotoCoreError
  | S3UploadFailedError
  | OSError.

#[global] Instance exn_eq_dec : EqDecision exn.
Proof. solve_decision. Defined.

Definition is_ClientError (e : exn) : bool :=
  match e with ClientError => true | _ => false end.

(** [except Exception] *)
Definition is_Exception (e : exn) : bool := true.

(** Result of evaluating a Python expression: a value or a raised exception. *)
Inductive outcome (A : Type) : Type :=
  | Return (a : A)
  | Raise (e : exn).
Arguments Return {A} a.
Arguments Raise {A} e.

#[global] Instance outcome_eq_dec {A} `{EqDecision A} : EqDecision (outcome A).
Proof. solve_decision. Defined.

Definition returns {A} (o : outcome A) : bool :=
  match o with Return _ => true | Raise _ => false end.

(* ===================================================================== *)
(** ** urllib.parse: unquote_plus *)
(* ===================================================================== *)

Module Urllib.

Definition PLUS : N := 43.
Definition SPACE : N := 32.
Definition PERCENT : N := 37.
(** U+FFFD, the replacement character of [errors='replace']. *)
Definition REPLACEMENT : N := 65533.

Definition is_ascii (c : N) : bool := (c <? 128)%N.

(** [_hexdig = '0123456789ABCDEFabcdef'] *)
Definition hexval (c : N) : option N :=
  if ((48 <=? c) && (c <=? 57))%N then Some (c - 48)%N
  else if ((65 <=? c) && (c <=? 70))%N then Some (c - 55)%N
  else if ((97 <=? c) && (c <=? 102))%N then Some (c - 87)%N
  else None.

(** [unquote_to_bytes] on an ASCII run: the text is split at ['%']; an
    item whose first two characters are hex digits contributes the byte
    they denote followed by the rest of the item, any other item is kept
    with its ['%']. *)
Fixpoint unquote_to_bytes (s : list N) : list N :=
  match s with
  | [] => []
  | c :: rest =>
      if (c =? PERCENT)%N then
        match rest with
        | h1 :: h2 :: rest' =>
            match hexval h1, hexval h2 with
            | Some a, Some b => (16 * a + b)%N :: unquote_to_bytes rest'
            | _, _ => c :: unquote_to_bytes rest
            end
        | _ => c :: unquote_to_bytes rest
        end
      else c :: unquote_to_bytes rest
  end.

Definition in_range (lo hi b : N) : bool := ((lo <=? b) && (b <=? hi))%N.
Definition is_cont (b : N) : bool := in_range 128 191 b.
Definition low6 (b : N) : N := (b mod 64)%N.

(** Range allowed for the second byte after lead byte [b1] of a
    three-byte form. *)
Definition second3 (b1 : N) : N * N :=
  if (b1 =? 224)%N then (160, 191)%N
  else if (b1 =? 237)%N then (128, 159)%N
  else (128, 191)%N.

(** Same for a four-byte form. *)
Definition second4 (b1 : N) : N * N :=
  if (b1 =? 240)%N then (144, 191)%N
  else if (b1 =? 244)%N then (128, 143)%N
  else (128, 191)%N.

(** [bytes.decode('utf-8', 'replace')]: well-formed sequences give their
    code point; an ill-formed byte, or the longest prefix of a well-formed
    sequence that is cut short, gives one U+FFFD. *)
Fixpoint utf8_decode (bs : list N) : pystr :=
  match bs with
  | [] => []
  | b1 :: r1 =>
      if is_ascii b1 then b1 :: utf8_decode r1
      else if in_range 194 223 b1 then
        match r1 with
        | b2 :: r2 =>
            if is_cont b2
            then ((b1 mod 32) * 64 + low6 b2)%N :: utf8_decode r2
            else REPLACEMENT :: utf8_decode r1
        | [] => [REPLACEMENT]
        end
      else if in_range 224 239 b1 then
        match r1 with
        | b2 :: r2 =>
            if in_range (fst (second3 b1)) (snd (second3 b1)) b2 then
              match r2 with
              | b3 :: r3 =>
                  if is_cont b3
                  then ((b1 mod 16) * 4096 + low6 b2 * 64 + low6 b3)%N
                         :: utf8_decode r3
                  else REPLACEMENT :: utf8_decode r2
              | [] => [REPLACEMENT]
              end
            else REPLACEMENT :: utf8_decode r1
        | [] => [REPLACEMENT]
        end
      else if in_range 240 244 b1 then
        match r1 with
        | b2 :: r2 =>
            if in_range (fst (second4 b1)) (snd (second4 b1)) b2 then
              match r2 with
              | b3 :: r3 =>
                  if is_cont b3 then
                    match r3 with
                    | b4 :: r4 =>
                        if is_cont b4
                        then ((b1 mod 8) * 262144 + low6 b2 * 4096
                              + low6 b3 * 64 + low6 b4)%N :: utf8_decode r4
                        else REPLACEMENT :: utf8_decode r3
                    | [] => [REPLACEMENT]
                    end
                  else REPLACEMENT :: utf8_decode r2
              | [] => [REPLACEMENT]
              end
            else REPLACEMENT :: utf8_decode r1
        | [] => [REPLACEMENT]
        end
      else REPLACEMENT :: utf8_decode r1
  end.

(** One maximal ASCII run of [unquote]:
    [unquote_to_bytes(run).decode(encoding, errors)]. *)
Definition decode_run (run : list N) : pystr :=
  utf8_decode (unquote_to_bytes run).

(** The loop of [unquote] over [_asciire.split(string)]: maximal ASCII runs
    are unquoted and decoded, the characters between them are copied.
    [run] is the ASCII run read so far. *)
Fixpoint unquote_runs (s : pystr) (run : list N) : pystr :=
  match s with
  | [] => decode_run run
  | c :: s' =>
      if is_ascii c then unquote_runs s' (run ++ [c])
      else decode_run run ++ c :: unquote_runs s' []
  end.

Definition contains (c : N) (s : pystr) : bool :=
  existsb (N.eqb c) s.

Definition unquote (s : pystr) : pystr :=
  if negb (contains PERCENT s) then s else unquote_runs s [].

(** [string.replace('+', ' ')] *)
Definition replace_plus (s : pystr) : pystr :=
  List.map (fun c => if (c =? PLUS)%N then SPACE else c) s.

Definition unquote_plus (s : pystr) : pystr :=
  unquote (replace_plus s).

End Urllib.

(* ===================================================================== *)
(** ** Python floats: round, str; decimal.Decimal *)
(* ===================================================================== *)

Module PyFloat.

(** A Python [float] is an IEEE 754 binary64 number. *)
Definition prec : Z := 53.
Definition emax : Z := 1024.
Definition pyfloat : Type := spec_float.

#[global] Instance pyfloat_eq_dec : EqDecision pyfloat.
Proof. unfold pyfloat. solve_decision. Defined.

(** [n / d] rounded to the nearest integer, ties to the even one
    ([0 <= n], [0 < d]). *)
Definition div_half_even (n d : Z) : Z :=
  let '(q, r) := Z.div_eucl n d in
  match 2 * r ?= d with
  | Lt => q
  | Eq => if Z.even q then q else q + 1
  | Gt => q + 1
  end.

(** Numerator and denominator of [m * 2^e * 10^s]. *)
Definition scaled_frac (m : positive) (e s : Z) : Z * Z :=
  ((Zpos m) * (if 0 <=? e then 2 ^ e else 1) * (if 0 <=? s then 10 ^ s else 1),
   (if 0 <=? e then 1 else 2 ^ (- e)) * (if 0 <=? s then 1 else 10 ^ (- s))).

(** The integer nearest to [m * 2^e * 10^s], ties to even: the correctly
    rounded decimal digits that [_Py_dg_dtoa] delivers. *)
Definition scaled_round (m : positive) (e s : Z) : Z :=
  let '(n, d) := scaled_frac m e s in div_half_even n d.

(** [_Py_dg_strtod]: the float nearest to [(-1)^sign * D * 10^k]. *)
Definition strtod (sign : bool) (D k : Z) : pyfloat :=
  match D with
  | Zpos p =>
      if 0 <=? k
      then match 10 ^ k with
           | Zpos t => binary_round prec emax sign (p * t) 0
           | _ => S754_nan
           end
      else match 10 ^ (- k) with
           | Zpos t =>
               SFdiv prec emax (S754_finite sign p 0) (S754_finite false t 0)
           | _ => S754_nan
           end
  | _ => S754_zero sign
  end.

(** Beyond these numbers of digits [float.__round__] does not round: it
    returns [x], or a zero of the sign of [x]. *)
Definition NDIGITS_MAX : Z := 323.
Definition NDIGITS_MIN : Z := -308.

(** [round(x, ndigits)] for a float [x] ([float.__round__] with its
    [double_round]): non-finite values and zeros round to themselves, a
    finite value is printed with [ndigits] correctly rounded decimals and
    read back. *)
Definition round_float (x : pyfloat) (ndigits : Z) : pyfloat :=
  match x with
  | S754_finite s m e =>
      if NDIGITS_MAX <? ndigits then x
      else if ndigits <? NDIGITS_MIN then S754_zero s
      else strtod s (scaled_round m e ndigits) (- ndigits)
  | _ => x
  end.

(** [float(conf)] of a value that already is a float. *)
Definition float (x : pyfloat) : pyfloat := x.

(** *** repr: the shortest digit string that reads back as the float *)

Definition ge_pow10 (m : positive) (e p : Z) : bool :=
  let '(n, d) := scaled_frac m e (- p) in d <=? n.

Fixpoint bump_exp (fuel : nat) (m : positive) (e p : Z) : Z :=
  match fuel with
  | O => p
  | S fuel' => if ge_pow10 m e (p + 1) then bump_exp fuel' m e (p + 1) else p
  end.

(** The decimal exponent [p] of [m * 2^e]: [10^p <= m * 2^e < 10^(p+1)]. *)
Definition dec_exp (m : positive) (e : Z) : Z :=
  let L := Zpos (digits2_pos m) + e in
  bump_exp 4 m e ((L - 1) * 30103 / 100000 - 1).

(** The [n] correctly rounded significant digits of [m * 2^e], as an
    integer, with the decimal exponent of the leading digit. *)
Definition sig_digits (m : positive) (e : Z) (n : Z) : Z * Z :=
  let p := dec_exp m e in
  let D := scaled_round m e (n - 1 - p) in
  if D =? 10 ^ n then (10 ^ (n - 1), p + 1) else (D, p).

Definition float_eqb (x y : pyfloat) : bool :=
  match x, y with
  | S754_finite s1 m1 e1, S754_finite s2 m2 e2 =>
      Bool.eqb s1 s2 && (m1 =? m2)%positive && (e1 =? e2)
  | _, _ => false
  end.

(** The search of [repr]: the least number [n] of correctly rounded
    significant digits that read back as the float (17 always do).  The
    result is [n], the digits as an integer, and the position [decpt] of
    the decimal point (the digits stand for [0.d1...dn * 10^decpt]). *)
Fixpoint shortest (fuel : nat) (m : positive) (e : Z) (n : Z) : Z * Z * Z :=
  let '(D, p) := sig_digits m e n in
  match fuel with
  | O => (n, D, p + 1)
  | S fuel' =>
      if float_eqb (strtod false D (p - (n - 1))) (S754_finite false m e)
      then (n, D, p + 1)
      else shortest fuel' m e (n + 1)
  end.

Definition repr_digits (m : positive) (e : Z) : Z * Z * Z :=
  shortest 16 m e 1.

Definition digit_char (d : Z) : N := (48 + Z.to_N d)%N.

Fixpoint digits_rev (n : nat) (D : Z) : list N :=
  match n with
  | O => []
  | S n' => digit_char (D mod 10) :: digits_rev n' (D / 10)
  end.

(** The [n] decimal digits of [D], most significant first. *)
Definition digits_of (n : Z) (D : Z) : pystr :=
  rev (digits_rev (Z.to_nat n) D).

Definition zeros (k : Z) : pystr := repeat 48%N (Z.to_nat k).

(** [format_float_short] in repr mode: exponent notation when
    [decpt <= -4] or [decpt > 16], otherwise positional with [.0] added to
    an integer. *)
Definition layout (ds : pystr) (n decpt : Z) : pystr :=
  if (decpt <=? -4) || (16 <? decpt) then
    let x := decpt - 1 in
    firstn 1 ds
      ++ (if 1 <? n then py "." ++ skipn 1 ds else [])
      ++ py "e" ++ (if x <? 0 then py "-" else py "+")
      ++ (if Z.abs x <? 10 then py "0" ++ digits_of 1 (Z.abs x)
          else if Z.abs x <? 100 then digits_of 2 (Z.abs x)
          else digits_of 3 (Z.abs x))
  else if decpt <=? 0 then py "0." ++ zeros (- decpt) ++ ds
  else if n <=? decpt then ds ++ zeros (decpt - n) ++ py ".0"
  else firstn (Z.to_nat decpt) ds ++ py "." ++ skipn (Z.to_nat decpt) ds.

(** [str(x)] of a float, which is [repr(x)]. *)
Definition str_float (x : pyfloat) : pystr :=
  match x with
  | S754_nan => py "nan"
  | S754_infinity s => if s then py "-inf" else py "inf"
  | S754_zero s => if s then py "-0.0" else py "0.0"
  | S754_finite s m e =>
      let '(n, D, decpt) := repr_digits m e in
      (if s then py "-" else []) ++ layout (digits_of n D) n decpt
  end.

End PyFloat.

Module PyDecimal.

(** [decimal.Decimal]: sign, integer coefficient and exponent (the value is
    [(-1)^sign * coef * 10^exp]), or one of the special values. *)
Inductive decimal : Type :=
  | DFinite (sign : bool) (coef : Z) (exp : Z)
  | DInfinity (sign : bool)
  | DNaN (sign : bool).

#[global] Instance decimal_eq_dec : EqDecision decimal.
Proof. solve_decision. Defined.

Definition is_digit (c : N) : bool := ((48 <=? c) && (c <=? 57))%N.

Fixpoint span_digits (s : pystr) : pystr * pystr :=
  match s with
  | [] => ([], [])
  | c :: s' =>
      if is_digit c
      then let '(ds, r) := span_digits s' in (c :: ds, r)
      else ([], s)
  end.

Definition digits_value (ds : pystr) : Z :=
  fold_left (fun acc c => 10 * acc + (Z.of_N c - 48)) ds 0.

Definition lower_ascii (c : N) : N :=
  if ((65 <=? c) && (c <=? 90))%N then (c + 32)%N else c.

Definition pystr_eqb (a b : pystr) : bool :=
  if decide (a = b) then true else false.

Definition strip_sign (s : pystr) : bool * pystr :=
  match s with
  | c :: r =>
      if (c =? 45)%N then (true, r)
      else if (c =? 43)%N then (false, r)
      else (false, s)
  | [] => (false, [])
  end.

Definition is_nil {A} (l : list A) : bool :=
  match l with [] => true | _ => false end.

(** [Decimal(s)] for a string [s], following the grammar of the
    constructor: an optional sign, then either digits with an optional
    fractional part and an optional exponent (at least one digit before the
    exponent), or [Inf], [Infinity] or [NaN] in any letter case.  Anything
    else raises [InvalidOperation].  (Surrounding whitespace, underscores,
    NaN payloads and non-ASCII digits, which the constructor also accepts,
    do not occur in the [str] of a float and are not modelled.) *)
Definition parse_body (sign : bool) (body : pystr) : outcome decimal :=
  let lowered := List.map lower_ascii body in
  if pystr_eqb lowered (py "inf") || pystr_eqb lowered (py "infinity")
  then Return (DInfinity sign)
  else if pystr_eqb lowered (py "nan") then Return (DNaN sign)
  else
    let '(ip, r1) := span_digits body in
    let '(fp, r2) :=
      match r1 with
      | c :: r => if (c =? 46)%N then span_digits r else ([], r1)
      | [] => ([], [])
      end in
    if is_nil ip && is_nil fp then Raise InvalidOperation
    else
      let coef := digits_value (ip ++ fp) in
      let nfrac := Z.of_nat (length fp) in
      match r2 with
      | [] => Return (DFinite sign coef (- nfrac))
      | c :: r =>
          if (lower_ascii c =? 101)%N then
            let '(eneg, r') := strip_sign r in
            let '(ed, r3) := span_digits r' in
            if is_nil ed || negb (is_nil r3) then Raise InvalidOperation
            else
              let x := digits_value ed in
              Return (DFinite sign coef ((if eneg then - x else x) - nfrac))
          else Raise InvalidOperation
      end.

Definition Decimal (s : pystr) : outcome decimal :=
  let '(sign, body) := strip_sign s in parse_body sign body.

(** Number of decimal digits of a positive integer, by repeated division. *)
Fixpoint ndigits_fuel (fuel : nat) (c : Z) : Z :=
  match fuel with
  | O => 0
  | S fuel' => if c <=? 0 then 0 else 1 + ndigits_fuel fuel' (c / 10)
  end.
Definition ndigits (c : Z) : Z := ndigits_fuel (S (Z.to_nat (Z.log2 c))) c.

Inductive rounding : Type := ROUND_HALF_EVEN | ROUND_HALF_UP.

(** [n / d] rounded to the nearest integer in the given mode
    ([0 <= n], [0 < d]). *)
Definition div_round (mode : rounding) (n d : Z) : Z :=
  match mode with
  | ROUND_HALF_EVEN => PyFloat.div_half_even n d
  | ROUND_HALF_UP => if 2 * (n mod d) <? d then n / d else n / d + 1
  end.

(** [d.quantize(Decimal(10) ** e, rounding=mode)] at the default precision
    of 28 digits. *)
Definition quantize (mode : rounding) (d : decimal) (e : Z) : outcome decimal :=
  match d with
  | DFinite s c x =>
      let c' := if e <=? x then c * 10 ^ (x - e)
                else div_round mode c (10 ^ (e - x)) in
      if 28 <? ndigits c' then Raise InvalidOperation
      else Return (DFinite s c' e)
  | DInfinity _ => Raise InvalidOperation
  | DNaN s => Return (DNaN s)
  end.

(** [d * 10^k] when that is an integer. *)
Definition scaled_int (d : decimal) (k : Z) : option Z :=
  match d with
  | DFinite s c x =>
      let v := if 0 <=? x + k then Some (c * 10 ^ (x + k))
               else if c mod 10 ^ (- (x + k)) =? 0
                    then Some (c / 10 ^ (- (x + k))) else None in
      (fun n => if s then - n else n) <$> v
  | _ => None
  end.

End PyDecimal.

(* ===================================================================== *)
(** ** Clock: datetime.utcnow().isoformat(), time.time() *)
(* ===================================================================== *)

Module PyTime.

(** Proleptic Gregorian date of a day number counted from 1970-01-01. *)
Definition civil_from_days (days : Z) : Z * Z * Z :=
  let z := days + 719468 in
  let era := z / 146097 in
  let doe := z - era * 146097 in
  let yoe := (doe - doe / 1460 + doe / 36524 - doe / 146096) / 365 in
  let doy := doe - (365 * yoe + yoe / 4 - yoe / 100) in
  let mp := (5 * doy + 2) / 153 in
  let d := doy - (153 * mp + 2) / 5 + 1 in
  let m := if mp <? 10 then mp + 3 else mp - 9 in
  let y := yoe + era * 400 + (if m <=? 2 then 1 else 0) in
  (y, m, d).

(** [dt.replace(microsecond=0).isoformat() + "Z"] for the UTC date and
    time that lies [us] microseconds after the epoch. *)
Definition isoformat_Z (us : Z) : pystr :=
  let secs := us / 1000000 in
  let '(y, m, d) := civil_from_days (secs / 86400) in
  let sod := secs mod 86400 in
  PyFloat.digits_of 4 y ++ py "-" ++ PyFloat.digits_of 2 m ++ py "-"
    ++ PyFloat.digits_of 2 d ++ py "T"
    ++ PyFloat.digits_of 2 (sod / 3600) ++ py ":"
    ++ PyFloat.digits_of 2 (sod mod 3600 / 60) ++ py ":"
    ++ PyFloat.digits_of 2 (sod mod 60) ++ py "Z".

(** [int(t)] for the float [t] that [time.time()] returns at [us]
    microseconds after the epoch: truncation towards zero. *)
Definition int_seconds (us : Z) : Z := Z.quot us 1000000.

End PyTime.

(* ===================================================================== *)
(** ** Python values, the external services and the effect monad *)
(* ===================================================================== *)

(** The values [json.loads] produces: what the Lambda runtime passes as
    [event].  A [dict] is kept as its list of bindings (keys are unique). *)
#[warnings="-register-all"]
Inductive pyval : Type :=
  | PNone
  | PBool (b : bool)
  | PInt (z : Z)
  | PFloat (f : PyFloat.pyfloat)
  | PStr (s : pystr)
  | PList (l : list pyval)
  | PDict (d : list (pystr * pyval)).

Fixpoint dict_get (d : list (pystr * pyval)) (k : pystr) : option pyval :=
  match d with
  | [] => None
  | (k', v) :: d' => if decide (k' = k) then Some v else dict_get d' k
  end.

(** [x[k]] for a string literal [k]. *)
Definition getitem_key (x : pyval) (k : pystr) : outcome pyval :=
  match x with
  | PDict d =>
      match dict_get d k with Some v => Return v | None => Raise KeyError end
  | _ => Raise TypeError
  end.

(** [x[0]].  The keys of a JSON object are strings, so [0] is never one. *)
Definition getitem_0 (x : pyval) : outcome pyval :=
  match x with
  | PList (v :: _) => Return v
  | PList [] => Raise IndexError
  | PStr (c :: _) => Return (PStr [c])
  | PStr [] => Raise IndexError
  | PDict _ => Raise KeyError
  | _ => Raise TypeError
  end.

(** [unquote_plus(v)]: starts with [v.replace('+', ' ')], which only a
    string has. *)
Definition unquote_plus_val (v : pyval) : outcome pystr :=
  match v with
  | PStr s => Return (Urllib.unquote_plus s)
  | _ => Raise AttributeError
  end.

#[global] Instance outcome_ret : MRet outcome := @Return.
#[global] Instance outcome_bind : MBind outcome :=
  fun A B f o => match o with Return a => f a | Raise e => Raise e end.

(** One entry of the persisted list: [{"Name": ..., "Confidence": Decimal}]. *)
Record LabelRecord : Type := mkLabel {
  Name : pystr;
  Confidence : PyDecimal.decimal
}.

(** Values stored under the keys of an [Item]. *)
Inductive item_value : Type :=
  | IVal (v : pyval)
  | ILabels (l : list LabelRecord).

(** The DetectLabels answer as botocore parses it against the service
    model: a member that is absent is [None]; [Name] is a string and
    [Confidence] a float where present. *)
Record raw_label : Type := mkRaw {
  lbl_Name : option pystr;
  lbl_Confidence : option PyFloat.pyfloat
}.

Record detect_response : Type := mkResp {
  resp_Labels : option (list raw_label)
}.

(** The calls made to the three collaborators. *)
Inductive call : Type :=
  | S3_upload_file (region : pystr) (Filename Bucket Key : pystr)
  | Rek_detect_labels (region : pystr) (Bucket Name : pyval)
      (MaxLabels : Z) (MinConfidence : PyFloat.pyfloat)
  | DDB_put_item (region table : pystr) (Item : gmap string item_value).

(** The surroundings of one run: the process environment, the clock and the
    collaborators.  A collaborator answers a request given the calls made
    before it, with a value or by raising. *)
Record world : Type := mkWorld {
  environ : gmap string pystr;
  clock : nat -> Z;   (* microseconds since the epoch at the n-th reading *)
  s3_answer : list call -> call -> outcome unit;
  rek_answer : list call -> call -> outcome detect_response;
  ddb_answer : list call -> call -> outcome unit
}.

Record state : Type := mkState {
  calls : list call;
  clock_reads : nat
}.

Definition initial : state := mkState [] 0.

(** Computations that read the world, update the state and may raise. *)
Definition M (A : Type) : Type := world -> state -> outcome A * state.

#[global] Instance M_ret : MRet M := fun A a _ st => (Return a, st).
#[global] Instance M_bind : MBind M :=
  fun A B f m w st =>
    match m w st with
    | (Return a, st') => f a w st'
    | (Raise e, st') => (Raise e, st')
    end.

Definition lift {A} (o : outcome A) : M A := fun _ st => (o, st).

(** [try: m except C: ...]: an exception of [m] that [C] matches is handed
    to the handler as [inr]; any other propagates. *)
Definition try_except {A} (m : M A) (C : exn -> bool) : M (A + exn) :=
  fun w st =>
    match m w st with
    | (Return a, st') => (Return (inl a), st')
    | (Raise e, st') =>
        if C e then (Return (inr e), st') else (Raise e, st')
    end.

(** [os.environ[k]] and [os.environ.get(k, d)] *)
Definition environ_getitem (k : string) : M pystr :=
  fun w st =>
    (match environ w !! k with Some v => Return v | None => Raise KeyError end,
     st).

Definition environ_get (k : string) (d : pystr) : M pystr :=
  fun w st => (Return (default d (environ w !! k)), st).

Definition read_clock : M Z :=
  fun w st =>
    (Return (clock w (clock_reads st)),
     mkState (calls st) (S (clock_reads st))).

Definition perform {A} (answer : world -> list call -> call -> outcome A)
    (c : call) : M A :=
  fun w st =>
    (answer w (calls st) c, mkState (calls st ++ [c]) (clock_reads st)).

(** [70.0] *)
Definition f70 : PyFloat.pyfloat :=
  Eval vm_compute in PyFloat.strtod false 70 0.

Definition upload_file (region Filename Bucket Key : pystr) : M unit :=
  perform s3_answer (S3_upload_file region Filename Bucket Key).

(** [rek.detect_labels(Image={"S3Object": {"Bucket": b, "Name": k}},
                       MaxLabels=10, MinConfidence=70.0)] *)
Definition detect_labels (region : pystr) (Bucket Name : pyval)
    : M detect_response :=
  perform rek_answer (Rek_detect_labels region Bucket Name 10 f70).

Definition put_item (region table : pystr) (item : gmap string item_value)
    : M unit :=
  perform ddb_answer (DDB_put_item region table item).

(** [def iso_now(): return datetime.datetime.utcnow()
                             .replace(microsecond=0).isoformat() + "Z"] *)
Definition iso_now : M pystr :=
  us ← read_clock; mret (PyTime.isoformat_Z us).

(** [int(time.time())] *)
Definition int_time_time : M Z :=
  us ← read_clock; mret (PyTime.int_seconds us).

(** The dictionaries the event handlers return:
    [{"ok": True, "filename": key, "count": n}] and
    [{"ok": False, "error": code}]. *)
Inductive handler_result : Type :=
  | ResultOk (filename : pyval) (count : nat)
  | ResultError (error : string).

Definition is_put_item (c : call) : bool :=
  match c with DDB_put_item _ _ _ => true | _ => false end.
Definition is_detect_labels (c : call) : bool :=
  match c with Rek_detect_labels _ _ _ _ _ => true | _ => false end.
Definition is_upload_file (c : call) : bool :=
  match c with S3_upload_file _ _ _ _ => true | _ => false end.

Definition run {A} (m : M A) (w : world) : outcome A * state := m w initial.

(* ===================================================================== *)
(** ** src/lambda/lambda_handler.py *)
(* ===================================================================== *)

Module Lambda.

(** [Decimal(str(round(float(conf), 2)))] *)
Definition confidence (conf : PyFloat.pyfloat) : outcome PyDecimal.decimal :=
  PyDecimal.Decimal
    (PyFloat.str_float (PyFloat.round_float (PyFloat.float conf) 2)).

(** The [for lbl in ...] loop of [build_labels]; [labels] is the list
    built so far. *)
Fixpoint build_labels_loop (ls : list raw_label) (labels : list LabelRecord)
    : outcome (list LabelRecord) :=
  match ls with
  | [] => Return labels
  | lbl :: rest =>
      match lbl_Name lbl, lbl_Confidence lbl with
      | Some name, Some conf =>
          c ← confidence conf;
          build_labels_loop rest (labels ++ [mkLabel name c])
      | _, _ => build_labels_loop rest labels       (* continue *)
      end
  end.

(** [def build_labels(resp)], iterating [resp.get("Labels", []) or []]. *)
Definition build_labels (resp : detect_response)
    : outcome (list LabelRecord) :=
  build_labels_loop (default [] (resp_Labels resp)) [].

(** The [try] block that parses the S3 event (first record). *)
Definition parse_event (event : pyval) : outcome (pyval * pystr) :=
  records ← getitem_key event (py "Records");
  rec ← getitem_0 records;
  s3 ← getitem_key rec (py "s3");
  b ← getitem_key s3 (py "bucket");
  bucket ← getitem_key b (py "name");
  s3' ← getitem_key rec (py "s3");
  o ← getitem_key s3' (py "object");
  k ← getitem_key o (py "key");
  key ← unquote_plus_val k;
  mret (bucket, key).

(** [def handler(event, context)].  The [print(json.dumps(...))] lines
    write the log only: their arguments hold strings, floats, lists and
    the JSON event, which [json.dumps] always encodes. *)
Definition handler (event : pyval) : M handler_result :=
  region ← environ_get "REGION" (py "us-east-1");
  table_name ← environ_getitem "DDB_TABLE";
  branch ← environ_get "BRANCH_HINT" (py "Lambda");
  parsed ← try_except (lift (parse_event event)) is_Exception;
  match parsed with
  | inr _ => mret (ResultError "bad_event")
  | inl (bucket, key) =>
      detected ← try_except (detect_labels region bucket (PStr key))
                            is_ClientError;
      match detected with
      | inr _ => mret (ResultError "rekognition_failed")
      | inl resp =>
          labels ← lift (build_labels resp);
          timestamp ← iso_now;
          let item : gmap string item_value :=
            {[ "filename" := IVal (PStr key);
               "labels" := ILabels labels;
               "timestamp" := IVal (PStr timestamp);
               "branch" := IVal (PStr branch) ]} in
          now ← int_time_time;
          let item := <["ttl" := IVal (PInt (now + 7 * 24 * 60 * 60))]> item in
          _ ← put_item region table_name item;
          written ← try_except (put_item region table_name item)
                               is_ClientError;
          match written with
          | inr _ => mret (ResultError "ddb_failed")
          | inl _ => mret (ResultOk (PStr key) (length labels))
          end
      end
  end.

End Lambda.

(* ===================================================================== *)
(** ** src/lambda_handler.py *)
(* ===================================================================== *)

(** The list comprehension that [src/lambda_handler.py] and
    [src/analyze_image.py] share:
    [[{"Name": l["Name"], "Confidence": Decimal(str(round(l["Confidence"], 2)))}
      for l in resp.get("Labels", [])]] *)
Fixpoint labels_comprehension (ls : list raw_label)
    : outcome (list LabelRecord) :=
  match ls with
  | [] => Return []
  | l :: rest =>
      name ← from_option Return (Raise KeyError) (lbl_Name l);
      conf ← from_option Return (Raise KeyError) (lbl_Confidence l);
      c ← PyDecimal.Decimal (PyFloat.str_float (PyFloat.round_float conf 2));
      labels ← labels_comprehension rest;
      mret (mkLabel name c :: labels)
  end.

Module RootLambda.

(** [def handler(event, context)].  [json.dumps(to_plain(item))] sees
    floats in place of the Decimals and always succeeds. *)
Definition handler (event : pyval) : M handler_result :=
  region ← environ_getitem "AWS_REGION";
  table ← environ_getitem "DDB_TABLE";
  rec ← lift (records ← getitem_key event (py "Records"); getitem_0 records);
  bucket ← lift (s3 ← getitem_key rec (py "s3");
                 b ← getitem_key s3 (py "bucket");
                 getitem_key b (py "name"));
  key ← lift (s3 ← getitem_key rec (py "s3");
              o ← getitem_key s3 (py "object");
              getitem_key o (py "key"));
  resp ← detect_labels region bucket key;
  labels ← lift (labels_comprehension (default [] (resp_Labels resp)));
  timestamp ← iso_now;
  branch ← environ_get "BRANCH_HINT" (py "lambda");
  let item : gmap string item_value :=
    {[ "filename" := IVal key;
       "labels" := ILabels labels;
       "timestamp" := IVal (PStr timestamp);
       "branch" := IVal (PStr branch) ]} in
  _ ← put_item region table item;
  mret (ResultOk key (length labels)).

End RootLambda.

(* ===================================================================== *)
(** ** src/analyze_image.py *)
(* ===================================================================== *)

Module Batch.

(** [str.lower()] on the letters A to Z.  For the membership test below
    this is all that matters: no other character lowers to a letter of
    [.jpg], [.jpeg] or [.png]. *)
Definition lower (s : pystr) : pystr := List.map PyDecimal.lower_ascii s.

(** Index of the last ['.'] of [name] ([name.rfind('.')]), if any. *)
Fixpoint rfind_dot (name : pystr) (i : nat) (last : option nat) : option nat :=
  match name with
  | [] => last
  | c :: rest =>
      rfind_dot rest (S i) (if (c =? 46)%N then Some i else last)
  end.

(** [PurePath.suffix]:
    [i = name.rfind('.'); name[i:] if 0 < i < len(name) - 1 else ''] *)
Definition suffix (name : pystr) : pystr :=
  match rfind_dot name 0 None with
  | Some i =>
      if (0 <? i)%nat && (S i <? length name)%nat then skipn i name else []
  | None => []
  end.

(** [p.suffix.lower() in {".jpg", ".jpeg", ".png"}] *)
Definition is_image (name : pystr) : bool :=
  let sfx := lower (suffix name) in
  PyDecimal.pystr_eqb sfx (py ".jpg")
  || PyDecimal.pystr_eqb sfx (py ".jpeg")
  || PyDecimal.pystr_eqb sfx (py ".png").

(** [json.dumps(item, indent=2)]: the encoder has no case for [Decimal]
    and raises [TypeError] at the first one it meets. *)
Definition json_dumps_item (labels : list LabelRecord) : outcome unit :=
  match labels with
  | [] => Return tt
  | _ :: _ => Raise TypeError
  end.

(** The body of [for path in files], for the entry called [name] of
    [images/]. *)
Definition process (aws_region s3_bucket ddb_table branch : pystr)
    (name : pystr) : M unit :=
  let key := py "rekognition-input/" ++ name in
  _ ← upload_file aws_region (py "images/" ++ name) s3_bucket key;
  resp ← detect_labels aws_region (PStr s3_bucket) (PStr key);
  labels ← lift (labels_comprehension (default [] (resp_Labels resp)));
  timestamp ← iso_now;
  let item : gmap string item_value :=
    {[ "filename" := IVal (PStr (py "rekognition-input/" ++ name));
       "labels" := ILabels labels;
       "timestamp" := IVal (PStr timestamp);
       "branch" := IVal (PStr branch) ]} in
  _ ← lift (json_dumps_item labels);
  put_item aws_region ddb_table item.

Fixpoint for_each {A} (body : A -> M unit) (l : list A) : M unit :=
  match l with
  | [] => mret tt
  | x :: rest => _ ← body x; for_each body rest
  end.

(** [def main()], where [listing] is what [images_dir.glob("*")] yields:
    the names of the entries of [images/], in the order of the listing. *)
Definition main (listing : list pystr) : M unit :=
  aws_region ← environ_getitem "AWS_REGION";
  s3_bucket ← environ_getitem "S3_BUCKET";
  ddb_table ← environ_getitem "DYNAMODB_TABLE";
  branch ← environ_get "GITHUB_REF_NAME" (py "unknown");
  let files := List.filter is_image listing in
  match files with
  | [] => mret tt
  | _ => for_each (process aws_region s3_bucket ddb_table branch) files
  end.

End Batch.

(* ===================================================================== *)
(** ** Observations on a run, and the inputs used in the examples *)
(* ===================================================================== *)

(** What a call is about: the object it names. *)
Inductive call_shape : Type :=
  | UploadOf (Key : pystr)
  | DetectOf (Name : pyval)
  | WriteOf (filename : option item_value).

Definition shape (c : call) : call_shape :=
  match c with
  | S3_upload_file _ _ _ k => UploadOf k
  | Rek_detect_labels _ _ n _ _ => DetectOf n
  | DDB_put_item _ _ item => WriteOf (item !! "filename"%string)
  end.

(** The [ttl] a call writes, if it is a write that carries one. *)
Definition written_ttl (c : call) : option item_value :=
  match c with
  | DDB_put_item _ _ item => item !! "ttl"%string
  | _ => None
  end.

(** The call names the object [key]: a detection of it, or a write filed
    under it. *)
Definition about_key (key : pyval) (c : call) : Prop :=
  shape c = DetectOf key \/ shape c = WriteOf (Some (IVal key)).

(** [event["Records"][0]["s3"]["object"]["key"]]: the key as the
    notification carries it. *)
Definition notified_key (event : pyval) : outcome pyval :=
  records ← getitem_key event (py "Records");
  rec ← getitem_0 records;
  s3 ← getitem_key rec (py "s3");
  o ← getitem_key s3 (py "object");
  getitem_key o (py "key").

(** An entry that has both its name and its confidence. *)
Definition well_formed (l : raw_label) : option (pystr * PyFloat.pyfloat) :=
  name ← lbl_Name l; conf ← lbl_Confidence l; Some (name, conf).

(** The record [r] is the one made from the name and confidence [nc]. *)
Definition record_of (nc : pystr * PyFloat.pyfloat) (r : LabelRecord) : Prop :=
  Name r = nc.1 /\ Lambda.confidence nc.2 = Return (Confidence r).

Definition confidence_value (conf : PyFloat.pyfloat) : PyDecimal.decimal :=
  match Lambda.confidence conf with
  | Return d => d
  | Raise _ => PyDecimal.DNaN false
  end.

Definition make_record (nc : pystr * PyFloat.pyfloat) : LabelRecord :=
  mkLabel nc.1 (confidence_value nc.2).

(** Rounding as the specification words it: on the decimal that the string
    of the value denotes, [Decimal(str(conf)).quantize(Decimal("0.01"))]. *)
Definition decimal_rounded (mode : PyDecimal.rounding) (conf : PyFloat.pyfloat)
    : outcome PyDecimal.decimal :=
  d ← PyDecimal.Decimal (PyFloat.str_float conf);
  PyDecimal.quantize mode d (-2).

(** The float nearest to [q / 100] is stored as exactly [q / 100], and
    rounding it again leaves it as it is. *)
Definition stored_exactly (q : Z) : bool :=
  let f := PyFloat.strtod false q (-2) in
  match PyDecimal.Decimal (PyFloat.str_float f) with
  | Return d =>
      bool_decide (PyDecimal.scaled_int d 2 = Some q)
      && bool_decide (PyFloat.round_float f 2 = f)
  | Raise _ => false
  end.

Module Shapes.

Abbreviation digits := (Forall (fun c => PyDecimal.is_digit c = true)).
Abbreviation ascii_only := (Forall (fun c => Urllib.is_ascii c = true)).

(** The exponent part of a numeric string: nothing, or [e], a sign and
    digits. *)
Inductive exp_part : pystr -> Z -> Prop :=
  | exp_none : exp_part [] 0
  | exp_plus ed : digits ed -> ed <> [] ->
      exp_part (101%N :: 43%N :: ed) (PyDecimal.digits_value ed)
  | exp_minus ed : digits ed -> ed <> [] ->
      exp_part (101%N :: 45%N :: ed) (- PyDecimal.digits_value ed).

(** Digits, an optional point with digits, an optional exponent. *)
Definition numeric (body : pystr) : Prop :=
  exists ip fp (dot : bool) tail x,
    body = ip ++ (if dot then 46%N :: fp else []) ++ tail
    /\ digits ip /\ digits fp /\ ip <> [] /\ (dot = false -> fp = [])
    /\ exp_part tail x.

(** What [unquote] does to its input: nothing, or it makes it shorter. *)
Definition same_or_shorter (out inp : pystr) : Prop :=
  out = inp \/ (length out < length inp)%nat.

End Shapes.

Module LambdaRun.

Definition region_of (w : world) : pystr :=
  default (py "us-east-1") (environ w !! "REGION"%string).
Definition branch_of (w : world) : pystr :=
  default (py "Lambda") (environ w !! "BRANCH_HINT"%string).

Definition detect_call (w : world) (bucket : pyval) (key : pystr) : call :=
  Rek_detect_labels (region_of w) bucket (PStr key) 10 f70.

(** The item as the handler builds it: the timestamp from the first
    reading of the clock, [ttl] from the second. *)
Definition built_item (w : world) (key : pystr) (labels : list LabelRecord)
    : gmap string item_value :=
  <["ttl"%string :=
      IVal (PInt (PyTime.int_seconds (clock w 1%nat) + 7 * 24 * 60 * 60))]>
    ({[ "filename"%string := IVal (PStr key);
        "labels"%string := ILabels labels;
        "timestamp"%string := IVal (PStr (PyTime.isoformat_Z (clock w 0%nat)));
        "branch"%string := IVal (PStr (branch_of w)) ]}).

Definition put_call (w : world) (table key : pystr)
    (labels : list LabelRecord) : call :=
  DDB_put_item (region_of w) table (built_item w key labels).

(** The handler, run from the initial state, as a decision tree over what
    the event and the collaborators deliver. *)
Definition handler_tree (w : world) (event : pyval) (table : pystr)
    : outcome handler_result * state :=
  match Lambda.parse_event event with
  | Raise _ => (Return (ResultError "bad_event"), initial)
  | Return (bucket, key) =>
      let c := detect_call w bucket key in
      match rek_answer w [] c with
      | Raise e =>
          (if is_ClientError e then Return (ResultError "rekognition_failed")
           else Raise e, mkState [c] 0)
      | Return resp =>
          match Lambda.build_labels resp with
          | Raise e => (Raise e, mkState [c] 0)
          | Return labels =>
              let p := put_call w table key labels in
              match ddb_answer w [c] p with
              | Raise e => (Raise e, mkState [c; p] 2)
              | Return _ =>
                  (match ddb_answer w [c; p] p with
                   | Raise e =>
                       if is_ClientError e
                       then Return (ResultError "ddb_failed")
                       else Raise e
                   | Return _ => Return (ResultOk (PStr key) (length labels))
                   end, mkState [c; p; p] 2)
              end
          end
      end
  end.

End LambdaRun.

Module RootRun.

(** The three subscript chains at the top of the handler. *)
Definition root_parse (event : pyval) : outcome (pyval * pyval) :=
  rec ← (records ← getitem_key event (py "Records"); getitem_0 records);
  bucket ← (s3 ← getitem_key rec (py "s3");
            b ← getitem_key s3 (py "bucket");
            getitem_key b (py "name"));
  key ← (s3 ← getitem_key rec (py "s3");
         o ← getitem_key s3 (py "object");
         getitem_key o (py "key"));
  mret (bucket, key).

Definition root_item (w : world) (key : pyval) (labels : list LabelRecord)
    : gmap string item_value :=
  {[ "filename"%string := IVal key;
     "labels"%string := ILabels labels;
     "timestamp"%string := IVal (PStr (PyTime.isoformat_Z (clock w 0%nat)));
     "branch"%string :=
       IVal (PStr (default (py "lambda") (environ w !! "BRANCH_HINT"%string))) ]}.

Definition root_handler_tree (w : world) (event : pyval) (region table : pystr)
    : outcome handler_result * state :=
  match root_parse event with
  | Raise e => (Raise e, initial)
  | Return (bucket, key) =>
      let c := Rek_detect_labels region bucket key 10 f70 in
      match rek_answer w [] c with
      | Raise e => (Raise e, mkState [c] 0)
      | Return resp =>
          match labels_comprehension (default [] (resp_Labels resp)) with
          | Raise e => (Raise e, mkState [c] 0)
          | Return labels =>
              let p := DDB_put_item region table (root_item w key labels) in
              (match ddb_answer w [c] p with
               | Raise e => Raise e
               | Return _ => Return (ResultOk key (length labels))
               end, mkState [c; p] 1)
          end
      end
  end.

End RootRun.

Module BatchRun.

Definition key_of (name : pystr) : pystr := py "rekognition-input/" ++ name.

(** The calls one file gives rise to when nothing fails. *)
Definition plan (name : pystr) : list call_shape :=
  [UploadOf (key_of name); DetectOf (PStr (key_of name));
   WriteOf (Some (IVal (PStr (key_of name))))].

(** What a run adds to the calls made so far: a prefix of what was to do,
    all of it when the run returns, and no write with a [ttl]. *)
Definition extends (todo : list call_shape) (st : state)
    (res : outcome unit * state) : Prop :=
  exists new,
    calls res.2 = calls st ++ new
    /\ shape <$> new `prefix_of` todo
    /\ (res.1 = Return tt -> shape <$> new = todo)
    /\ Forall (fun c => written_ttl c = None) new.

End BatchRun.

Module Inputs.

(** [{"Records": [{"s3": {"bucket": {"name": b}, "object": {"key": k}}}]}] *)
Definition s3_event (bucket key : pyval) : pyval :=
  PDict [(py "Records",
          PList [PDict [(py "s3",
                         PDict [(py "bucket", PDict [(py "name", bucket)]);
                                (py "object", PDict [(py "key", key)])])]])].

(** The floats that [91.235] and [91.236] denote:
    [6420092375049175 * 2^-46] lies a little below the decimal 91.235. *)
Definition f_91_235 : PyFloat.pyfloat := S754_finite false 6420092375049175 (-46).
Definition f_91_236 : PyFloat.pyfloat := S754_finite false 6420162743793353 (-46).

Definition shoe : detect_response :=
  mkResp (Some [mkRaw (Some (py "Shoe")) (Some f_91_236)]).

(** An entry without its [Name], followed by a complete one. *)
Definition partial : detect_response :=
  mkResp (Some [mkRaw None (Some f_91_236);
                mkRaw (Some (py "Shoe")) (Some f_91_236)]).

Definition no_labels : detect_response := mkResp (Some []).

Definition env : gmap string pystr :=
  {[ "DDB_TABLE"%string := py "results";
     "DYNAMODB_TABLE"%string := py "results";
     "AWS_REGION"%string := py "us-east-1";
     "S3_BUCKET"%string := py "images-bucket" ]}.

(** A clock that starts at 2023-11-14T22:13:20Z and advances by half a
    second between readings. *)
Definition ticking (n : nat) : Z := 1700000000000000 + 500000 * Z.of_nat n.

Definition all_up (resp : detect_response) : world :=
  mkWorld env ticking (fun _ _ => Return tt) (fun _ _ => Return resp)
    (fun _ _ => Return tt).

(** The table refuses every write. *)
Definition table_down : world :=
  mkWorld env ticking (fun _ _ => Return tt) (fun _ _ => Return shoe)
    (fun _ _ => Raise ClientError).

(** The table accepts the first write and refuses the following ones. *)
Definition table_flaky (e : exn) : world :=
  mkWorld env ticking (fun _ _ => Return tt) (fun _ _ => Return shoe)
    (fun before _ => if existsb is_put_item before then Raise e else Return tt).

(** The labeling endpoint cannot be reached: botocore raises an
    [EndpointConnectionError], which is a [BotoCoreError]. *)
Definition rekognition_unreachable : world :=
  mkWorld env ticking (fun _ _ => Return tt) (fun _ _ => Raise BotoCoreError)
    (fun _ _ => Return tt).

Definition rekognition_error : world :=
  mkWorld env ticking (fun _ _ => Return tt) (fun _ _ => Raise ClientError)
    (fun _ _ => Return tt).

Definition event_a : pyval := s3_event (PStr (py "images-bucket")) (PStr (py "a.jpg")).
Definition escaped_key : pystr := py "rekognition-input%2Fprod%2Fx.jpg".
Definition event_escaped : pyval :=
  s3_event (PStr (py "images-bucket")) (PStr escaped_key).
Definition event_plus : pyval :=
  s3_event (PStr (py "images-bucket")) (PStr (py "my+photo.jpg")).
Definition event_empty : pyval := PDict [].

Definition listing : list pystr :=
  [py "notes.txt"; py "b.PNG"; py "a.jpg"; py ".jpg"; py "c.JpEg"; py "d.gif"].

End Inputs.


(* ===================================================================== *)
(** ** Logging: to_plain and json.dumps *)
(* ===================================================================== *)

Module Log.

(** The objects the log statements handle: the values of [pyval], and
    [Decimal].  A [dict] is the list of its bindings in insertion order. *)
#[warnings="-register-all"]
Inductive pyobj : Type :=
  | ONone
  | OBool (b : bool)
  | OInt (z : Z)
  | OFloat (f : PyFloat.pyfloat)
  | ODecimal (d : PyDecimal.decimal)
  | OStr (s : pystr)
  | OList (l : list pyobj)
  | ODict (d : list (pystr * pyobj)).

(** [float(x)] for a [Decimal] [x]: the float nearest to it. *)
Definition float_of_decimal (d : PyDecimal.decimal) : PyFloat.pyfloat :=
  match d with
  | PyDecimal.DFinite s c e => PyFloat.strtod s c e
  | PyDecimal.DInfinity s => S754_infinity s
  | PyDecimal.DNaN _ => S754_nan
  end.

(** [def to_plain(x)]: a [Decimal] becomes a float, lists and dicts are
    rebuilt from their converted members, anything else is returned. *)
Fixpoint to_plain (x : pyobj) : pyobj :=
  match x with
  | ODecimal d => OFloat (float_of_decimal d)
  | OList l => OList (List.map to_plain l)
  | ODict d => ODict (List.map (fun kv => let '(k, v) := kv in (k, to_plain v)) d)
  | _ => x
  end.

(** What [json.dumps] has an encoder for: everything but a [Decimal]. *)
Fixpoint json_encodable (x : pyobj) : bool :=
  match x with
  | ODecimal _ => false
  | OList l => forallb json_encodable l
  | ODict d => forallb (fun kv => let '(k, v) := kv in json_encodable v) d
  | _ => true
  end.

(** [json.dumps(x, indent=2)], as far as raising goes: [TypeError] for an
    object that holds a value it has no encoder for. *)
Definition json_dumps (x : pyobj) : outcome unit :=
  if json_encodable x then Return tt else Raise TypeError.

(** A JSON value as an object. *)
Fixpoint of_pyval (v : pyval) : pyobj :=
  match v with
  | PNone => ONone
  | PBool b => OBool b
  | PInt z => OInt z
  | PFloat f => OFloat f
  | PStr s => OStr s
  | PList l => OList (List.map of_pyval l)
  | PDict d => ODict (List.map (fun kv => let '(k, v) := kv in (k, of_pyval v)) d)
  end.

(** [{"Name": ..., "Confidence": Decimal(...)}], an entry of [labels]. *)
Definition label_obj (r : LabelRecord) : pyobj :=
  ODict [(py "Name", OStr (Name r)); (py "Confidence", ODecimal (Confidence r))].

Definition item_value_obj (v : item_value) : pyobj :=
  match v with
  | IVal v => of_pyval v
  | ILabels l => OList (List.map label_obj l)
  end.

(** The fields of the [item = {...}] literal, in the order it lists them. *)
Definition item_fields (filename : pyval) (labels : list LabelRecord)
    (timestamp branch : pystr) : list (string * item_value) :=
  [("filename"%string, IVal filename); ("labels"%string, ILabels labels);
   ("timestamp"%string, IVal (PStr timestamp));
   ("branch"%string, IVal (PStr branch))].

(** An item, given by its fields, as the [dict] it is. *)
Definition item_obj (fields : list (string * item_value)) : pyobj :=
  ODict (List.map (fun kv => (py kv.1, item_value_obj kv.2)) fields).

(** [{"Name": l["Name"], "Confidence": float(l["Confidence"])}] *)
Definition label_log (r : LabelRecord) : pyobj :=
  ODict [(py "Name", OStr (Name r));
         (py "Confidence", OFloat (float_of_decimal (Confidence r)))].

(** The four objects that the handler of [src/lambda/lambda_handler.py]
    passes to [json.dumps]; [details] is [str(e)]. *)
Definition bad_event_log (details : pystr) (event : pyval) : pyobj :=
  ODict [(py "error", OStr (py "Bad S3 event shape"));
         (py "details", OStr details);
         (py "event_sample", of_pyval event)].

Definition rekognition_failed_log (details : pystr) (bucket : pyval)
    (key : pystr) : pyobj :=
  ODict [(py "error", OStr (py "Rekognition.detect_labels failed"));
         (py "details", OStr details);
         (py "bucket", of_pyval bucket);
         (py "key", OStr key)].

Definition result_log (key : pystr) (labels : list LabelRecord)
    (timestamp branch : pystr) : pyobj :=
  ODict [(py "filename", OStr key);
         (py "labels", OList (List.map label_log labels));
         (py "timestamp", OStr timestamp);
         (py "branch", OStr branch)].

Definition ddb_failed_log (details table : pystr)
    (fields : list (string * item_value)) : pyobj :=
  ODict [(py "error", OStr (py "DynamoDB.put_item failed"));
         (py "details", OStr details);
         (py "table", OStr table);
         (py "about_to_write", to_plain (item_obj fields))].

End Log.

(* ===================================================================== *)
(** ** The encoding that unquote_plus undoes *)
(* ===================================================================== *)

(** [urllib.parse.quote_plus(string, safe)], the kind of encoding in which
    an S3 notification carries an object key: the key is encoded in UTF-8;
    a space becomes ['+']; a letter, a digit, one of [_.-~] or a character
    of [safe] stands for itself; and every other byte becomes ['%']
    followed by its two upper-case hex digits. *)
Module Quote.

(** A code point that UTF-8 encodes: up to U+10FFFF and no surrogate. *)
Definition is_scalar (c : N) : bool :=
  ((c <? 55296) || ((57343 <? c) && (c <? 1114112)))%N.

(** [chr(c).encode('utf-8')] *)
Definition utf8_encode_char (c : N) : list N :=
  (if c <? 128 then [c]
   else if c <? 2048 then [192 + c / 64; 128 + c mod 64]
   else if c <? 65536
        then [224 + c / 4096; 128 + (c / 64) mod 64; 128 + c mod 64]
        else [240 + c / 262144; 128 + (c / 4096) mod 64;
              128 + (c / 64) mod 64; 128 + c mod 64])%N.

Definition utf8_encode (s : pystr) : list N := flat_map utf8_encode_char s.

(** [_ALWAYS_SAFE]: the letters, the digits and [_.-~]. *)
Definition always_safe (b : N) : bool :=
  (((65 <=? b) && (b <=? 90)) || ((97 <=? b) && (b <=? 122))
   || ((48 <=? b) && (b <=? 57))
   || (b =? 95) || (b =? 46) || (b =? 45) || (b =? 126))%N.

(** One digit of ['%{:02X}']. *)
Definition hex_digit (n : N) : N := (if n <? 10 then 48 + n else 55 + n)%N.

Definition quote_byte (safe : N -> bool) (b : N) : pystr :=
  if (b =? Urllib.SPACE)%N then [Urllib.PLUS]
  else if always_safe b || safe b then [b]
  else [Urllib.PERCENT; hex_digit (b / 16); hex_digit (b mod 16)].

Definition quote_plus (safe : N -> bool) (s : pystr) : pystr :=
  flat_map (quote_byte safe) (utf8_encode s).

(** A [safe] argument that the decoding can undo: ASCII characters other
    than ['%'] and ['+']. *)
Definition decodable (safe : N -> bool) : Prop :=
  forall b, safe b = true ->
    Urllib.is_ascii b = true /\ b <> Urllib.PERCENT /\ b <> Urllib.PLUS.

(** [safe=''], the default, and [safe='/']. *)
Definition no_safe (b : N) : bool := false.
Definition slash_safe (b : N) : bool := (b =? 47)%N.

End Quote.

(* ===================================================================== *)
(** ** More observations on a run *)
(* ===================================================================== *)

(** [event["Records"][0]], the only record the handlers look at. *)
Definition first_record (event : pyval) : outcome pyval :=
  records ← getitem_key event (py "Records"); getitem_0 records.


(** The region of the client a call goes through, the table a write goes
    to, and a field of the item it writes. *)
Definition call_region (c : call) : pystr :=
  match c with
  | S3_upload_file r _ _ _ => r
  | Rek_detect_labels r _ _ _ _ => r
  | DDB_put_item r _ _ => r
  end.

Definition call_table (c : call) : option pystr :=
  match c with
  | DDB_put_item _ t _ => Some t
  | _ => None
  end.

Definition written_field (k : string) (c : call) : option item_value :=
  match c with
  | DDB_put_item _ _ item => item !! k
  | _ => None
  end.

(** Every entry of the response has its name and its confidence. *)
Definition all_complete (entries : list raw_label) : bool :=
  forallb (fun l => bool_decide (is_Some (well_formed l))) entries.

(** The records made from the complete entries of a response. *)
Definition records_of (resp : detect_response) : list LabelRecord :=
  make_record <$> omap well_formed (default [] (resp_Labels resp)).

Module MoreInputs.

(** A notification with two records and a field beside [Records]. *)
Definition event_two_records : pyval :=
  PDict [(py "Source", PStr (py "aws:s3"));
         (py "Records",
          PList [PDict [(py "s3",
                         PDict [(py "bucket",
                                 PDict [(py "name", PStr (py "images-bucket"))]);
                                (py "object",
                                 PDict [(py "key", PStr (py "a.jpg"))])])];
                 PDict [(py "s3",
                         PDict [(py "bucket",
                                 PDict [(py "name", PStr (py "other-bucket"))]);
                                (py "object",
                                 PDict [(py "key", PStr (py "b.jpg"))])])]])].

(** Rekognition finds nothing; S3 and the table accept everything. *)
Definition nothing_found : world := Inputs.all_up Inputs.no_labels.

(** S3 refuses the upload. *)
Definition s3_down : world :=
  mkWorld Inputs.env Inputs.ticking (fun _ _ => Raise S3UploadFailedError)
    (fun _ _ => Return Inputs.shoe) (fun _ _ => Return tt).

(** [in/my photo+é 100%.jpg] *)
Definition odd_key : pystr :=
  py "in/my photo+" ++ [233%N] ++ py " 100%.jpg".

End MoreInputs.

(** An escape in a key: a ['%'] followed by two hex digits, what
    [unquote] replaces. *)
Fixpoint has_escape (s : pystr) : bool :=
  match s with
  | [] => false
  | c :: rest =>
      match rest with
      | h1 :: h2 :: _ =>
          (c =? Urllib.PERCENT)%N
          && match Urllib.hexval h1, Urllib.hexval h2 with
             | Some _, Some _ => true
             | _, _ => false
             end
      | _ => false
      end
      || has_escape rest
  end.

(** The day number, counted from 1970-01-01, of a proleptic Gregorian
    date: the inverse of [PyTime.civil_from_days]. *)
Definition days_from_civil (y m d : Z) : Z :=
  let y' := if m <=? 2 then y - 1 else y in
  let era := y' / 400 in
  let yoe := y' - era * 400 in
  let doy := (153 * (if 2 <? m then m - 3 else m + 9) + 2) / 5 + d - 1 in
  let doe := yoe * 365 + yoe / 4 - yoe / 100 + doy in
  era * 146097 + doe - 719468.

(** The instants [datetime] can represent, in microseconds since the
    epoch: from 0001-01-01T00:00:00 up to 9999-12-31T23:59:59.999999. *)
Definition datetime_min : Z := -62135596800000000.
Definition datetime_max : Z := 253402300800000000.

(** [YYYY-MM-DDTHH:MM:SSZ] *)
Definition timestamp_form (y mo d h mi s : Z) : pystr :=
  PyFloat.digits_of 4 y ++ py "-" ++ PyFloat.digits_of 2 mo ++ py "-"
    ++ PyFloat.digits_of 2 d ++ py "T"
    ++ PyFloat.digits_of 2 h ++ py ":"
    ++ PyFloat.digits_of 2 mi ++ py ":"
    ++ PyFloat.digits_of 2 s ++ py "Z".

(** Reading the stored decimal back as a float, [float(Decimal(str(f)))],
    returns [f], for the float [f] nearest to [q / 100]. *)
Definition logged_exactly (q : Z) : bool :=
  let f := PyFloat.strtod false q (-2) in
  match PyDecimal.Decimal (PyFloat.str_float f) with
  | Return d => bool_decide (Log.float_of_decimal d = f)
  | Raise _ => false
  end.

(* ===================================================================== *)
(** ** Facts about the built-ins *)
(* ===================================================================== *)

Module DecimalFacts.
Import PyFloat PyDecimal Shapes.

Lemma span_digits_all ds :
  digits ds -> span_digits ds = (ds, []).
Proof.
  induction 1 as [|c ds Hc _ IH]; simpl; [done|].
  by rewrite Hc, IH.
Qed.

Lemma span_digits_app ds c r :
  digits ds -> is_digit c = false ->
  span_digits (ds ++ c :: r) = (ds, c :: r).
Proof.
  intros Hds Hc. induction Hds as [|d ds Hd _ IH]; simpl.
  - by rewrite Hc.
  - by rewrite Hd, IH.
Qed.

Lemma digit_char_is_digit d : 0 <= d < 10 -> is_digit (digit_char d) = true.
Proof.
  intros Hd. unfold is_digit, digit_char.
  apply andb_true_iff. split; apply N.leb_le; lia.
Qed.

Lemma digits_rev_digits n D :
  digits (digits_rev n D).
Proof.
  revert D. induction n as [|n IH]; intros D; simpl; constructor; [|done].
  apply digit_char_is_digit. apply Z.mod_pos_bound. lia.
Qed.

Lemma digits_rev_length n D : length (digits_rev n D) = n.
Proof. revert D. induction n as [|n IH]; intros D; simpl; [done|]. by rewrite IH. Qed.

Lemma digits_of_digits n D : digits (digits_of n D).
Proof. unfold digits_of. apply Forall_rev, digits_rev_digits. Qed.

Lemma digits_of_length n D : length (digits_of n D) = Z.to_nat n.
Proof. unfold digits_of. by rewrite length_rev, digits_rev_length. Qed.

Lemma zeros_digits k : digits (zeros k).
Proof. unfold zeros. induction (Z.to_nat k); simpl; by constructor. Qed.

Lemma shortest_ge fuel m e n : n <= (shortest fuel m e n).1.1.
Proof.
  revert n. induction fuel as [|fuel IH]; intros n; simpl.
  - destruct (sig_digits m e n); simpl; lia.
  - destruct (sig_digits m e n) as [D p].
    destruct (float_eqb _ _); simpl; [lia|].
    specialize (IH (n + 1)). lia.
Qed.

(** A string that starts with a digit is none of the special values. *)
Lemma parse_body_digit sign c body :
  is_digit c = true ->
  parse_body sign (c :: body) =
    let '(ip, r1) := span_digits (c :: body) in
    let '(fp, r2) :=
      match r1 with
      | c :: r => if (c =? 46)%N then span_digits r else ([], r1)
      | [] => ([], [])
      end in
    if is_nil ip && is_nil fp then Raise InvalidOperation
    else
      let coef := digits_value (ip ++ fp) in
      let nfrac := Z.of_nat (length fp) in
      match r2 with
      | [] => Return (DFinite sign coef (- nfrac))
      | c :: r =>
          if (lower_ascii c =? 101)%N then
            let '(eneg, r') := strip_sign r in
            let '(ed, r3) := span_digits r' in
            if is_nil ed || negb (is_nil r3) then Raise InvalidOperation
            else
              let x := digits_value ed in
              Return (DFinite sign coef ((if eneg then - x else x) - nfrac))
          else Raise InvalidOperation
      end.
Proof.
  intros Hc. unfold parse_body.
  assert (Hl : lower_ascii c = c).
  { unfold lower_ascii, is_digit in *.
    apply andb_true_iff in Hc as [H1 H2]. apply N.leb_le in H1, H2.
    destruct (65 <=? c)%N eqn:E; [apply N.leb_le in E; lia|done]. }
  assert (Hne : forall t, pystr_eqb (List.map lower_ascii (c :: body)) (py t) = true ->
            exists a r, list_ascii_of_string t = a :: r /\ N_of_ascii a = c).
  { intros t. unfold pystr_eqb, py. case_decide as Heq; [|done]. intros _.
    simpl in Heq. rewrite Hl in Heq.
    destruct (list_ascii_of_string t) as [|a r]; [done|].
    simpl in Heq. injection Heq as -> _. eauto. }
  assert (Hd : forall t a r, list_ascii_of_string t = a :: r -> is_digit (N_of_ascii a) = false ->
            pystr_eqb (List.map lower_ascii (c :: body)) (py t) = false).
  { intros t a r Ht Ha. destruct (pystr_eqb _ _) eqn:E; [|done].
    apply Hne in E as (a' & r' & Ht' & <-). rewrite Ht in Ht'. injection Ht' as <- _.
    congruence. }
  rewrite (Hd "inf"%string "i"%char _ eq_refl eq_refl).
  rewrite (Hd "infinity"%string "i"%char _ eq_refl eq_refl).
  rewrite (Hd "nan"%string "n"%char _ eq_refl eq_refl).
  reflexivity.
Qed.

Lemma parse_body_number sign ip fp (dot : bool) tail x :
  digits ip -> digits fp -> ip <> [] -> (dot = false -> fp = []) ->
  exp_part tail x ->
  parse_body sign (ip ++ (if dot then 46%N :: fp else []) ++ tail)
  = Return (DFinite sign (digits_value (ip ++ fp)) (x - Z.of_nat (length fp))).
Proof.
  intros Hip Hfp Hne Hdot Htail.
  destruct ip as [|c ip']; [done|]. clear Hne.
  pose proof (Forall_inv Hip) as Hc.
  change ((c :: ip') ++ ?t) with (c :: (ip' ++ t)).
  rewrite parse_body_digit by done.
  change (c :: (ip' ++ ?t)) with ((c :: ip') ++ t).
  assert (Hspan_tail : forall ds, digits ds ->
            span_digits (ds ++ tail) = (ds, tail)).
  { intros ds Hds. destruct Htail.
    - rewrite app_nil_r. by apply span_digits_all.
    - by apply span_digits_app.
    - by apply span_digits_app. }
  assert (Hfin : forall fp',
    (if is_nil (c :: ip') && is_nil fp' then Raise InvalidOperation
     else
       match tail with
       | [] => Return (DFinite sign (digits_value ((c :: ip') ++ fp')) (- Z.of_nat (length fp')))
       | c0 :: r =>
           if (lower_ascii c0 =? 101)%N then
             let '(eneg, r') := strip_sign r in
             let '(ed, r3) := span_digits r' in
             if is_nil ed || negb (is_nil r3) then Raise InvalidOperation
             else Return (DFinite sign (digits_value ((c :: ip') ++ fp'))
                            ((if eneg then - digits_value ed else digits_value ed)
                             - Z.of_nat (length fp')))
           else Raise InvalidOperation
       end)
    = Return (DFinite sign (digits_value ((c :: ip') ++ fp')) (x - Z.of_nat (length fp')))).
  { intros fp'. simpl is_nil. simpl andb. cbv iota.
    destruct Htail as [|ed Hed Hne|ed Hed Hne].
    - done.
    - simpl. rewrite (span_digits_all ed Hed). destruct ed; [done|]. done.
    - simpl. rewrite (span_digits_all ed Hed). destruct ed; [done|]. done. }
  destruct dot.
  - change ((46%N :: fp) ++ tail) with (46%N :: (fp ++ tail)).
    rewrite (span_digits_app (c :: ip') 46%N (fp ++ tail)) by done.
    lazy beta iota zeta. change (46 =? 46)%N with true. lazy iota.
    rewrite (Hspan_tail fp Hfp). apply Hfin.
  - rewrite (Hdot eq_refl). change ([] ++ tail) with tail.
    rewrite (Hspan_tail (c :: ip') Hip).
    destruct Htail as [|ed Hed Hne|ed Hed Hne].
    + apply (Hfin []).
    + lazy beta iota zeta. change (101 =? 46)%N with false. lazy iota.
      apply (Hfin []).
    + lazy beta iota zeta. change (101 =? 46)%N with false. lazy iota.
      apply (Hfin []).
Qed.

Lemma numeric_parse sign body :
  numeric body -> exists c x, parse_body sign body = Return (DFinite sign c x).
Proof.
  intros (ip & fp & dot & tail & x & -> & Hip & Hfp & Hne & Hdot & Htail).
  eexists _, _. by apply parse_body_number.
Qed.

Lemma numeric_strip_sign body : numeric body -> strip_sign body = (false, body).
Proof.
  intros (ip & fp & dot & tail & x & -> & Hip & Hfp & Hne & Hdot & Htail).
  destruct ip as [|c ip']; [done|]. simpl.
  pose proof (Forall_inv Hip) as Hc. simpl in Hc.
  unfold is_digit in Hc. apply andb_true_iff in Hc as [H1 H2].
  apply N.leb_le in H1, H2.
  destruct (c =? 45)%N eqn:E1; [apply N.eqb_eq in E1; lia|].
  destruct (c =? 43)%N eqn:E2; [apply N.eqb_eq in E2; lia|]. done.
Qed.

Lemma digits_of_nonempty n D : 0 < n -> digits_of n D <> [].
Proof.
  intros Hn Hnil. apply (f_equal length) in Hnil.
  rewrite digits_of_length in Hnil. simpl in Hnil. lia.
Qed.

Lemma exp_digits_ok x :
  let ed := if Z.abs x <? 10 then py "0" ++ digits_of 1 (Z.abs x)
            else if Z.abs x <? 100 then digits_of 2 (Z.abs x)
            else digits_of 3 (Z.abs x) in
  digits ed /\ ed <> [].
Proof.
  simpl. destruct (Z.abs x <? 10); [|destruct (Z.abs x <? 100)].
  - split; [|done]. constructor; [done|]. apply digits_of_digits.
  - split; [apply digits_of_digits|]. by apply digits_of_nonempty.
  - split; [apply digits_of_digits|]. by apply digits_of_nonempty.
Qed.

Lemma layout_numeric ds n decpt :
  digits ds -> length ds = Z.to_nat n -> 1 <= n -> numeric (layout ds n decpt).
Proof.
  intros Hds Hlen Hn. unfold layout, numeric.
  destruct ds as [|d1 ds']; [simpl in Hlen; lia|].
  destruct ((decpt <=? -4) || (16 <? decpt)) eqn:Esci.
  - (* exponent notation *)
    destruct (exp_digits_ok (decpt - 1)) as [Hed Hne].
    set (ed := if Z.abs (decpt - 1) <? 10 then _ else _) in *.
    exists [d1], (if 1 <? n then ds' else []), (1 <? n).
    destruct (decpt - 1 <? 0).
    + exists (101%N :: 45%N :: ed), (- digits_value ed).
      split; [by destruct (1 <? n)|].
      split; [constructor; [by apply Forall_inv in Hds|done]|].
      split; [destruct (1 <? n); [by apply Forall_inv_tail in Hds|done]|].
      split; [done|]. split; [by intros ->|]. by constructor.
    + exists (101%N :: 43%N :: ed), (digits_value ed).
      split; [by destruct (1 <? n)|].
      split; [constructor; [by apply Forall_inv in Hds|done]|].
      split; [destruct (1 <? n); [by apply Forall_inv_tail in Hds|done]|].
      split; [done|]. split; [by intros ->|]. by constructor.
  - destruct (decpt <=? 0) eqn:Ez; [|destruct (n <=? decpt) eqn:Ei].
    + exists [48%N], (zeros (- decpt) ++ d1 :: ds'), true, [], 0.
      split; [by rewrite app_nil_r|].
      split; [by constructor|].
      split; [apply Forall_app; split; [apply zeros_digits|done]|].
      split; [done|]. split; [done|]. constructor.
    + exists ((d1 :: ds') ++ zeros (decpt - n)), [48%N], true, [], 0.
      split; [by rewrite app_nil_r, <- app_assoc|].
      split; [apply Forall_app; split; [done|apply zeros_digits]|].
      split; [by constructor|].
      split; [done|]. split; [done|]. constructor.
    + exists (firstn (Z.to_nat decpt) (d1 :: ds')),
             (skipn (Z.to_nat decpt) (d1 :: ds')), true, [], 0.
      split; [by rewrite app_nil_r|].
      split; [by apply Forall_take|].
      split; [by apply Forall_drop|].
      split; [|split; [done|constructor]].
      apply Z.leb_gt in Ez.
      destruct (Z.to_nat decpt) eqn:Ek; [lia|]. done.
Qed.

(** [Decimal(str(x))] never raises for a float [x]. *)
Lemma Decimal_str_float (x : pyfloat) :
  exists d, Decimal (str_float x) = Return d.
Proof.
  destruct x as [s|s| |s m e]; simpl.
  - destruct s; eexists; reflexivity.
  - destruct s; eexists; reflexivity.
  - eexists; reflexivity.
  - unfold repr_digits.
    pose proof (shortest_ge 16 m e 1) as Hn.
    destruct (shortest 16 m e 1) as [[n D] decpt]. simpl in Hn.
    assert (Hnum : numeric (layout (digits_of n D) n decpt)).
    { apply layout_numeric; [apply digits_of_digits|apply digits_of_length|done]. }
    unfold Decimal. destruct s.
    + change (py "-" ++ ?b) with (45%N :: b). simpl strip_sign.
      destruct (numeric_parse true _ Hnum) as (c & x & ->). eauto.
    + change ([] ++ ?b) with b. rewrite (numeric_strip_sign _ Hnum).
      destruct (numeric_parse false _ Hnum) as (c & x & ->). eauto.
Qed.

End DecimalFacts.

Module UrllibFacts.
Import Urllib Shapes.

Lemma utf8_decode_length_fuel n :
  forall bs, (length bs <= n)%nat -> (length (utf8_decode bs) <= length bs)%nat.
Proof.
  induction n as [|n IH]; intros bs Hle.
  - destruct bs; simpl in *; lia.
  - destruct bs as [|b1 r1]; [simpl; lia|].
    simpl in Hle. simpl utf8_decode.
    repeat case_match; subst; cbn [length] in *;
      repeat match goal with
             | |- context [utf8_decode ?r] =>
                 lazymatch goal with
                 | H : (length (utf8_decode r) <= length r)%nat |- _ => fail
                 | _ => pose proof (IH r ltac:(cbn [length] in *; lia))
                 end
             end; cbn [length] in *; lia.
Qed.

Lemma utf8_decode_length bs : (length (utf8_decode bs) <= length bs)%nat.
Proof. by apply (utf8_decode_length_fuel (length bs)). Qed.

Lemma utf8_decode_ascii bs : ascii_only bs -> utf8_decode bs = bs.
Proof.
  induction 1 as [|b bs Hb _ IH]; [done|].
  simpl. by rewrite Hb, IH.
Qed.

Lemma unquote_to_bytes_length_fuel n :
  forall s, (length s <= n)%nat ->
  (length (unquote_to_bytes s) <= length s)%nat
  /\ (unquote_to_bytes s = s \/ (length (unquote_to_bytes s) < length s)%nat).
Proof.
  induction n as [|n IH]; intros s Hle.
  - destruct s; simpl in *; [auto|lia].
  - destruct s as [|c rest]; [simpl; auto|].
    simpl in Hle.
    assert (Hkeep : (length (c :: unquote_to_bytes rest) <= length (c :: rest))%nat
              /\ (c :: unquote_to_bytes rest = c :: rest
                  \/ (length (c :: unquote_to_bytes rest) < length (c :: rest))%nat)).
    { destruct (IH rest ltac:(lia)) as [H1 [H2|H2]]; simpl.
      - split; [lia|]. left. by rewrite H2.
      - split; [lia|]. right. lia. }
    simpl unquote_to_bytes.
    destruct (c =? PERCENT)%N; [|exact Hkeep].
    destruct rest as [|h1 [|h2 rest']]; [exact Hkeep..|].
    destruct (hexval h1); [|exact Hkeep].
    destruct (hexval h2); [|exact Hkeep].
    simpl in *. destruct (IH rest' ltac:(lia)) as [H1 _].
    split; [lia|]. right. lia.
Qed.

Lemma unquote_to_bytes_length s :
  (length (unquote_to_bytes s) <= length s)%nat
  /\ (unquote_to_bytes s = s \/ (length (unquote_to_bytes s) < length s)%nat).
Proof. by apply (unquote_to_bytes_length_fuel (length s)). Qed.

Lemma same_or_shorter_le out inp :
  same_or_shorter out inp -> (length out <= length inp)%nat.
Proof. intros [->|H]; lia. Qed.

Lemma same_or_shorter_app o1 i1 o2 i2 :
  same_or_shorter o1 i1 -> same_or_shorter o2 i2 ->
  same_or_shorter (o1 ++ o2) (i1 ++ i2).
Proof.
  intros H1 H2.
  pose proof (same_or_shorter_le _ _ H1). pose proof (same_or_shorter_le _ _ H2).
  destruct H1 as [->|H1], H2 as [->|H2]; [by left|right..];
    rewrite !length_app; lia.
Qed.

Lemma decode_run_shape run :
  ascii_only run -> same_or_shorter (decode_run run) run.
Proof.
  intros Hrun. unfold decode_run.
  destruct (unquote_to_bytes_length run) as [_ [Heq|Hlt]].
  - left. rewrite Heq. by apply utf8_decode_ascii.
  - right. pose proof (utf8_decode_length (unquote_to_bytes run)). lia.
Qed.

Lemma unquote_runs_shape s run :
  ascii_only run -> same_or_shorter (unquote_runs s run) (run ++ s).
Proof.
  revert run. induction s as [|c s IH]; intros run Hrun; simpl.
  - rewrite app_nil_r. by apply decode_run_shape.
  - destruct (is_ascii c) eqn:Ec.
    + replace (run ++ c :: s) with ((run ++ [c]) ++ s) by by rewrite <- app_assoc.
      apply IH. apply Forall_app. split; [done|]. by constructor.
    + apply same_or_shorter_app; [by apply decode_run_shape|].
      apply (same_or_shorter_app [c] [c]); [by left|].
      apply (IH []). constructor.
Qed.

Lemma unquote_shape s : same_or_shorter (unquote s) s.
Proof.
  unfold unquote. destruct (negb (contains PERCENT s)); [by left|].
  apply (unquote_runs_shape s []). constructor.
Qed.

Lemma replace_plus_length s : length (replace_plus s) = length s.
Proof. unfold replace_plus. apply length_map. Qed.

Lemma replace_plus_no_plus s : contains PLUS (replace_plus s) = false.
Proof.
  induction s as [|c s IH]; [done|].
  unfold contains, replace_plus in *. cbn [List.map existsb].
  rewrite IH, orb_false_r.
  destruct (c =? PLUS)%N eqn:E; [done|].
  rewrite N.eqb_sym. exact E.
Qed.

Lemma replace_plus_percent s :
  contains PERCENT (replace_plus s) = contains PERCENT s.
Proof.
  induction s as [|c s IH]; [done|].
  unfold contains, replace_plus in *. cbn [List.map existsb].
  rewrite IH. f_equal.
  destruct (c =? PLUS)%N eqn:E; [|done].
  apply N.eqb_eq in E as ->. done.
Qed.

(** A key with a ['+'] never decodes to itself. *)
Lemma unquote_plus_changes s :
  contains PLUS s = true -> unquote_plus s <> s.
Proof.
  intros Hplus Heq. unfold unquote_plus in Heq.
  destruct (unquote_shape (replace_plus s)) as [H|H].
  - rewrite H in Heq. pose proof (replace_plus_no_plus s) as Hno.
    rewrite Heq in Hno. congruence.
  - rewrite Heq, replace_plus_length in H. lia.
Qed.

(** Without a ['%'] the decoding is the replacement of ['+'] alone. *)
Lemma unquote_plus_no_percent s :
  contains PERCENT s = false -> unquote_plus s = replace_plus s.
Proof.
  intros H. unfold unquote_plus, unquote.
  by rewrite replace_plus_percent, H.
Qed.

End UrllibFacts.

(* ===================================================================== *)
(** ** The label normalisers *)
(* ===================================================================== *)

Module LabelFacts.
Import Lambda.

Lemma confidence_returns conf :
  confidence conf = Return (confidence_value conf).
Proof.
  unfold confidence_value.
  destruct (DecimalFacts.Decimal_str_float
              (PyFloat.round_float (PyFloat.float conf) 2)) as [d Hd].
  unfold confidence. by rewrite Hd.
Qed.

Lemma omap_cons {A B} (f : A -> option B) x l :
  omap f (x :: l) = match f x with Some y => y :: omap f l | None => omap f l end.
Proof. done. Qed.

Lemma build_labels_loop_eq ls acc :
  build_labels_loop ls acc
  = Return (acc ++ (make_record <$> omap well_formed ls)).
Proof.
  revert acc. induction ls as [|[[name|] [conf|]] ls IH]; intros acc;
    cbn [build_labels_loop lbl_Name lbl_Confidence]; rewrite ?omap_cons;
    cbn [well_formed lbl_Name lbl_Confidence mbind option_bind];
    try apply IH.
  - simpl. by rewrite app_nil_r.
  - rewrite confidence_returns. cbn [mbind outcome_bind].
    rewrite IH. rewrite fmap_cons. by rewrite <- app_assoc.
Qed.

Lemma build_labels_eq resp :
  build_labels resp
  = Return (make_record <$> omap well_formed (default [] (resp_Labels resp))).
Proof. unfold build_labels. by rewrite build_labels_loop_eq. Qed.

Lemma make_record_of nc : record_of nc (make_record nc).
Proof. split; [done|]. apply confidence_returns. Qed.

(** The comprehension: all entries when each is complete, [KeyError]
    otherwise. *)
Lemma labels_comprehension_eq ls :
  labels_comprehension ls
  = if forallb (fun l => bool_decide (is_Some (well_formed l))) ls
    then Return (make_record <$> omap well_formed ls)
    else Raise KeyError.
Proof.
  induction ls as [|[[name|] [conf|]] ls IH]; [done| |done..].
  cbn [labels_comprehension forallb lbl_Name lbl_Confidence]. rewrite omap_cons.
  cbn [well_formed lbl_Name lbl_Confidence mbind option_bind from_option
       outcome_bind].
  pose proof (confidence_returns conf) as Hc.
  unfold confidence, PyFloat.float in Hc. rewrite Hc, IH.
  rewrite bool_decide_eq_true_2 by eauto. cbn [andb].
  by destruct (forallb _ ls).
Qed.

End LabelFacts.

(* ===================================================================== *)
(** ** Running the three programs *)
(* ===================================================================== *)

Module RunFacts.

Lemma lambda_run w event table :
  environ w !! "DDB_TABLE"%string = Some table ->
  run (Lambda.handler event) w = LambdaRun.handler_tree w event table.
Proof.
  intros Henv.
  cbv [LambdaRun.handler_tree LambdaRun.detect_call LambdaRun.put_call
       LambdaRun.built_item LambdaRun.region_of LambdaRun.branch_of
       run Lambda.handler mbind M_bind mret M_ret try_except
       environ_get environ_getitem lift detect_labels put_item perform
       iso_now int_time_time read_clock initial calls clock_reads].
  rewrite Henv.
  repeat (case_match; cbn [app] in *; simplify_eq; try done).
Qed.

Lemma root_run w event region table :
  environ w !! "AWS_REGION"%string = Some region ->
  environ w !! "DDB_TABLE"%string = Some table ->
  run (RootLambda.handler event) w = RootRun.root_handler_tree w event region table.
Proof.
  intros Hr Ht.
  cbv [RootRun.root_handler_tree RootRun.root_parse RootRun.root_item
       run RootLambda.handler mbind M_bind mret M_ret
       outcome_bind outcome_ret environ_get environ_getitem lift
       detect_labels put_item perform iso_now read_clock initial
       calls clock_reads].
  rewrite Hr, Ht.
  repeat (case_match; cbn [app] in *; simplify_eq; try done).
Qed.

Import Batch BatchRun.

Lemma process_extends region bucket table branch name w st :
  extends (plan name) st (process region bucket table branch name w st).
Proof.
  unfold extends, plan.
  cbv [process mbind M_bind mret M_ret lift upload_file detect_labels put_item
       perform iso_now read_clock calls clock_reads].
  fold (key_of name).
  destruct (s3_answer w _ _) as [[]|e]; cbn [fst snd calls].
  2:{ eexists [_]. split; [done|]. split; [by eexists [_; _]|].
      split; [done|]. by repeat constructor. }
  destruct (rek_answer w _ _) as [resp|e]; cbn [fst snd calls].
  2:{ eexists [_; _]. split; [by rewrite <- app_assoc|].
      split; [by eexists [_]|]. split; [done|]. by repeat constructor. }
  destruct (labels_comprehension _) as [labels|e]; cbn [fst snd calls].
  2:{ eexists [_; _]. split; [by rewrite <- app_assoc|].
      split; [by eexists [_]|]. split; [done|]. by repeat constructor. }
  destruct (json_dumps_item labels) as [[]|e]; cbn [fst snd calls].
  2:{ eexists [_; _]. split; [by rewrite <- app_assoc|].
      split; [by eexists [_]|]. split; [done|]. by repeat constructor. }
  eexists [_; _; _]. split; [by rewrite <- !app_assoc|].
  split; [by exists []|]. split; [done|]. by repeat constructor.
Qed.

Lemma for_each_extends region bucket table branch files w st :
  extends (flat_map plan files) st
    (for_each (process region bucket table branch) files w st).
Proof.
  revert st. induction files as [|name files IH]; intros st.
  - exists []. simpl. rewrite app_nil_r. repeat split; [by exists []|constructor].
  - cbn [for_each]. unfold mbind, M_bind.
    change (flat_map plan (name :: files)) with (plan name ++ flat_map plan files).
    destruct (process_extends region bucket table branch name w st)
      as (new1 & Hc1 & Hp1 & Hr1 & Ht1).
    destruct (process region bucket table branch name w st) as [[[]|e] st1];
      simpl in Hc1, Hr1.
    + destruct (IH st1) as (new2 & Hc2 & Hp2 & Hr2 & Ht2).
      exists (new1 ++ new2). split; [by rewrite Hc2, Hc1, app_assoc|].
      rewrite fmap_app, (Hr1 eq_refl).
      split; [by apply prefix_app|].
      split; [by intros H; rewrite (Hr2 H)|]. by apply Forall_app.
    + exists new1. split; [done|].
      split; [by apply prefix_app_r|]. split; [done|done].
Qed.

Lemma main_run w listing region bucket table :
  environ w !! "AWS_REGION"%string = Some region ->
  environ w !! "S3_BUCKET"%string = Some bucket ->
  environ w !! "DYNAMODB_TABLE"%string = Some table ->
  run (main listing) w =
    for_each (process region bucket table
                (default (py "unknown") (environ w !! "GITHUB_REF_NAME"%string)))
      (List.filter is_image listing) w initial.
Proof.
  intros H1 H2 H3.
  cbv [run main mbind M_bind environ_getitem environ_get].
  rewrite H1, H2, H3. by destruct (List.filter is_image listing).
Qed.

End RunFacts.

Module HandlerFacts.
Import LambdaRun.

Lemma parse_event_key event bucket key :
  Lambda.parse_event event = Return (bucket, key) ->
  exists raw, notified_key event = Return (PStr raw)
              /\ key = Urllib.unquote_plus raw.
Proof.
  cbv [Lambda.parse_event notified_key mbind mret outcome_bind outcome_ret
       unquote_plus_val].
  intros H. repeat (case_match; simplify_eq; try done). eauto.
Qed.

Lemma root_parse_key event bucket key :
  RootRun.root_parse event = Return (bucket, key) ->
  notified_key event = Return key.
Proof.
  cbv [RootRun.root_parse notified_key mbind mret outcome_bind outcome_ret].
  intros H. by repeat (case_match; simplify_eq; try done).
Qed.

(** A payload without ["Records"] does not parse. *)
Lemma parse_event_needs_records event :
  returns (getitem_key event (py "Records")) = false ->
  returns (Lambda.parse_event event) = false.
Proof.
  unfold Lambda.parse_event.
  by destruct (getitem_key event (py "Records")).
Qed.

Lemma built_item_filename w key labels :
  built_item w key labels !! "filename"%string = Some (IVal (PStr key)).
Proof. done. Qed.

Lemma built_item_ttl w key labels :
  built_item w key labels !! "ttl"%string
  = Some (IVal (PInt (PyTime.int_seconds (clock w 1%nat) + 604800))).
Proof. done. Qed.

Lemma root_item_filename w key labels :
  RootRun.root_item w key labels !! "filename"%string = Some (IVal key).
Proof. done. Qed.

Lemma root_item_ttl w key labels :
  RootRun.root_item w key labels !! "ttl"%string = None.
Proof. done. Qed.

(** Without [DDB_TABLE] the handler stops at [os.environ["DDB_TABLE"]]. *)
Lemma lambda_unconfigured w event :
  environ w !! "DDB_TABLE"%string = None ->
  run (Lambda.handler event) w = (Raise KeyError, initial).
Proof.
  intros Henv.
  cbv [run Lambda.handler mbind M_bind environ_get environ_getitem].
  by rewrite Henv.
Qed.

(** The calls of a run of the handler: none, or the detection followed by
    up to two writes of the same item. *)
Lemma lambda_calls w event :
  let cs := calls (run (Lambda.handler event) w).2 in
  cs = []
  \/ exists table bucket key labels,
       Lambda.parse_event event = Return (bucket, key)
       /\ let c := detect_call w bucket key in
          let p := put_call w table key labels in
          cs = [c] \/ cs = [c; p] \/ cs = [c; p; p].
Proof.
  cbv zeta. destruct (environ w !! "DDB_TABLE"%string) as [table|] eqn:Henv.
  2:{ left. by rewrite lambda_unconfigured. }
  rewrite (RunFacts.lambda_run _ _ _ Henv). unfold handler_tree.
  destruct (Lambda.parse_event event) as [[bucket key]|e]; [|by left].
  right. exists table, bucket, key.
  destruct (rek_answer w [] _) as [resp|e]; [|exists []; split; [done|by left]].
  rewrite LabelFacts.build_labels_eq. eexists. split; [done|].
  destruct (ddb_answer w [_] _); [|right; left; reflexivity].
  right; right; reflexivity.
Qed.

Lemma root_calls w event :
  let cs := calls (run (RootLambda.handler event) w).2 in
  cs = []
  \/ exists region table bucket key labels,
       RootRun.root_parse event = Return (bucket, key)
       /\ let c := Rek_detect_labels region bucket key 10 f70 in
          let p := DDB_put_item region table (RootRun.root_item w key labels) in
          cs = [c] \/ cs = [c; p].
Proof.
  cbv zeta. destruct (environ w !! "AWS_REGION"%string) as [region|] eqn:Hr.
  2:{ left. cbv [run RootLambda.handler mbind M_bind environ_getitem].
      by rewrite Hr. }
  destruct (environ w !! "DDB_TABLE"%string) as [table|] eqn:Ht.
  2:{ left. cbv [run RootLambda.handler mbind M_bind environ_getitem].
      by rewrite Hr, Ht. }
  rewrite (RunFacts.root_run _ _ _ _ Hr Ht). unfold RootRun.root_handler_tree.
  destruct (RootRun.root_parse event) as [[bucket key]|e]; [|by left].
  right. exists region, table, bucket, key.
  destruct (rek_answer w [] _) as [resp|e]; [|exists []; split; [done|by left]].
  destruct (labels_comprehension _) as [labels|e];
    [|exists []; split; [done|by left]].
  exists labels. split; [done|by right].
Qed.


End HandlerFacts.

(* ===================================================================== *)
(** ** Failure isolation of the event handlers *)
(* ===================================================================== *)

Module Isolation.
Import LambdaRun.

(** C1, as stated, fails.  The labeling call of the handler of
    [src/lambda/lambda_handler.py] sits under [except ClientError]: when the
    endpoint cannot be reached botocore raises a [BotoCoreError], which that
    clause does not match, and the fault leaves the handler instead of
    becoming a [{ok: false, error: ...}] result. *)
Lemma C1_detect_fault_escapes :
  (run (Lambda.handler Inputs.event_a) Inputs.rekognition_unreachable).1
  = Raise BotoCoreError.
Proof. vm_compute. reflexivity. Qed.

(** C1, amended.  In [src/lambda/lambda_handler.py] every exception of the
    parse stage gives [bad_event]; an exception of the labeling call gives
    [rekognition_failed] when it is a [ClientError] and leaves the handler
    otherwise; an exception of the persistence call under [try] gives
    [ddb_failed] when it is a [ClientError] and leaves the handler otherwise.
    The handler of [src/lambda_handler.py] has no [try]: what its parse
    stage raises leaves it, and it never returns a failure result. *)
Theorem C1_failure_isolation w event table :
  environ w !! "DDB_TABLE"%string = Some table ->
  let result := (run (Lambda.handler event) w).1 in
  (returns (Lambda.parse_event event) = false ->
     result = Return (ResultError "bad_event"))
  /\ (forall bucket key e,
        Lambda.parse_event event = Return (bucket, key) ->
        rek_answer w [] (detect_call w bucket key) = Raise e ->
        result = if is_ClientError e
                 then Return (ResultError "rekognition_failed") else Raise e)
  /\ (forall bucket key resp labels e,
        Lambda.parse_event event = Return (bucket, key) ->
        rek_answer w [] (detect_call w bucket key) = Return resp ->
        Lambda.build_labels resp = Return labels ->
        let c := detect_call w bucket key in
        let p := put_call w table key labels in
        ddb_answer w [c] p = Return tt ->
        ddb_answer w [c; p] p = Raise e ->
        result = if is_ClientError e
                 then Return (ResultError "ddb_failed") else Raise e)
  /\ (forall region,
        environ w !! "AWS_REGION"%string = Some region ->
        let root := (run (RootLambda.handler event) w).1 in
        (forall e, RootRun.root_parse event = Raise e -> root = Raise e)
        /\ (forall code, root <> Return (ResultError code))).
Proof.
  intros Henv result. subst result.
  rewrite (RunFacts.lambda_run _ _ _ Henv). unfold handler_tree.
  split; [|split; [|split]].
  - by destruct (Lambda.parse_event event).
  - intros bucket key e Hp Hd. by rewrite Hp, Hd.
  - intros bucket key resp labels e Hp Hd Hl. cbv zeta. intros Hw1 Hw2.
    by rewrite Hp, Hd, Hl, Hw1, Hw2.
  - intros region Hr. cbv zeta.
    rewrite (RunFacts.root_run _ _ _ _ Hr Henv). unfold RootRun.root_handler_tree.
    split; [by intros e ->|].
    intros code. repeat (case_match; simplify_eq; try done).
Qed.

Lemma C1_failure_isolation_witness :
  (run (Lambda.handler Inputs.event_empty) (Inputs.all_up Inputs.shoe)).1
    = Return (ResultError "bad_event")
  /\ (run (Lambda.handler Inputs.event_a) Inputs.rekognition_error).1
    = Return (ResultError "rekognition_failed")
  /\ (run (Lambda.handler Inputs.event_a) (Inputs.table_flaky ClientError)).1
    = Return (ResultError "ddb_failed").
Proof.
  split; [|split].
  - apply (C1_failure_isolation (Inputs.all_up Inputs.shoe) Inputs.event_empty
             (py "results") eq_refl).
    reflexivity.
  - apply (proj1 (proj2 (C1_failure_isolation Inputs.rekognition_error
             Inputs.event_a (py "results") eq_refl))
             (PStr (py "images-bucket")) (py "a.jpg") ClientError);
      reflexivity.
  - eapply (proj1 (proj2 (proj2 (C1_failure_isolation
             (Inputs.table_flaky ClientError) Inputs.event_a (py "results")
             eq_refl)))
             (PStr (py "images-bucket")) (py "a.jpg") Inputs.shoe _ ClientError);
      [reflexivity | reflexivity | vm_compute; reflexivity
      | reflexivity | reflexivity].
Defined.

(** C2: when the event parses and the labels are detected, an exception of
    the first [ddb.put_item(Item=item)], the one before the [try], leaves
    the handler: no [ddb_failed] result is returned for it, whatever its
    class. *)
Theorem C2_first_write_unguarded w event table bucket key resp labels e :
  environ w !! "DDB_TABLE"%string = Some table ->
  Lambda.parse_event event = Return (bucket, key) ->
  rek_answer w [] (detect_call w bucket key) = Return resp ->
  Lambda.build_labels resp = Return labels ->
  ddb_answer w [detect_call w bucket key] (put_call w table key labels)
    = Raise e ->
  (run (Lambda.handler event) w).1 = Raise e.
Proof.
  intros Henv Hp Hd Hl Hw.
  rewrite (RunFacts.lambda_run _ _ _ Henv). unfold handler_tree.
  by rewrite Hp, Hd, Hl, Hw.
Qed.

Lemma C2_first_write_unguarded_witness :
  (run (Lambda.handler Inputs.event_a) Inputs.table_down).1 = Raise ClientError.
Proof.
  eapply (C2_first_write_unguarded Inputs.table_down Inputs.event_a
            (py "results") (PStr (py "images-bucket")) (py "a.jpg")
            Inputs.shoe _ ClientError);
    [reflexivity | reflexivity | reflexivity | vm_compute; reflexivity
    | reflexivity].
Defined.

(** C3: a run of the handler of [src/lambda/lambda_handler.py] that ends
    in [{ok: True, ...}] has issued two [put_item] calls, both with the same
    item: the one before the [try] and the one under it. *)
Theorem C3_two_writes w event table filename count :
  environ w !! "DDB_TABLE"%string = Some table ->
  (run (Lambda.handler event) w).1 = Return (ResultOk filename count) ->
  exists p, List.filter is_put_item (calls (run (Lambda.handler event) w).2)
            = [p; p].
Proof.
  intros Henv. rewrite (RunFacts.lambda_run _ _ _ Henv). unfold handler_tree.
  destruct (Lambda.parse_event event) as [[bucket key]|e]; [|done].
  destruct (rek_answer w [] _) as [resp|e]; [|by destruct (is_ClientError e)].
  destruct (Lambda.build_labels resp) as [labels|e]; [|done].
  destruct (ddb_answer w [_] _); [|done].
  intros _. by eexists.
Qed.

Lemma C3_two_writes_witness :
  exists p,
    List.filter is_put_item
      (calls (run (Lambda.handler Inputs.event_a) (Inputs.all_up Inputs.shoe)).2)
    = [p; p].
Proof.
  apply (C3_two_writes (Inputs.all_up Inputs.shoe) Inputs.event_a (py "results")
           (PStr (py "a.jpg")) 1%nat); [reflexivity | vm_compute; reflexivity].
Defined.

End Isolation.

(* ===================================================================== *)
(** ** The object key, the parse stage and the expiry stamp *)
(* ===================================================================== *)

Module Keys.
Import LambdaRun.

(** C6, as stated, fails for the handler of [src/lambda_handler.py], which
    takes the key as the notification carries it: for the key
    [rekognition-input%2Fprod%2Fx.jpg] both the detection and the persisted
    [filename] name the escaped text. *)
Lemma C6_root_keeps_escapes :
  shape <$> calls (run (RootLambda.handler Inputs.event_escaped)
                       (Inputs.all_up Inputs.shoe)).2
  = [DetectOf (PStr (py "rekognition-input%2Fprod%2Fx.jpg"));
     WriteOf (Some (IVal (PStr (py "rekognition-input%2Fprod%2Fx.jpg"))))].
Proof. vm_compute. reflexivity. Qed.

(** C6, amended.  The handler of [src/lambda/lambda_handler.py] decodes the
    key with [unquote_plus] before any use: every call it makes, the
    detection and the writes, names the decoded key, and
    [rekognition-input%2Fprod%2Fx.jpg] decodes to
    [rekognition-input/prod/x.jpg].  The handler of [src/lambda_handler.py]
    does not decode: its calls name the key as notified. *)
Theorem C6_key_decoded_before_use w event bucket key :
  Lambda.parse_event event = Return (bucket, key) ->
  (exists raw, notified_key event = Return (PStr raw)
               /\ key = Urllib.unquote_plus raw)
  /\ Forall (about_key (PStr key)) (calls (run (Lambda.handler event) w).2)
  /\ Urllib.unquote_plus (py "rekognition-input%2Fprod%2Fx.jpg")
     = py "rekognition-input/prod/x.jpg"
  /\ (forall rbucket rkey,
        RootRun.root_parse event = Return (rbucket, rkey) ->
        notified_key event = Return rkey
        /\ Forall (about_key rkey) (calls (run (RootLambda.handler event) w).2)).
Proof.
  intros Hparse.
  split; [by apply (HandlerFacts.parse_event_key event bucket)|].
  split; [|split; [vm_compute; reflexivity|]].
  - destruct (HandlerFacts.lambda_calls w event)
      as [Hcs | (table & b & k & labels & Hp & Hcs)]; cbv zeta in Hcs.
    { rewrite Hcs. constructor. }
    rewrite Hparse in Hp. injection Hp as <- <-.
    destruct Hcs as [-> | [-> | ->]]; repeat constructor;
      by (left + right).
  - intros rbucket rkey Hrp.
    split; [by apply (HandlerFacts.root_parse_key event rbucket)|].
    destruct (HandlerFacts.root_calls w event)
      as [Hcs | (region & table & b & k & labels & Hp & Hcs)]; cbv zeta in Hcs.
    { rewrite Hcs. constructor. }
    rewrite Hrp in Hp. injection Hp as <- <-.
    destruct Hcs as [-> | ->]; repeat constructor; by (left + right).
Qed.

Lemma C6_key_decoded_before_use_witness :
  shape <$> calls (run (Lambda.handler Inputs.event_escaped)
                       (Inputs.all_up Inputs.shoe)).2
    = [DetectOf (PStr (py "rekognition-input/prod/x.jpg"));
       WriteOf (Some (IVal (PStr (py "rekognition-input/prod/x.jpg"))));
       WriteOf (Some (IVal (PStr (py "rekognition-input/prod/x.jpg"))))]
  /\ Forall (about_key (PStr (py "rekognition-input/prod/x.jpg")))
       (calls (run (Lambda.handler Inputs.event_escaped)
                   (Inputs.all_up Inputs.shoe)).2).
Proof.
  split; [vm_compute; reflexivity|].
  apply (C6_key_decoded_before_use (Inputs.all_up Inputs.shoe)
           Inputs.event_escaped (PStr (py "images-bucket"))
           (py "rekognition-input/prod/x.jpg")).
  vm_compute. reflexivity.
Defined.

(** C7, as stated, fails for the handler of [src/lambda_handler.py]: given
    a payload without [Records] it raises [KeyError] instead of returning
    [{ok: false, error: "bad_event"}] (it makes no call, though). *)
Lemma C7_root_raises_on_bad_event :
  run (RootLambda.handler Inputs.event_empty) (Inputs.all_up Inputs.shoe)
  = (Raise KeyError, initial).
Proof. vm_compute. reflexivity. Qed.

(** C7, amended.  Given a payload that does not parse, and one without
    [Records] does not, the handler of [src/lambda/lambda_handler.py], with
    [DDB_TABLE] set, returns [{ok: false, error: "bad_event"}] and calls
    neither the labeling nor the persistence collaborator.  The handler of
    [src/lambda_handler.py] makes no call either, and raises what the parse
    raised. *)
Theorem C7_bad_event w event table :
  environ w !! "DDB_TABLE"%string = Some table ->
  (returns (getitem_key event (py "Records")) = false ->
     returns (Lambda.parse_event event) = false)
  /\ (returns (Lambda.parse_event event) = false ->
        run (Lambda.handler event) w
        = (Return (ResultError "bad_event"), initial))
  /\ (forall region e,
        environ w !! "AWS_REGION"%string = Some region ->
        RootRun.root_parse event = Raise e ->
        run (RootLambda.handler event) w = (Raise e, initial)).
Proof.
  intros Henv. split; [apply HandlerFacts.parse_event_needs_records|]. split.
  - intros Hbad. rewrite (RunFacts.lambda_run _ _ _ Henv). unfold handler_tree.
    by destruct (Lambda.parse_event event).
  - intros region e Hr Hrp. rewrite (RunFacts.root_run _ _ _ _ Hr Henv).
    unfold RootRun.root_handler_tree. by rewrite Hrp.
Qed.

Lemma C7_bad_event_witness :
  run (Lambda.handler Inputs.event_empty) Inputs.rekognition_error
  = (Return (ResultError "bad_event"), initial).
Proof.
  apply (C7_bad_event Inputs.rekognition_error Inputs.event_empty
           (py "results") eq_refl).
  reflexivity.
Defined.


(** The handler of [src/lambda/lambda_handler.py] at work: with the clock at
    1700000000.5 when [ttl] is stamped, both writes carry 1700604800. *)
Lemma lambda_item_with_ttl :
  written_ttl <$> List.filter is_put_item
    (calls (run (Lambda.handler Inputs.event_a) (Inputs.all_up Inputs.shoe)).2)
  = [Some (IVal (PInt 1700604800)); Some (IVal (PInt 1700604800))].
Proof. vm_compute. reflexivity. Qed.


(** C10.  A key with a literal ['+'] is changed by the decoding of the
    handler of [src/lambda/lambda_handler.py]: the key it uses is
    [unquote_plus] of the notified one, which differs from it, and is the
    notified key with every ['+'] turned into a space when there is no ['%']
    in it; every call, the detection and the writes, names the decoded key
    and none names the notified one. *)
Theorem C10_plus_becomes_space w event bucket key raw :
  Lambda.parse_event event = Return (bucket, key) ->
  notified_key event = Return (PStr raw) ->
  Urllib.contains Urllib.PLUS raw = true ->
  key = Urllib.unquote (Urllib.replace_plus raw)
  /\ key <> raw
  /\ (Urllib.contains Urllib.PERCENT raw = false ->
        key = Urllib.replace_plus raw)
  /\ Forall (fun c => about_key (PStr key) c /\ ~ about_key (PStr raw) c)
       (calls (run (Lambda.handler event) w).2).
Proof.
  intros Hparse Hraw Hplus.
  destruct (HandlerFacts.parse_event_key _ _ _ Hparse) as (raw' & Hraw' & Hkey).
  rewrite Hraw in Hraw'. injection Hraw' as <-.
  assert (Hne : key <> raw).
  { rewrite Hkey. by apply UrllibFacts.unquote_plus_changes. }
  split; [exact Hkey|]. split; [done|].
  split; [intros Hpc; rewrite Hkey; by apply UrllibFacts.unquote_plus_no_percent|].
  destruct (HandlerFacts.lambda_calls w event)
    as [Hcs | (table & b & k & labels & Hp & Hcs)]; cbv zeta in Hcs.
  { rewrite Hcs. constructor. }
  rewrite Hparse in Hp. injection Hp as <- <-.
  assert (Hd : about_key (PStr key) (detect_call w bucket key)
               /\ ~ about_key (PStr raw) (detect_call w bucket key)).
  { split; [by left|]. intros [H|H]; simpl in H; congruence. }
  assert (Hw : about_key (PStr key) (put_call w table key labels)
               /\ ~ about_key (PStr raw) (put_call w table key labels)).
  { split; [by right|]. intros [H|H]; [done|].
    unfold shape, put_call in H. rewrite HandlerFacts.built_item_filename in H.
    congruence. }
  destruct Hcs as [-> | [-> | ->]];
    repeat (apply Forall_cons_2; [done|]); apply Forall_nil_2.
Qed.

Lemma C10_plus_becomes_space_witness :
  shape <$> calls (run (Lambda.handler Inputs.event_plus)
                       (Inputs.all_up Inputs.shoe)).2
    = [DetectOf (PStr (py "my photo.jpg"));
       WriteOf (Some (IVal (PStr (py "my photo.jpg"))));
       WriteOf (Some (IVal (PStr (py "my photo.jpg"))))]
  /\ py "my photo.jpg" <> py "my+photo.jpg"
  /\ Forall (fun c => about_key (PStr (py "my photo.jpg")) c
                      /\ ~ about_key (PStr (py "my+photo.jpg")) c)
       (calls (run (Lambda.handler Inputs.event_plus) (Inputs.all_up Inputs.shoe)).2).
Proof.
  split; [vm_compute; reflexivity|].
  pose proof (C10_plus_becomes_space (Inputs.all_up Inputs.shoe)
                Inputs.event_plus (PStr (py "images-bucket"))
                (py "my photo.jpg") (py "my+photo.jpg")
                eq_refl eq_refl eq_refl) as (_ & Hne & _ & Hcalls).
  exact (conj Hne Hcalls).
Defined.

End Keys.

(* ===================================================================== *)
(** ** The batch driver *)
(* ===================================================================== *)

Module BatchFacts.
Import Batch BatchRun.

Lemma pystr_eqb_eq a b : PyDecimal.pystr_eqb a b = true <-> a = b.
Proof. unfold PyDecimal.pystr_eqb. by destruct (decide (a = b)). Qed.

Lemma is_image_spec name :
  is_image name = true
  <-> lower (suffix name) ∈ [py ".jpg"; py ".jpeg"; py ".png"].
Proof.
  unfold is_image.
  rewrite !orb_true_iff, !pystr_eqb_eq, !elem_of_cons, elem_of_nil.
  tauto.
Qed.

(** What the driver does get right.  With its environment set, it works on
    the entries of the listing whose suffix, lowered, is [.jpg], [.jpeg] or
    [.png], and on no other; the calls it makes are, in the order of the
    listing, those of one file after the other (upload, detection, write),
    up to the point where a step raises, and all of them when the driver
    returns; when no entry is selected it returns without a single call. *)
Lemma batch_selection_and_order w listing region bucket table :
  environ w !! "AWS_REGION"%string = Some region ->
  environ w !! "S3_BUCKET"%string = Some bucket ->
  environ w !! "DYNAMODB_TABLE"%string = Some table ->
  let files := List.filter is_image listing in
  let res := run (main listing) w in
  (forall name, name ∈ files
     <-> name ∈ listing
         /\ lower (suffix name) ∈ [py ".jpg"; py ".jpeg"; py ".png"])
  /\ files `sublist_of` listing
  /\ shape <$> calls res.2 `prefix_of` flat_map plan files
  /\ (res.1 = Return tt -> shape <$> calls res.2 = flat_map plan files)
  /\ (files = [] -> res = (Return tt, initial)).
Proof.
  intros H1 H2 H3 files res. subst files res.
  split; [|split].
  - intros name. rewrite <- is_image_spec.
    rewrite !list_elem_of_In, filter_In. done.
  - induction listing as [|x l IH]; [done|]. simpl.
    destruct (is_image x); by constructor.
  - rewrite (RunFacts.main_run _ _ _ _ _ H1 H2 H3).
    destruct (RunFacts.for_each_extends region bucket table
                (default (py "unknown") (environ w !! "GITHUB_REF_NAME"%string))
                (List.filter is_image listing) w initial)
      as (new & Hc & Hp & Hr & _).
    simpl in Hc. rewrite Hc.
    split; [done|]. split; [done|].
    intros Hnil. by rewrite Hnil.
Qed.

Lemma batch_selection_examples :
  List.filter is_image Inputs.listing = [py "b.PNG"; py "a.jpg"; py "c.JpEg"]
  /\ run (main [py "notes.txt"; py "d.gif"]) (Inputs.all_up Inputs.shoe)
     = (Return tt, initial)
  /\ (let res := run (main Inputs.listing) (Inputs.all_up Inputs.no_labels) in
      res.1 = Return tt
      /\ shape <$> calls res.2
         = flat_map plan [py "b.PNG"; py "a.jpg"; py "c.JpEg"]).
Proof. vm_compute. repeat split; reflexivity. Qed.

(** C9: the driver does not get through the selected files.  With the
    environment set and every collaborator answering, as soon as the
    detection for the first selected file returns a label, the
    [print(..., json.dumps(item, indent=2))] that precedes the write meets a
    [Decimal] and raises [TypeError]: the run ends after the upload and the
    detection of that file, without its write and without a call for any
    of the files that follow. *)
Theorem C9_labelled_file_stops_the_run
    w listing region bucket table name rest resp lab labs :
  environ w !! "AWS_REGION"%string = Some region ->
  environ w !! "S3_BUCKET"%string = Some bucket ->
  environ w !! "DYNAMODB_TABLE"%string = Some table ->
  List.filter is_image listing = name :: rest ->
  let up := S3_upload_file region (py "images/" ++ name) bucket (key_of name) in
  let det := Rek_detect_labels region (PStr bucket) (PStr (key_of name)) 10 f70 in
  s3_answer w [] up = Return tt ->
  rek_answer w [up] det = Return resp ->
  labels_comprehension (default [] (resp_Labels resp)) = Return (lab :: labs) ->
  run (main listing) w = (Raise TypeError, mkState [up; det] 1).
Proof.
  intros H1 H2 H3 Hfiles up det Hup Hdet Hlabels.
  rewrite (RunFacts.main_run _ _ _ _ _ H1 H2 H3), Hfiles.
  cbv [for_each process mbind M_bind mret M_ret lift upload_file detect_labels
       put_item perform iso_now read_clock initial calls clock_reads].
  cbn [app]. fold (key_of name). fold up. rewrite Hup. cbn [app].
  fold det. rewrite Hdet, Hlabels. reflexivity.
Qed.

Lemma C9_labelled_file_stops_the_run_witness :
  run (main [py "notes.txt"; py "a.jpg"; py "b.png"]) (Inputs.all_up Inputs.shoe)
  = (Raise TypeError,
     mkState
       [S3_upload_file (py "us-east-1") (py "images/a.jpg")
          (py "images-bucket") (py "rekognition-input/a.jpg");
        Rek_detect_labels (py "us-east-1") (PStr (py "images-bucket"))
          (PStr (py "rekognition-input/a.jpg")) 10 f70] 1).
Proof.
  eapply (C9_labelled_file_stops_the_run (Inputs.all_up Inputs.shoe)
            [py "notes.txt"; py "a.jpg"; py "b.png"]
            (py "us-east-1") (py "images-bucket") (py "results")
            (py "a.jpg") [py "b.png"] Inputs.shoe);
    [reflexivity | reflexivity | reflexivity | reflexivity
    | reflexivity | reflexivity | vm_compute; reflexivity].
Defined.

End BatchFacts.

(* ===================================================================== *)
(** ** The label normalisers and the stored confidence *)
(* ===================================================================== *)

Module Normalizer.

(** C5, as stated, fails for the comprehension of [src/lambda_handler.py]:
    an entry without [Name] is not skipped, [l["Name"]] raises [KeyError],
    the handler raises with it and writes nothing. *)
Lemma C5_root_raises_on_partial_entry :
  (run (RootLambda.handler Inputs.event_a) (Inputs.all_up Inputs.partial)).1
    = Raise KeyError
  /\ List.filter is_put_item
       (calls (run (RootLambda.handler Inputs.event_a)
                   (Inputs.all_up Inputs.partial)).2) = [].
Proof. vm_compute. split; reflexivity. Qed.

(** C5, amended.  [build_labels] of [src/lambda/lambda_handler.py] never
    raises and yields one record for each entry that has both [Name] and
    [Confidence], in the order of the response, made from that entry alone;
    the other entries leave no trace.  The comprehension of
    [src/lambda_handler.py] yields the same list when every entry is
    complete and raises [KeyError] otherwise. *)
Theorem C5_normalizers resp :
  let entries := default [] (resp_Labels resp) in
  (exists labels,
     Lambda.build_labels resp = Return labels
     /\ Forall2 record_of (omap well_formed entries) labels)
  /\ labels_comprehension entries
     = if forallb (fun l => bool_decide (is_Some (well_formed l))) entries
       then Lambda.build_labels resp
       else Raise KeyError.
Proof.
  intros entries. subst entries. split.
  - eexists. split; [apply LabelFacts.build_labels_eq|].
    induction (omap well_formed _) as [|nc ncs IH]; [constructor|].
    rewrite fmap_cons. constructor; [apply LabelFacts.make_record_of|done].
  - by rewrite LabelFacts.labels_comprehension_eq, LabelFacts.build_labels_eq.
Qed.

End Normalizer.

Module Rounding.
Import PyFloat PyDecimal.

Lemma div_half_even_eq n d :
  div_half_even n d
  = match 2 * (n mod d) ?= d with
    | Lt => n / d
    | Eq => if Z.even (n / d) then n / d else n / d + 1
    | Gt => n / d + 1
    end.
Proof.
  unfold div_half_even, Z.div, Z.modulo. by destruct (Z.div_eucl n d).
Qed.

Lemma div_half_even_nearest n d :
  0 < d -> 2 * Z.abs (n - div_half_even n d * d) <= d.
Proof.
  intros Hd. rewrite div_half_even_eq.
  pose proof (Z.div_mod n d ltac:(lia)) as Hdm.
  pose proof (Z.mod_pos_bound n d Hd) as Hm.
  set (q0 := n / d) in *. set (r := n mod d) in *.
  assert (Hn : n = q0 * d + r) by lia.
  assert (Hs : (q0 + 1) * d = q0 * d + d) by ring.
  clearbody q0 r.
  destruct (Z.compare_spec (2 * r) d) as [E|E|E];
    try destruct (Z.even q0); lia.
Qed.

Lemma div_half_even_nonneg n d : 0 <= n -> 0 < d -> 0 <= div_half_even n d.
Proof.
  intros Hn Hd. rewrite div_half_even_eq.
  pose proof (Z.div_pos n d Hn Hd).
  destruct (2 * (n mod d) ?= d); try destruct (Z.even (n / d)); lia.
Qed.

Lemma pow_or_one_pos (b x : Z) :
  0 < b -> 0 < (if 0 <=? x then b ^ x else 1)
           /\ 0 < (if 0 <=? x then 1 else b ^ (- x)).
Proof.
  intros Hb. destruct (Z.leb_spec 0 x).
  - split; [by apply Z.pow_pos_nonneg|lia].
  - split; [lia|]. apply Z.pow_pos_nonneg; lia.
Qed.

Lemma scaled_frac_pos m e s :
  0 < (scaled_frac m e s).1 /\ 0 < (scaled_frac m e s).2.
Proof.
  unfold scaled_frac. cbn [fst snd].
  destruct (pow_or_one_pos 2 e ltac:(lia)) as [H1 H2].
  destruct (pow_or_one_pos 10 s ltac:(lia)) as [H3 H4].
  split; repeat apply Z.mul_pos_pos; auto; lia.
Qed.

Lemma scaled_round_nonneg m e s : 0 <= scaled_round m e s.
Proof.
  unfold scaled_round. destruct (scaled_frac_pos m e s) as [Hn Hd].
  destruct (scaled_frac m e s) as [n d]. simpl in *.
  apply div_half_even_nonneg; lia.
Qed.

(** All the two-digit decimals from 70.00 to 100.00, by evaluation. *)
Lemma stored_exactly_70_100 :
  forallb stored_exactly
    ((fun i => 7000 + Z.of_nat i) <$> seq 0 (Z.to_nat 3001)) = true.
Proof. vm_compute. reflexivity. Qed.

Lemma stored_exactly_range q : 7000 <= q <= 10000 -> stored_exactly q = true.
Proof.
  intros Hq. pose proof stored_exactly_70_100 as H.
  rewrite forallb_forall in H. apply H.
  apply list_elem_of_In, list_elem_of_fmap. exists (Z.to_nat (q - 7000)).
  split; [lia|]. apply list_elem_of_In, in_seq. lia.
Qed.

(** C4, as stated, fails: the rounding is [round(float(conf), 2)], on the
    binary float, and only its result goes through [str] into [Decimal].
    For the confidence [91.235], whose float lies just below the decimal
    91.235, the stored value is 91.23, where rounding the decimal of its
    string gives 91.24 (to nearest even as well as half up). *)
Lemma C4_rounds_the_float :
  str_float Inputs.f_91_235 = py "91.235"
  /\ Lambda.confidence Inputs.f_91_235 = Return (DFinite false 9123 (-2))
  /\ decimal_rounded ROUND_HALF_EVEN Inputs.f_91_235
     = Return (DFinite false 9124 (-2))
  /\ decimal_rounded ROUND_HALF_UP Inputs.f_91_235
     = Return (DFinite false 9124 (-2))
  /\ Lambda.confidence Inputs.f_91_235
     <> decimal_rounded ROUND_HALF_EVEN Inputs.f_91_235.
Proof. vm_compute. repeat split; done. Qed.

(** C4, amended.  The stored confidence is
    [Decimal(str(round(float(conf), 2)))]: the rounding is done on the
    binary float and only then is the value turned, through its string, into
    an exact decimal.  For a float [m * 2^e] that rounds to between 70.00
    and 100.00 (every detection is asked for [MinConfidence=70.0]), with [q]
    the integer nearest to [100 * m * 2^e] (ties to even), the stored
    decimal is exactly [q / 100], with at most two fractional digits, and
    normalising the rounded float again stores the same decimal. *)
Theorem C4_confidence_rounding m e :
  let q := scaled_round m e 2 in
  7000 <= q <= 10000 ->
  2 * Z.abs ((scaled_frac m e 2).1 - q * (scaled_frac m e 2).2)
    <= (scaled_frac m e 2).2
  /\ exists d,
       Lambda.confidence (S754_finite false m e) = Return d
       /\ scaled_int d 2 = Some q
       /\ Lambda.confidence (round_float (S754_finite false m e) 2) = Return d.
Proof.
  intros q Hq. split.
  - subst q. unfold scaled_round.
    destruct (scaled_frac_pos m e 2) as [_ Hd].
    destruct (scaled_frac m e 2) as [n d]. simpl in *.
    by apply div_half_even_nearest.
  - pose proof (stored_exactly_range q Hq) as Hs.
    unfold stored_exactly in Hs. cbv zeta in Hs.
    assert (Hr : round_float (S754_finite false m e) 2 = strtod false q (-2))
      by reflexivity.
    unfold Lambda.confidence, float. rewrite Hr.
    destruct (Decimal (str_float (strtod false q (-2)))) as [d|] eqn:Hd;
      [|cbv beta iota in Hs; discriminate Hs].
    cbv beta iota in Hs.
    apply andb_true_iff in Hs as [Hs1 Hs2].
    apply bool_decide_eq_true in Hs1, Hs2.
    exists d. split; [done|]. split; [done|]. by rewrite Hs2.
Qed.

Lemma C4_confidence_rounding_witness :
  exists d,
    Lambda.confidence Inputs.f_91_236 = Return d
    /\ scaled_int d 2 = Some 9124
    /\ Lambda.confidence (round_float Inputs.f_91_236 2) = Return d.
Proof.
  apply (C4_confidence_rounding 6420162743793353 (-46)).
  vm_compute. split; discriminate.
Defined.

End Rounding.

(* ===================================================================== *)
(** ** The log statements: to_plain and json.dumps *)
(* ===================================================================== *)

Module LogFacts.
Import Log.

(** Induction over objects, with the members of lists and dicts. *)
Lemma pyobj_induction (P : pyobj -> Prop) :
  P ONone -> (forall b, P (OBool b)) -> (forall z, P (OInt z)) ->
  (forall f, P (OFloat f)) -> (forall d, P (ODecimal d)) ->
  (forall s, P (OStr s)) ->
  (forall l, Forall P l -> P (OList l)) ->
  (forall d, Forall (fun kv => P kv.2) d -> P (ODict d)) ->
  forall x, P x.
Proof.
  intros HN HB HI HF HD HS HL HDi. fix IH 1.
  intros [ |b|z|f|d|s|l|d];
    [exact HN | apply HB | apply HI | apply HF | apply HD | apply HS | |].
  - apply HL. induction l as [|y l IHl]; constructor; [apply IH|exact IHl].
  - apply HDi. induction d as [|[k v] d IHd]; constructor; [apply IH|exact IHd].
Qed.

Lemma to_plain_is_encodable x : json_encodable (to_plain x) = true.
Proof.
  induction x as [ | | | | | |l IH|d IH] using pyobj_induction; try done.
  - simpl. induction IH as [|y l Hy _ IHl]; [done|]. simpl.
    by rewrite Hy, IHl.
  - simpl. induction IH as [|[k v] d Hv _ IHd]; [done|]. simpl in *.
    by rewrite Hv, IHd.
Qed.

Lemma to_plain_fixes_encodable x : json_encodable x = true -> to_plain x = x.
Proof.
  induction x as [ | | | | | |l IH|d IH] using pyobj_induction; try done.
  - simpl. intros Hl. f_equal.
    induction IH as [|y l Hy _ IHl]; [done|]. simpl in *.
    apply andb_true_iff in Hl as [H1 H2]. by rewrite Hy, IHl.
  - simpl. intros Hd. f_equal.
    induction IH as [|[k v] d Hv _ IHd]; [done|]. simpl in *.
    apply andb_true_iff in Hd as [H1 H2]. by rewrite Hv, IHd.
Qed.

Lemma of_pyval_encodable v : json_encodable (of_pyval v) = true.
Proof.
  revert v. fix IH 1. intros [ |b|z|f|s|l|d]. 1-5: reflexivity.
  - simpl. induction l as [|y l IHl]; [done|]. simpl. by rewrite IH, IHl.
  - simpl. induction d as [|[k y] d IHd]; [done|]. simpl. by rewrite IH, IHd.
Qed.

Lemma label_logs_encodable labels :
  forallb json_encodable (List.map label_log labels) = true.
Proof. induction labels as [|r labels IH]; [done|]. simpl. by rewrite IH. Qed.


(** X2.  [to_plain] keeps the shape of what it converts: a list keeps its
    length and a dict its keys, in their order; a JSON value comes back
    unchanged; and of the labels of an item it makes what the handler's own
    log line builds by hand, each [Confidence] turned into the float nearest
    to it. *)
Theorem to_plain_keeps_shape :
  (forall l, exists l', to_plain (OList l) = OList l' /\ length l' = length l)
  /\ (forall d, exists d', to_plain (ODict d) = ODict d' /\ d'.*1 = d.*1)
  /\ (forall v, to_plain (of_pyval v) = of_pyval v)
  /\ (forall labels,
        to_plain (item_value_obj (ILabels labels))
        = OList (List.map label_log labels)).
Proof.
  split; [|split; [|split]].
  - intros l. eexists. split; [reflexivity|]. apply length_map.
  - intros d. eexists. split; [reflexivity|].
    induction d as [|[k v] d IH]; [done|]. simpl. by f_equal.
  - intros v. apply to_plain_fixes_encodable, of_pyval_encodable.
  - intros labels. simpl. f_equal.
    induction labels as [|r labels IH]; [done|]. simpl. by rewrite IH.
Qed.

(** X3.  [json.dumps] of the item that the batch driver prints before its
    write raises [TypeError] exactly when the list of labels is not empty,
    each label carrying a [Decimal]: it is encodable only for an image
    without labels.  The same item passed through [to_plain], as the handler
    of [src/lambda_handler.py] logs it, is always encodable. *)
Theorem json_dumps_of_item filename timestamp branch labels :
  let fields := item_fields (PStr filename) labels timestamp branch in
  (list_to_map fields : gmap string item_value)
    = {[ "filename"%string := IVal (PStr filename);
         "labels"%string := ILabels labels;
         "timestamp"%string := IVal (PStr timestamp);
         "branch"%string := IVal (PStr branch) ]}
  /\ json_dumps (item_obj fields) = Batch.json_dumps_item labels
  /\ (json_dumps (item_obj fields) = Return tt <-> labels = [])
  /\ json_dumps (to_plain (item_obj fields)) = Return tt.
Proof.
  cbv zeta. split; [reflexivity|]. split; [by destruct labels|].
  split; [by destruct labels|].
  unfold json_dumps. by rewrite to_plain_is_encodable.
Qed.

(** X4.  None of the four log statements of the handler of
    [src/lambda/lambda_handler.py] can raise: whatever the event, the labels
    and the item, what they pass to [json.dumps] holds no [Decimal] (the
    labels are logged as floats, the item through [to_plain]). *)
Theorem handler_logs_never_raise details event bucket key table labels
    timestamp branch fields :
  json_dumps (bad_event_log details event) = Return tt
  /\ json_dumps (rekognition_failed_log details bucket key) = Return tt
  /\ json_dumps (result_log key labels timestamp branch) = Return tt
  /\ json_dumps (ddb_failed_log details table fields) = Return tt.
Proof.
  unfold json_dumps, bad_event_log, rekognition_failed_log, result_log,
    ddb_failed_log.
  cbn [json_encodable forallb].
  by rewrite !of_pyval_encodable, label_logs_encodable, to_plain_is_encodable.
Qed.

End LogFacts.

(* ===================================================================== *)
(** ** The event handlers, path by path *)
(* ===================================================================== *)

Module HandlerRuns.
Import LambdaRun.

Lemma parse_event_first_record event :
  Lambda.parse_event event
  = (rec ← first_record event;
     s3 ← getitem_key rec (py "s3");
     b ← getitem_key s3 (py "bucket");
     bucket ← getitem_key b (py "name");
     s3' ← getitem_key rec (py "s3");
     o ← getitem_key s3' (py "object");
     k ← getitem_key o (py "key");
     key ← unquote_plus_val k;
     mret (bucket, key)).
Proof.
  unfold Lambda.parse_event, first_record.
  by destruct (getitem_key event (py "Records")).
Qed.

(** X5.  The handler of [src/lambda/lambda_handler.py] returns [{"ok": True,
    ...}] in one case only: the event parses, the detection answers, and
    both writes of the item are accepted.  [filename] is then the decoded
    key and [count] the number of entries of the response that have both
    their name and their confidence, which is the number of records in the
    item written, not the number of entries received. *)
Theorem lambda_ok_iff w event table filename count :
  environ w !! "DDB_TABLE"%string = Some table ->
  (run (Lambda.handler event) w).1 = Return (ResultOk filename count)
  <-> exists bucket key resp,
        Lambda.parse_event event = Return (bucket, key)
        /\ rek_answer w [] (detect_call w bucket key) = Return resp
        /\ (let c := detect_call w bucket key in
            let p := put_call w table key (records_of resp) in
            ddb_answer w [c] p = Return tt
            /\ ddb_answer w [c; p] p = Return tt
            /\ written_field "labels" p = Some (ILabels (records_of resp)))
        /\ filename = PStr key
        /\ count = length (records_of resp)
        /\ count = length (omap well_formed (default [] (resp_Labels resp))).
Proof.
  intros Henv. rewrite (RunFacts.lambda_run _ _ _ Henv). unfold handler_tree.
  split.
  - destruct (Lambda.parse_event event) as [[bucket key]|e]; [|done].
    destruct (rek_answer w [] _) as [resp|e] eqn:Hd;
      [|by destruct (is_ClientError e)].
    rewrite LabelFacts.build_labels_eq. fold (records_of resp).
    destruct (ddb_answer w [_] _) as [[]|e] eqn:H1; [|done].
    destruct (ddb_answer w [_; _] _) as [[]|e] eqn:H2;
      [|by destruct (is_ClientError e)].
    cbn [fst]. intros [= <- <-]. exists bucket, key, resp.
    split; [done|]. split; [done|]. split; [done|]. split; [done|].
    split; [done|]. unfold records_of. by rewrite length_fmap.
  - intros (bucket & key & resp & Hp & Hd & (H1 & H2 & _) & -> & -> & _).
    rewrite Hp, Hd, LabelFacts.build_labels_eq. fold (records_of resp).
    by rewrite H1, H2.
Qed.

Lemma lambda_ok_iff_witness :
  (run (Lambda.handler Inputs.event_a) (Inputs.all_up Inputs.partial)).1
  = Return (ResultOk (PStr (py "a.jpg")) 1).
Proof.
  apply (proj2 (lambda_ok_iff (Inputs.all_up Inputs.partial) Inputs.event_a
                  (py "results") (PStr (py "a.jpg")) 1%nat eq_refl)).
  exists (PStr (py "images-bucket")), (py "a.jpg"), Inputs.partial.
  repeat split; reflexivity.
Defined.

(** X6.  The handler of [src/lambda_handler.py] returns a result in one case
    only: the event has bucket and key, the detection answers with entries
    that are all complete, and its single write is accepted.  [filename] is
    the key as notified and [count] the number of entries. *)
Theorem root_ok_iff w event region table result :
  environ w !! "AWS_REGION"%string = Some region ->
  environ w !! "DDB_TABLE"%string = Some table ->
  (run (RootLambda.handler event) w).1 = Return result
  <-> exists bucket key resp,
        RootRun.root_parse event = Return (bucket, key)
        /\ rek_answer w [] (Rek_detect_labels region bucket key 10 f70)
           = Return resp
        /\ all_complete (default [] (resp_Labels resp)) = true
        /\ ddb_answer w [Rek_detect_labels region bucket key 10 f70]
             (DDB_put_item region table
                (RootRun.root_item w key (records_of resp))) = Return tt
        /\ result = ResultOk key (length (default [] (resp_Labels resp))).
Proof.
  intros Hr Ht. rewrite (RunFacts.root_run _ _ _ _ Hr Ht).
  unfold RootRun.root_handler_tree.
  assert (Hlen : forall ls, all_complete ls = true ->
            length (omap well_formed ls) = length ls).
  { induction ls as [|[[n|] [c|]] ls IH]; simpl; try done.
    intros H. f_equal. apply IH. by destruct (all_complete ls). }
  split.
  - destruct (RootRun.root_parse event) as [[bucket key]|e]; [|done].
    destruct (rek_answer w [] _) as [resp|e] eqn:Hd; [|done].
    rewrite LabelFacts.labels_comprehension_eq.
    fold (all_complete (default [] (resp_Labels resp))).
    destruct (all_complete _) eqn:Hall; [|done].
    fold (records_of resp).
    destruct (ddb_answer w [_] _) as [[]|e] eqn:H1; [|done].
    cbn [fst]. intros [= <-]. exists bucket, key, resp.
    repeat (split; [done|]). unfold records_of.
    by rewrite length_fmap, Hlen.
  - intros (bucket & key & resp & Hp & Hd & Hall & H1 & ->).
    rewrite Hp, Hd, LabelFacts.labels_comprehension_eq.
    fold (all_complete (default [] (resp_Labels resp))). rewrite Hall.
    fold (records_of resp). rewrite H1. cbn [fst]. unfold records_of.
    by rewrite length_fmap, Hlen.
Qed.

Lemma root_ok_iff_witness :
  (run (RootLambda.handler Inputs.event_a) (Inputs.all_up Inputs.shoe)).1
  = Return (ResultOk (PStr (py "a.jpg")) 1).
Proof.
  apply (proj2 (root_ok_iff (Inputs.all_up Inputs.shoe) Inputs.event_a
                  (py "us-east-1") (py "results")
                  (ResultOk (PStr (py "a.jpg")) 1%nat) eq_refl eq_refl)).
  exists (PStr (py "images-bucket")), (PStr (py "a.jpg")), Inputs.shoe.
  repeat split; reflexivity.
Defined.

(** X7.  Nothing is written before the detection has answered.  Every write
    of the handler of [src/lambda/lambda_handler.py] comes after a parsed
    event and an answered detection, goes to the table [DDB_TABLE] names and
    carries the records of that answer; every write of the handler of
    [src/lambda_handler.py] likewise, and only for an answer whose entries
    are all complete.  In particular a failed detection leaves no item. *)
Theorem writes_follow_detection w event :
  Forall (fun c => is_put_item c = true ->
            exists table bucket key resp,
              environ w !! "DDB_TABLE"%string = Some table
              /\ Lambda.parse_event event = Return (bucket, key)
              /\ rek_answer w [] (detect_call w bucket key) = Return resp
              /\ c = put_call w table key (records_of resp))
    (calls (run (Lambda.handler event) w).2)
  /\ Forall (fun c => is_put_item c = true ->
               exists region table bucket key resp,
                 environ w !! "AWS_REGION"%string = Some region
                 /\ environ w !! "DDB_TABLE"%string = Some table
                 /\ RootRun.root_parse event = Return (bucket, key)
                 /\ rek_answer w [] (Rek_detect_labels region bucket key 10 f70)
                    = Return resp
                 /\ all_complete (default [] (resp_Labels resp)) = true
                 /\ c = DDB_put_item region table
                          (RootRun.root_item w key (records_of resp)))
       (calls (run (RootLambda.handler event) w).2).
Proof.
  split.
  - destruct (environ w !! "DDB_TABLE"%string) as [table|] eqn:Henv.
    2:{ rewrite HandlerFacts.lambda_unconfigured by done. constructor. }
    rewrite (RunFacts.lambda_run _ _ _ Henv). unfold handler_tree.
    destruct (Lambda.parse_event event) as [[bucket key]|e]; [|constructor].
    destruct (rek_answer w [] _) as [resp|e] eqn:Hd;
      [|by repeat constructor].
    rewrite LabelFacts.build_labels_eq. fold (records_of resp).
    assert (Hw : exists table0 bucket0 key0 resp0,
               Some table = Some table0
               /\ Return (bucket, key) = Return (bucket0, key0)
               /\ rek_answer w [] (detect_call w bucket0 key0) = Return resp0
               /\ put_call w table key (records_of resp)
                  = put_call w table0 key0 (records_of resp0))
      by (by exists table, bucket, key, resp).
    destruct (ddb_answer w [_] _); cbn [snd calls];
      repeat (apply Forall_cons_2; [try done; by intros _|]);
      apply Forall_nil_2.
  - destruct (environ w !! "AWS_REGION"%string) as [region|] eqn:Hr.
    2:{ cbv [run RootLambda.handler mbind M_bind environ_getitem].
        rewrite Hr. constructor. }
    destruct (environ w !! "DDB_TABLE"%string) as [table|] eqn:Ht.
    2:{ cbv [run RootLambda.handler mbind M_bind environ_getitem].
        rewrite Hr, Ht. constructor. }
    rewrite (RunFacts.root_run _ _ _ _ Hr Ht). unfold RootRun.root_handler_tree.
    destruct (RootRun.root_parse event) as [[bucket key]|e]; [|constructor].
    destruct (rek_answer w [] _) as [resp|e] eqn:Hd;
      [|by repeat constructor].
    rewrite LabelFacts.labels_comprehension_eq.
    fold (all_complete (default [] (resp_Labels resp))).
    destruct (all_complete _) eqn:Hall; [|by repeat constructor].
    fold (records_of resp). cbn [snd calls].
    apply Forall_cons_2; [done|]. apply Forall_cons_2; [|apply Forall_nil_2].
    intros _. by exists region, table, bucket, key, resp.
Qed.

(** X8.  Only the first record of a notification counts: two events whose
    [Records[0]] agree (or fail to exist in the same way) are handled alike
    by both handlers, whatever else they carry, further records included. *)
Theorem only_first_record e1 e2 w :
  first_record e1 = first_record e2 ->
  run (Lambda.handler e1) w = run (Lambda.handler e2) w
  /\ run (RootLambda.handler e1) w = run (RootLambda.handler e2) w.
Proof.
  intros H. split.
  - unfold Lambda.handler. by rewrite !parse_event_first_record, H.
  - unfold RootLambda.handler.
    change (records ← getitem_key e1 (py "Records"); getitem_0 records)
      with (first_record e1).
    change (records ← getitem_key e2 (py "Records"); getitem_0 records)
      with (first_record e2).
    by rewrite H.
Qed.

Lemma only_first_record_witness :
  run (Lambda.handler MoreInputs.event_two_records) (Inputs.all_up Inputs.shoe)
  = run (Lambda.handler Inputs.event_a) (Inputs.all_up Inputs.shoe)
  /\ run (RootLambda.handler MoreInputs.event_two_records)
       (Inputs.all_up Inputs.shoe)
     = run (RootLambda.handler Inputs.event_a) (Inputs.all_up Inputs.shoe).
Proof.
  apply (only_first_record MoreInputs.event_two_records Inputs.event_a
           (Inputs.all_up Inputs.shoe)).
  reflexivity.
Defined.

(** X9.  A required variable that is missing stops each program at once,
    with [KeyError], before the event or the listing is looked at and before
    any call: [DDB_TABLE] for the handler of [src/lambda/lambda_handler.py]
    (so that even a malformed event gets no [bad_event] result),
    [AWS_REGION] and [DDB_TABLE] for the handler of [src/lambda_handler.py],
    [AWS_REGION], [S3_BUCKET] and [DYNAMODB_TABLE] for the batch driver. *)
Theorem missing_variable w event listing :
  (environ w !! "DDB_TABLE"%string = None ->
     run (Lambda.handler event) w = (Raise KeyError, initial))
  /\ (environ w !! "AWS_REGION"%string = None
      \/ environ w !! "DDB_TABLE"%string = None ->
      run (RootLambda.handler event) w = (Raise KeyError, initial))
  /\ (environ w !! "AWS_REGION"%string = None
      \/ environ w !! "S3_BUCKET"%string = None
      \/ environ w !! "DYNAMODB_TABLE"%string = None ->
      run (Batch.main listing) w = (Raise KeyError, initial)).
Proof.
  split; [apply HandlerFacts.lambda_unconfigured|]. split.
  - cbv [run RootLambda.handler mbind M_bind environ_getitem].
    destruct (environ w !! "AWS_REGION"%string); [|done].
    destruct (environ w !! "DDB_TABLE"%string); [|done].
    by intros [|].
  - cbv [run Batch.main mbind M_bind environ_getitem].
    destruct (environ w !! "AWS_REGION"%string); [|done].
    destruct (environ w !! "S3_BUCKET"%string); [|done].
    destruct (environ w !! "DYNAMODB_TABLE"%string); [|done].
    by intros [|[|]].
Qed.

(** X10.  Where the calls of the event handlers go.  The handler of
    [src/lambda/lambda_handler.py] makes every call in the region [REGION]
    names, [us-east-1] when it is not set, and stamps every item with the
    branch [BRANCH_HINT] names, [Lambda] when it is not set; the handler of
    [src/lambda_handler.py] uses [AWS_REGION], and [lambda] for a missing
    [BRANCH_HINT].  Both write to the table [DDB_TABLE] names, ask every
    detection for at most 10 labels of confidence 70.0 or more, and never
    upload. *)
Theorem handler_destinations w event :
  Forall (fun c =>
            call_region c = default (py "us-east-1") (environ w !! "REGION"%string)
            /\ is_upload_file c = false
            /\ (forall r b n ml mc,
                  c = Rek_detect_labels r b n ml mc -> ml = 10 /\ mc = f70)
            /\ (is_put_item c = true ->
                  call_table c = environ w !! "DDB_TABLE"%string
                  /\ written_field "branch" c
                     = Some (IVal (PStr (default (py "Lambda")
                                 (environ w !! "BRANCH_HINT"%string))))))
    (calls (run (Lambda.handler event) w).2)
  /\ Forall (fun c =>
               Some (call_region c) = environ w !! "AWS_REGION"%string
               /\ is_upload_file c = false
               /\ (forall r b n ml mc,
                     c = Rek_detect_labels r b n ml mc -> ml = 10 /\ mc = f70)
               /\ (is_put_item c = true ->
                     call_table c = environ w !! "DDB_TABLE"%string
                     /\ written_field "branch" c
                        = Some (IVal (PStr (default (py "lambda")
                                    (environ w !! "BRANCH_HINT"%string))))))
       (calls (run (RootLambda.handler event) w).2).
Proof.
  split.
  - destruct (environ w !! "DDB_TABLE"%string) as [table|] eqn:Henv.
    2:{ rewrite HandlerFacts.lambda_unconfigured by done. constructor. }
    rewrite (RunFacts.lambda_run _ _ _ Henv). unfold handler_tree.
    assert (Hc : forall bucket key,
              (fun c =>
                 call_region c = region_of w /\ is_upload_file c = false
                 /\ (forall r b n ml mc,
                       c = Rek_detect_labels r b n ml mc -> ml = 10 /\ mc = f70)
                 /\ (is_put_item c = true ->
                       call_table c = Some table
                       /\ written_field "branch" c
                          = Some (IVal (PStr (branch_of w)))))
                (detect_call w bucket key)).
    { intros bucket key. split; [done|]. split; [done|].
      split; [by intros r b n ml mc [= _ _ _ <- <-]|done]. }
    assert (Hp : forall key labels,
              (fun c =>
                 call_region c = region_of w /\ is_upload_file c = false
                 /\ (forall r b n ml mc,
                       c = Rek_detect_labels r b n ml mc -> ml = 10 /\ mc = f70)
                 /\ (is_put_item c = true ->
                       call_table c = Some table
                       /\ written_field "branch" c
                          = Some (IVal (PStr (branch_of w)))))
                (put_call w table key labels)).
    { intros key labels. split; [done|]. split; [done|]. split; [done|].
      intros _. split; done. }
    destruct (Lambda.parse_event event) as [[bucket key]|e]; [|constructor].
    destruct (rek_answer w [] _) as [resp|e];
      [|apply Forall_cons_2; [apply Hc|apply Forall_nil_2]].
    rewrite LabelFacts.build_labels_eq.
    destruct (ddb_answer w [_] _); cbn [snd calls];
      repeat (apply Forall_cons_2; [first [apply Hc|apply Hp]|]);
      apply Forall_nil_2.
  - destruct (environ w !! "AWS_REGION"%string) as [region|] eqn:Hr.
    2:{ cbv [run RootLambda.handler mbind M_bind environ_getitem].
        rewrite Hr. constructor. }
    destruct (environ w !! "DDB_TABLE"%string) as [table|] eqn:Ht.
    2:{ cbv [run RootLambda.handler mbind M_bind environ_getitem].
        rewrite Hr, Ht. constructor. }
    rewrite (RunFacts.root_run _ _ _ _ Hr Ht). unfold RootRun.root_handler_tree.
    destruct (RootRun.root_parse event) as [[bucket key]|e]; [|constructor].
    assert (Hc : (fun c =>
                    Some (call_region c) = Some region
                    /\ is_upload_file c = false
                    /\ (forall r b n ml mc,
                          c = Rek_detect_labels r b n ml mc -> ml = 10 /\ mc = f70)
                    /\ (is_put_item c = true ->
                          call_table c = Some table
                          /\ written_field "branch" c
                             = Some (IVal (PStr (default (py "lambda")
                                         (environ w !! "BRANCH_HINT"%string))))))
                   (Rek_detect_labels region bucket key 10 f70)).
    { split; [done|]. split; [done|].
      split; [by intros r b n ml mc [= _ _ _ <- <-]|done]. }
    destruct (rek_answer w [] _) as [resp|e];
      [|apply Forall_cons_2; [apply Hc|apply Forall_nil_2]].
    destruct (labels_comprehension _) as [labels|e];
      [|apply Forall_cons_2; [apply Hc|apply Forall_nil_2]].
    cbn [snd calls]. apply Forall_cons_2; [apply Hc|].
    apply Forall_cons_2; [|apply Forall_nil_2].
    split; [done|]. split; [done|]. split; [done|]. intros _. split; done.
Qed.


End HandlerRuns.

(* ===================================================================== *)
(** ** Every way a run of the handler can end *)
(* ===================================================================== *)

Module HandlerOutcomes.
Import LambdaRun.

Lemma is_ClientError_iff e : is_ClientError e = true <-> e = ClientError.
Proof. by destruct e. Qed.

(** X12.  The failure results of the handler of
    [src/lambda/lambda_handler.py], all of them: [bad_event] exactly when
    the parse stage raises; [rekognition_failed] exactly when the detection
    raises a [ClientError]; [ddb_failed] exactly when the first write is
    accepted and the second raises a [ClientError].  No other error code is
    ever returned. *)
Theorem lambda_error_iff w event table code :
  environ w !! "DDB_TABLE"%string = Some table ->
  (run (Lambda.handler event) w).1 = Return (ResultError code)
  <-> (code = "bad_event"%string
       /\ returns (Lambda.parse_event event) = false)
      \/ (exists bucket key,
            Lambda.parse_event event = Return (bucket, key)
            /\ ((code = "rekognition_failed"%string
                 /\ rek_answer w [] (detect_call w bucket key)
                    = Raise ClientError)
                \/ (code = "ddb_failed"%string
                    /\ exists resp,
                         rek_answer w [] (detect_call w bucket key)
                         = Return resp
                         /\ let c := detect_call w bucket key in
                            let p := put_call w table key (records_of resp) in
                            ddb_answer w [c] p = Return tt
                            /\ ddb_answer w [c; p] p = Raise ClientError))).
Proof.
  intros Henv. rewrite (RunFacts.lambda_run _ _ _ Henv). unfold handler_tree.
  destruct (Lambda.parse_event event) as [[bucket key]|e0] eqn:Hp; cbn [fst].
  2:{ split; [intros [= <-]; by left|].
      intros [[-> _]|(b & k & Hbk & _)]; [done|discriminate Hbk]. }
  destruct (rek_answer w [] _) as [resp|e1] eqn:Hd; cbn [fst].
  2:{ split.
      - destruct (is_ClientError e1) eqn:Ec; [|done].
        apply is_ClientError_iff in Ec as ->. intros [= <-].
        right. exists bucket, key. split; [done|]. by left.
      - intros [[_ Hr]|(b & k & [= <- <-] & [[-> Hr]|(_ & r & Hr & _)])];
          [done| |congruence].
        rewrite Hd in Hr. by injection Hr as ->. }
  rewrite LabelFacts.build_labels_eq. fold (records_of resp).
  destruct (ddb_answer w [_] _) as [[]|e2] eqn:H1; cbn [fst].
  2:{ split; [done|].
      intros [[_ Hr]|(b & k & [= <- <-] & [[_ Hr]|(_ & r & Hr & H1' & _)])];
        [done|congruence|].
      rewrite Hd in Hr. injection Hr as <-. congruence. }
  destruct (ddb_answer w [_; _] _) as [[]|e3] eqn:H2.
  { split; [done|].
    intros [[_ Hr]|(b & k & [= <- <-] & [[_ Hr]|(_ & r & Hr & _ & H2')])];
      [done|congruence|].
    rewrite Hd in Hr. injection Hr as <-. congruence. }
  split.
  - destruct (is_ClientError e3) eqn:Ec; [|done].
    apply is_ClientError_iff in Ec as ->. intros [= <-].
    right. exists bucket, key. split; [done|]. right. split; [done|].
    by exists resp.
  - intros [[_ Hr]|(b & k & [= <- <-] & [[_ Hr]|(-> & r & Hr & _ & H2')])];
      [done|congruence|].
    rewrite Hd in Hr. injection Hr as <-.
    rewrite H2 in H2'. by injection H2' as ->.
Qed.

Lemma lambda_error_iff_witness :
  (run (Lambda.handler Inputs.event_a) Inputs.rekognition_error).1
  = Return (ResultError "rekognition_failed").
Proof.
  apply (proj2 (lambda_error_iff Inputs.rekognition_error Inputs.event_a
                  (py "results") "rekognition_failed" eq_refl)).
  right. exists (PStr (py "images-bucket")), (py "a.jpg").
  split; [reflexivity|]. left. split; reflexivity.
Defined.

(** X13.  The exceptions that leave the handler of
    [src/lambda/lambda_handler.py], all of them: [KeyError] for a missing
    [DDB_TABLE]; what the detection raises, unless it is a [ClientError];
    what the first write raises, whatever it is; and what the second write
    raises, unless it is a [ClientError].  Nothing that the parse stage
    raises leaves the handler. *)
Theorem lambda_raises_iff w event e :
  (run (Lambda.handler event) w).1 = Raise e
  <-> (environ w !! "DDB_TABLE"%string = None /\ e = KeyError)
      \/ (exists table bucket key,
            environ w !! "DDB_TABLE"%string = Some table
            /\ Lambda.parse_event event = Return (bucket, key)
            /\ let c := detect_call w bucket key in
               (rek_answer w [] c = Raise e /\ e <> ClientError)
               \/ (exists resp,
                     rek_answer w [] c = Return resp
                     /\ let p := put_call w table key (records_of resp) in
                        ddb_answer w [c] p = Raise e
                        \/ (ddb_answer w [c] p = Return tt
                            /\ ddb_answer w [c; p] p = Raise e
                            /\ e <> ClientError))).
Proof.
  destruct (environ w !! "DDB_TABLE"%string) as [table|] eqn:Henv.
  2:{ rewrite HandlerFacts.lambda_unconfigured by done. cbn [fst]. split.
      - intros [= <-]. by left.
      - intros [[_ ->]|(t & b & k & Ht & _)]; [done|discriminate Ht]. }
  rewrite (RunFacts.lambda_run _ _ _ Henv). unfold handler_tree.
  destruct (Lambda.parse_event event) as [[bucket key]|e0] eqn:Hp; cbn [fst].
  2:{ split; [done|].
      intros [[Hn _]|(t & b & k & _ & Hbk & _)]; [done|discriminate Hbk]. }
  destruct (rek_answer w [] _) as [resp|e1] eqn:Hd; cbn [fst].
  2:{ split.
      - destruct (is_ClientError e1) eqn:Ec; [done|]. intros [= <-].
        right. exists table, bucket, key. split; [done|]. split; [done|].
        left. split; [done|]. intros ->. done.
      - intros [[Hn _]|(t & b & k & [= <-] & [= <- <-]
                        & [[Hr Hne]|(r & Hr & _)])];
          [done| |congruence].
        rewrite Hd in Hr. injection Hr as ->.
        destruct e; try done. }
  rewrite LabelFacts.build_labels_eq. fold (records_of resp).
  destruct (ddb_answer w [_] _) as [[]|e2] eqn:H1; cbn [fst].
  2:{ split.
      - intros [= <-]. right. exists table, bucket, key.
        split; [done|]. split; [done|]. right. exists resp.
        split; [done|]. by left.
      - intros [[Hn _]|(t & b & k & [= <-] & [= <- <-]
                        & [[Hr _]|(r & Hr & Hw)])];
          [done|congruence|].
        rewrite Hd in Hr. injection Hr as <-. cbv zeta in Hw.
        destruct Hw as [Hw|[Hw _]]; congruence. }
  destruct (ddb_answer w [_; _] _) as [[]|e3] eqn:H2.
  { split; [done|].
    intros [[Hn _]|(t & b & k & [= <-] & [= <- <-]
                    & [[Hr _]|(r & Hr & Hw)])];
      [done|congruence|].
    rewrite Hd in Hr. injection Hr as <-. cbv zeta in Hw.
    destruct Hw as [Hw|(_ & Hw & _)]; congruence. }
  split.
  - destruct (is_ClientError e3) eqn:Ec; [done|]. intros [= <-].
    right. exists table, bucket, key. split; [done|]. split; [done|].
    right. exists resp. split; [done|]. right.
    split; [done|]. split; [done|]. intros ->. done.
  - intros [[Hn _]|(t & b & k & [= <-] & [= <- <-]
                    & [[Hr _]|(r & Hr & Hw)])];
      [done|congruence|].
    rewrite Hd in Hr. injection Hr as <-. cbv zeta in Hw.
    destruct Hw as [Hw|(_ & Hw & Hne)]; [congruence|].
    rewrite H2 in Hw. injection Hw as ->.
    destruct e; try done.
Qed.

(** X21.  The exceptions that leave the handler of [src/lambda_handler.py],
    which guards nothing: [KeyError] for a missing [AWS_REGION] or
    [DDB_TABLE]; what the first failing subscript of the parse stage
    raises; what the detection raises; [KeyError] for an answer with an
    entry that lacks its name or its confidence; and what its write
    raises.  These are all of them. *)
Theorem root_raises_iff w event e :
  (run (RootLambda.handler event) w).1 = Raise e
  <-> ((environ w !! "AWS_REGION"%string = None
        \/ environ w !! "DDB_TABLE"%string = None) /\ e = KeyError)
      \/ (exists region table,
            environ w !! "AWS_REGION"%string = Some region
            /\ environ w !! "DDB_TABLE"%string = Some table
            /\ (RootRun.root_parse event = Raise e
                \/ exists bucket key,
                     RootRun.root_parse event = Return (bucket, key)
                     /\ let c := Rek_detect_labels region bucket key 10 f70 in
                        rek_answer w [] c = Raise e
                        \/ exists resp,
                             rek_answer w [] c = Return resp
                             /\ if all_complete (default [] (resp_Labels resp))
                                then ddb_answer w [c]
                                       (DDB_put_item region table
                                          (RootRun.root_item w key
                                             (records_of resp)))
                                     = Raise e
                                else e = KeyError)).
Proof.
  destruct (environ w !! "AWS_REGION"%string) as [region|] eqn:Hr.
  2:{ assert (Hrun : run (RootLambda.handler event) w = (Raise KeyError, initial)).
      { cbv [run RootLambda.handler mbind M_bind environ_getitem].
        by rewrite Hr. }
      rewrite Hrun. cbn [fst]. split.
      - intros [= <-]. left. split; [by left|done].
      - intros [[_ ->]|(r & t & Hr' & _)]; [done|discriminate Hr']. }
  destruct (environ w !! "DDB_TABLE"%string) as [table|] eqn:Ht.
  2:{ assert (Hrun : run (RootLambda.handler event) w = (Raise KeyError, initial)).
      { cbv [run RootLambda.handler mbind M_bind environ_getitem].
        by rewrite Hr, Ht. }
      rewrite Hrun. cbn [fst]. split.
      - intros [= <-]. left. split; [by right|done].
      - intros [[_ ->]|(r & t & _ & Ht' & _)]; [done|discriminate Ht']. }
  rewrite (RunFacts.root_run _ _ _ _ Hr Ht). unfold RootRun.root_handler_tree.
  destruct (RootRun.root_parse event) as [[bucket key]|e0] eqn:Hp; cbn [fst].
  2:{ split.
      - intros [= <-]. right. exists region, table. by repeat split; try left.
      - intros [[[H|H] _]|(r & t & _ & _ & [[= ->]|(b & k & Hbk & _)])];
          [done..|discriminate Hbk]. }
  destruct (rek_answer w [] _) as [resp|e1] eqn:Hd; cbn [fst].
  2:{ split.
      - intros [= <-]. right. exists region, table. split; [done|].
        split; [done|]. right. exists bucket, key. split; [done|]. by left.
      - intros [[[H|H] _]|(r & t & [= <-] & [= <-]
                           & [Hbk|(b & k & [= <- <-] & Hk)])];
          [done..|].
        cbv zeta in Hk. destruct Hk as [Hk|(r' & Hk & _)]; congruence. }
  rewrite LabelFacts.labels_comprehension_eq.
  fold (all_complete (default [] (resp_Labels resp))). fold (records_of resp).
  destruct (all_complete (default [] (resp_Labels resp))) eqn:Hall; cbn [fst].
  2:{ split.
      - intros [= <-]. right. exists region, table. split; [done|].
        split; [done|]. right. exists bucket, key. split; [done|]. right.
        exists resp. split; [done|]. by rewrite Hall.
      - intros [[[H|H] _]|(r & t & [= <-] & [= <-]
                           & [Hbk|(b & k & [= <- <-] & Hk)])];
          [done..|].
        cbv zeta in Hk. destruct Hk as [Hk|(r' & Hk & Hw)]; [congruence|].
        rewrite Hd in Hk. injection Hk as <-. rewrite Hall in Hw.
        by rewrite Hw. }
  destruct (ddb_answer w [_] _) as [[]|e2] eqn:H1.
  - split; [done|].
    intros [[[H|H] _]|(r & t & [= <-] & [= <-]
                       & [Hbk|(b & k & [= <- <-] & Hk)])];
      [done..|].
    cbv zeta in Hk. destruct Hk as [Hk|(r' & Hk & Hw)]; [congruence|].
    rewrite Hd in Hk. injection Hk as <-. rewrite Hall in Hw. congruence.
  - split.
    + intros [= <-]. right. exists region, table. split; [done|].
      split; [done|]. right. exists bucket, key. split; [done|]. right.
      exists resp. split; [done|]. by rewrite Hall.
    + intros [[[H|H] _]|(r & t & [= <-] & [= <-]
                         & [Hbk|(b & k & [= <- <-] & Hk)])];
        [done..|].
      cbv zeta in Hk. destruct Hk as [Hk|(r' & Hk & Hw)]; [congruence|].
      rewrite Hd in Hk. injection Hk as <-. rewrite Hall in Hw. congruence.
Qed.

End HandlerOutcomes.

(* ===================================================================== *)
(** ** Keys that the decoding leaves alone *)
(* ===================================================================== *)

Module PlainKeys.
Import Urllib Shapes.

Lemma has_escape_percent s : has_escape s = true -> contains PERCENT s = true.
Proof.
  induction s as [|c s IH]; [done|].
  cbn [has_escape]. unfold contains in *. cbn [existsb].
  intros H. apply orb_true_iff in H as [H|H].
  - destruct s as [|h1 [|h2 s']]; try done.
    apply andb_true_iff in H as [H _]. rewrite N.eqb_sym, H. done.
  - rewrite (IH H). apply orb_true_r.
Qed.

(** Unquoting an ASCII run changes it exactly when it holds an escape, and
    then makes it shorter. *)
Lemma unquote_to_bytes_escape s :
  if has_escape s then (length (unquote_to_bytes s) < length s)%nat
  else unquote_to_bytes s = s.
Proof.
  induction s as [|c rest IH]; [done|].
  cbn [has_escape unquote_to_bytes].
  destruct (c =? PERCENT)%N eqn:Ec.
  - destruct rest as [|h1 [|h2 rest']].
    + done.
    + cbn [andb orb]. cbn [has_escape orb] in *. by rewrite IH.
    + destruct (hexval h1) as [a|] eqn:E1, (hexval h2) as [b|] eqn:E2;
        cbn [andb orb].
      * pose proof (UrllibFacts.unquote_to_bytes_length rest') as [Hl _].
        cbn [length]. lia.
      * destruct (has_escape (h1 :: h2 :: rest')); cbn [length] in *;
          [lia|by rewrite IH].
      * destruct (has_escape (h1 :: h2 :: rest')); cbn [length] in *;
          [lia|by rewrite IH].
      * destruct (has_escape (h1 :: h2 :: rest')); cbn [length] in *;
          [lia|by rewrite IH].
  - assert (Hh : match rest with
                 | h1 :: h2 :: _ =>
                     false && match hexval h1, hexval h2 with
                              | Some _, Some _ => true
                              | _, _ => false
                              end
                 | _ => false
                 end = false) by (by destruct rest as [|h1 [|h2 rest']]).
    rewrite Hh. cbn [orb].
    destruct (has_escape rest); cbn [length] in *; [lia|by rewrite IH].
Qed.

Lemma hexval_not_ascii c : is_ascii c = false -> hexval c = None.
Proof.
  unfold is_ascii, hexval. intros H. apply N.ltb_ge in H.
  repeat case_match; try done;
    repeat match goal with
           | H : (_ && _) = true |- _ => apply andb_true_iff in H as [? ?]
           | H : (_ <=? _)%N = true |- _ => apply N.leb_le in H
           end; lia.
Qed.

Lemma percent_ascii c : (c =? PERCENT)%N = true -> is_ascii c = true.
Proof. intros H. apply N.eqb_eq in H as ->. done. Qed.

(** An escape does not reach across a character that is not ASCII. *)
Lemma has_escape_split run c s :
  is_ascii c = false ->
  has_escape (run ++ c :: s) = has_escape run || has_escape s.
Proof.
  intros Hc. pose proof (hexval_not_ascii c Hc) as Hx.
  assert (Hp : (c =? PERCENT)%N = false).
  { destruct (c =? PERCENT)%N eqn:E; [|done].
    apply percent_ascii in E. congruence. }
  induction run as [|r run IH].
  - cbn [app has_escape]. rewrite Hp.
    by destruct s as [|h1 [|h2 s']].
  - change ((r :: run) ++ c :: s) with (r :: (run ++ c :: s)).
    cbn [has_escape]. rewrite IH. rewrite orb_assoc. f_equal. f_equal.
    destruct run as [|h1 [|h2 run']]; cbn [app].
    + rewrite Hx. destruct s; by rewrite ?andb_false_r.
    + rewrite Hx. destruct (hexval h1); by rewrite ?andb_false_r.
    + done.
Qed.

Lemma unquote_runs_escape s run :
  ascii_only run ->
  if has_escape (run ++ s)
  then (length (unquote_runs s run) < length (run ++ s))%nat
  else unquote_runs s run = run ++ s.
Proof.
  revert run. induction s as [|c s IH]; intros run Hrun.
  - rewrite app_nil_r. cbn [unquote_runs]. unfold decode_run.
    pose proof (unquote_to_bytes_escape run) as H.
    destruct (has_escape run).
    + pose proof (UrllibFacts.utf8_decode_length (unquote_to_bytes run)). lia.
    + rewrite H. by apply UrllibFacts.utf8_decode_ascii.
  - cbn [unquote_runs]. destruct (is_ascii c) eqn:Ec.
    + replace (run ++ c :: s) with ((run ++ [c]) ++ s)
        by (by rewrite <- app_assoc).
      apply IH. apply Forall_app. split; [done|]. by constructor.
    + rewrite (has_escape_split run c s Ec).
      pose proof (UrllibFacts.decode_run_shape run Hrun) as Hd.
      pose proof (UrllibFacts.same_or_shorter_le _ _ Hd) as Hdl.
      pose proof (UrllibFacts.unquote_runs_shape s [] ltac:(constructor)) as Hs.
      pose proof (UrllibFacts.same_or_shorter_le _ _ Hs) as Hsl.
      cbn [app] in Hsl.
      pose proof (unquote_to_bytes_escape run) as Hr.
      pose proof (IH [] ltac:(constructor)) as Hi. cbn [app] in Hi.
      unfold decode_run in *.
      destruct (has_escape run), (has_escape s); cbn [orb];
        rewrite ?length_app in *; cbn [length] in *.
      * pose proof (UrllibFacts.utf8_decode_length (unquote_to_bytes run)). lia.
      * pose proof (UrllibFacts.utf8_decode_length (unquote_to_bytes run)). lia.
      * lia.
      * rewrite Hr, Hi. by rewrite UrllibFacts.utf8_decode_ascii.
Qed.

Lemma replace_plus_id s : contains PLUS s = false -> replace_plus s = s.
Proof.
  induction s as [|c s IH]; [done|].
  unfold contains, replace_plus in *. cbn [existsb List.map].
  intros H. apply orb_false_iff in H as [H1 H2].
  rewrite N.eqb_sym in H1. by rewrite H1, IH.
Qed.

(** X14.  [unquote_plus] returns a key as it is exactly when the key holds
    no ['+'] and no escape (a ['%'] followed by two hex digits): these are
    the keys for which the two handlers name the same object.  On every
    other key it changes it, and it never makes a key longer. *)
Theorem unquote_plus_fixes s :
  (unquote_plus s = s <-> contains PLUS s = false /\ has_escape s = false)
  /\ (length (unquote_plus s) <= length s)%nat
  /\ (forall bucket,
        contains PLUS s = false -> has_escape s = false ->
        Lambda.parse_event (Inputs.s3_event bucket (PStr s))
          = Return (bucket, s)
        /\ RootRun.root_parse (Inputs.s3_event bucket (PStr s))
          = Return (bucket, PStr s)).
Proof.
  assert (Hu : forall t, if has_escape t
                         then (length (unquote t) < length t)%nat
                         else unquote t = t).
  { intros t. unfold unquote.
    destruct (contains PERCENT t) eqn:Ep; cbn [negb].
    - apply (unquote_runs_escape t []). constructor.
    - destruct (has_escape t) eqn:Ee; [|done].
      apply has_escape_percent in Ee. congruence. }
  assert (Hfix : contains PLUS s = false -> has_escape s = false ->
                 unquote_plus s = s).
  { intros Hp He. unfold unquote_plus. rewrite (replace_plus_id s Hp).
    pose proof (Hu s) as H. by rewrite He in H. }
  split; [|split].
  - split; [|by intros [Hp He]; apply Hfix].
    intros Heq. destruct (contains PLUS s) eqn:Ep.
    { by apply UrllibFacts.unquote_plus_changes in Ep. }
    split; [done|]. unfold unquote_plus in Heq.
    rewrite (replace_plus_id s Ep) in Heq.
    pose proof (Hu s) as H. destruct (has_escape s); [|done].
    rewrite Heq in H. lia.
  - unfold unquote_plus.
    pose proof (UrllibFacts.same_or_shorter_le _ _
                  (UrllibFacts.unquote_shape (replace_plus s))) as H.
    by rewrite UrllibFacts.replace_plus_length in H.
  - intros bucket Hp He. split; [|done].
    change (Lambda.parse_event (Inputs.s3_event bucket (PStr s)))
      with (@Return (pyval * pystr) (bucket, unquote_plus s)).
    by rewrite (Hfix Hp He).
Qed.

End PlainKeys.

(* ===================================================================== *)
(** ** Decoding what the notification encoded *)
(* ===================================================================== *)

Module QuoteRoundTrip.
Import Urllib Shapes Quote.

Ltac bools :=
  repeat match goal with
         | H : (_ && _) = true |- _ => apply andb_true_iff in H as [? ?]
         | H : (_ || _) = true |- _ => apply orb_true_iff in H as [?|?]
         | H : (_ || _) = false |- _ => apply orb_false_iff in H as [? ?]
         | H : (_ <=? _)%N = true |- _ => apply N.leb_le in H
         | H : (_ <=? _)%N = false |- _ => apply N.leb_gt in H
         | H : (_ <? _)%N = true |- _ => apply N.ltb_lt in H
         | H : (_ <? _)%N = false |- _ => apply N.ltb_ge in H
         | H : (_ =? _)%N = true |- _ => apply N.eqb_eq in H
         | H : (_ =? _)%N = false |- _ => apply N.eqb_neq in H
         end.

Ltac nlia := zify; Z.to_euclidean_division_equations; lia.

Lemma in_range_true lo hi b :
  (lo <= b)%N /\ (b <= hi)%N -> in_range lo hi b = true.
Proof.
  intros [H1 H2]. unfold in_range.
  apply andb_true_iff. split; by apply N.leb_le.
Qed.

Lemma in_range_false lo hi b :
  (b < lo)%N \/ (hi < b)%N -> in_range lo hi b = false.
Proof.
  intros H. unfold in_range. apply andb_false_iff.
  destruct H; [left; by apply N.leb_gt|right; by apply N.leb_gt].
Qed.

Lemma not_ascii b : (128 <= b)%N -> is_ascii b = false.
Proof. intros H. unfold is_ascii. by apply N.ltb_ge. Qed.

Lemma second3_ok c :
  (2048 <= c < 65536)%N -> is_scalar c = true ->
  in_range (second3 (224 + c / 4096)).1 (second3 (224 + c / 4096)).2
    (128 + (c / 64) mod 64) = true.
Proof.
  intros Hc Hs. unfold is_scalar in Hs. unfold second3.
  destruct (224 + c / 4096 =? 224)%N eqn:E1;
    [|destruct (224 + c / 4096 =? 237)%N eqn:E2];
    cbn [fst snd]; apply in_range_true; bools; nlia.
Qed.

Lemma second4_ok c :
  (65536 <= c < 1114112)%N ->
  in_range (second4 (240 + c / 262144)).1 (second4 (240 + c / 262144)).2
    (128 + (c / 4096) mod 64) = true.
Proof.
  intros Hc. unfold second4.
  destruct (240 + c / 262144 =? 240)%N eqn:E1;
    [|destruct (240 + c / 262144 =? 244)%N eqn:E2];
    cbn [fst snd]; apply in_range_true; bools; nlia.
Qed.

(** Decoding the UTF-8 form of a code point gives the code point. *)
Lemma utf8_decode_encode_char c rest :
  is_scalar c = true ->
  utf8_decode (utf8_encode_char c ++ rest) = c :: utf8_decode rest.
Proof.
  intros Hs. unfold utf8_encode_char.
  destruct (c <? 128)%N eqn:E1.
  { cbn [app utf8_decode]. unfold is_ascii. by rewrite E1. }
  destruct (c <? 2048)%N eqn:E2.
  { apply N.ltb_ge in E1. apply N.ltb_lt in E2.
    cbn [app utf8_decode].
    rewrite not_ascii by nlia.
    rewrite (in_range_true 194 223) by nlia.
    unfold is_cont. rewrite (in_range_true 128 191) by nlia.
    f_equal. unfold low6. nlia. }
  destruct (c <? 65536)%N eqn:E3.
  { apply N.ltb_ge in E1, E2. apply N.ltb_lt in E3.
    cbn [app utf8_decode].
    rewrite not_ascii by nlia.
    rewrite (in_range_false 194 223) by nlia.
    rewrite (in_range_true 224 239) by nlia.
    rewrite second3_ok by done.
    unfold is_cont. rewrite (in_range_true 128 191) by nlia.
    f_equal. unfold low6. nlia. }
  apply N.ltb_ge in E1, E2, E3.
  assert (Hc : (c < 1114112)%N) by (unfold is_scalar in Hs; bools; lia).
  cbn [app utf8_decode].
  rewrite not_ascii by nlia.
  rewrite (in_range_false 194 223) by nlia.
  rewrite (in_range_false 224 239) by nlia.
  rewrite (in_range_true 240 244) by nlia.
  rewrite second4_ok by done.
  unfold is_cont. rewrite !(in_range_true 128 191) by nlia.
  f_equal. unfold low6. nlia.
Qed.

Lemma utf8_decode_encode s :
  Forall (fun c => is_scalar c = true) s -> utf8_decode (utf8_encode s) = s.
Proof.
  induction 1 as [|c s Hc _ IH]; [done|].
  unfold utf8_encode in *. cbn [flat_map].
  by rewrite utf8_decode_encode_char, IH.
Qed.

Lemma utf8_encode_bytes s :
  Forall (fun c => is_scalar c = true) s ->
  Forall (fun b => (b < 256)%N) (utf8_encode s).
Proof.
  induction 1 as [|c s Hc _ IH]; [constructor|].
  unfold utf8_encode in *. cbn [flat_map]. apply Forall_app. split; [|done].
  unfold utf8_encode_char, is_scalar in *.
  repeat case_match; bools; repeat constructor; nlia.
Qed.

Lemma hexval_hex_digit n : (n < 16)%N -> hexval (hex_digit n) = Some n.
Proof.
  intros Hn. unfold hex_digit, hexval.
  destruct (n <? 10)%N eqn:E; bools.
  - rewrite (proj2 (andb_true_iff _ _)); [f_equal; lia|].
    split; apply N.leb_le; lia.
  - assert (E1 : ((48 <=? 55 + n) && (55 + n <=? 57))%N = false).
    { apply andb_false_iff. right. apply N.leb_gt. lia. }
    rewrite E1, (proj2 (andb_true_iff _ _)); [f_equal; lia|].
    split; apply N.leb_le; lia.
Qed.

Lemma always_safe_facts b :
  always_safe b = true ->
  is_ascii b = true /\ (b =? PERCENT)%N = false /\ (b =? PLUS)%N = false.
Proof.
  unfold always_safe, is_ascii, PERCENT, PLUS. intros H. bools;
    (split; [apply N.ltb_lt; lia|split; apply N.eqb_neq; lia]).
Qed.

Lemma kept_facts safe b :
  decodable safe -> always_safe b || safe b = true ->
  is_ascii b = true /\ (b =? PERCENT)%N = false /\ (b =? PLUS)%N = false.
Proof.
  intros Hsafe H. apply orb_true_iff in H as [H|H].
  - by apply always_safe_facts.
  - destruct (Hsafe b H) as (Ha & Hp & Hq).
    split; [done|]. split; by apply N.eqb_neq.
Qed.

Lemma hex_digit_facts n :
  (n < 16)%N ->
  is_ascii (hex_digit n) = true /\ (hex_digit n =? PLUS)%N = false.
Proof.
  intros Hn. unfold hex_digit, is_ascii, PLUS.
  destruct (n <? 10)%N; (split; [apply N.ltb_lt; lia|apply N.eqb_neq; lia]).
Qed.

(** What [replace('+', ' ')] makes of an encoded byte. *)
Lemma replace_plus_quote_byte safe b :
  decodable safe -> (b < 256)%N ->
  replace_plus (quote_byte safe b)
  = if (b =? SPACE)%N then [SPACE]
    else if always_safe b || safe b then [b]
    else [PERCENT; hex_digit (b / 16); hex_digit (b mod 16)].
Proof.
  intros Hsafe Hb. unfold quote_byte, replace_plus.
  destruct (b =? SPACE)%N; [done|].
  destruct (always_safe b || safe b) eqn:Es.
  - destruct (kept_facts safe b Hsafe Es) as (_ & _ & Hp).
    cbn [List.map]. by rewrite Hp.
  - destruct (hex_digit_facts (b / 16)) as [_ H1]; [nlia|].
    destruct (hex_digit_facts (b mod 16)) as [_ H2]; [nlia|].
    cbn [List.map]. by rewrite H1, H2.
Qed.

Lemma replace_plus_quote_ascii safe bs :
  decodable safe -> Forall (fun b => (b < 256)%N) bs ->
  ascii_only (replace_plus (flat_map (quote_byte safe) bs)).
Proof.
  intros Hsafe. induction 1 as [|b bs Hb _ IH]; [constructor|].
  cbn [flat_map]. unfold replace_plus in *. rewrite map_app.
  apply Forall_app. split; [|done].
  fold (replace_plus (quote_byte safe b)).
  rewrite replace_plus_quote_byte by done.
  destruct (b =? SPACE)%N; [by repeat constructor|].
  destruct (always_safe b || safe b) eqn:Es.
  - destruct (kept_facts safe b Hsafe Es) as (Ha & _). by repeat constructor.
  - destruct (hex_digit_facts (b / 16)) as [H1 _]; [nlia|].
    destruct (hex_digit_facts (b mod 16)) as [H2 _]; [nlia|].
    by repeat constructor.
Qed.

(** Unquoting the encoded bytes gives the bytes. *)
Lemma unquote_to_bytes_quote safe bs :
  decodable safe -> Forall (fun b => (b < 256)%N) bs ->
  unquote_to_bytes (replace_plus (flat_map (quote_byte safe) bs)) = bs.
Proof.
  intros Hsafe. induction 1 as [|b bs Hb _ IH]; [done|].
  cbn [flat_map]. unfold replace_plus in *. rewrite map_app.
  fold (replace_plus (quote_byte safe b)).
  rewrite replace_plus_quote_byte by done.
  destruct (b =? SPACE)%N eqn:E.
  { apply N.eqb_eq in E as ->. cbn [app unquote_to_bytes].
    change (SPACE =? PERCENT)%N with false. cbv iota. by rewrite IH. }
  destruct (always_safe b || safe b) eqn:Es.
  - destruct (kept_facts safe b Hsafe Es) as (_ & Hp & _).
    cbn [app unquote_to_bytes]. by rewrite Hp, IH.
  - cbn [app unquote_to_bytes]. rewrite N.eqb_refl.
    rewrite !hexval_hex_digit by nlia. rewrite IH. f_equal. nlia.
Qed.

Lemma unquote_to_bytes_no_percent s :
  contains PERCENT s = false -> unquote_to_bytes s = s.
Proof.
  induction s as [|c s IH]; [done|].
  unfold contains in *. cbn [existsb unquote_to_bytes].
  intros H. apply orb_false_iff in H as [H1 H2].
  rewrite N.eqb_sym in H1. by rewrite H1, IH.
Qed.

Lemma unquote_runs_ascii s :
  ascii_only s -> forall run, unquote_runs s run = decode_run (run ++ s).
Proof.
  induction 1 as [|c s Hc _ IH]; intros run.
  - by rewrite app_nil_r.
  - cbn [unquote_runs]. rewrite Hc, IH. by rewrite <- app_assoc.
Qed.

(** On an ASCII string [unquote] is unquoting to bytes and decoding. *)
Lemma unquote_ascii s :
  ascii_only s -> unquote s = utf8_decode (unquote_to_bytes s).
Proof.
  intros Hs. unfold unquote.
  destruct (contains PERCENT s) eqn:Ep; cbn [negb].
  - by rewrite unquote_runs_ascii.
  - rewrite unquote_to_bytes_no_percent by done.
    by rewrite UrllibFacts.utf8_decode_ascii.
Qed.

(** X22.  Decoding undoes the encoding of the notification: for every
    object key (any text that UTF-8 encodes, with spaces, ['+'], ['%'],
    slashes and characters outside ASCII) and every choice of characters
    the encoder leaves as they are (ASCII, other than ['%'] and ['+']),
    [unquote_plus] of the key's [quote_plus] form is the key itself.  So the
    handler of [src/lambda/lambda_handler.py], given a notification that
    carries the encoded key, works on the object's own key. *)
Theorem unquote_plus_quote_plus safe key :
  decodable safe ->
  Forall (fun c => is_scalar c = true) key ->
  unquote_plus (quote_plus safe key) = key
  /\ (forall bucket,
        Lambda.parse_event
          (Inputs.s3_event bucket (PStr (quote_plus safe key)))
        = Return (bucket, key)).
Proof.
  intros Hsafe Hkey.
  assert (Hround : unquote_plus (quote_plus safe key) = key).
  { unfold unquote_plus, quote_plus.
    pose proof (utf8_encode_bytes key Hkey) as Hb.
    rewrite unquote_ascii by (by apply replace_plus_quote_ascii).
    rewrite unquote_to_bytes_quote by done.
    by apply utf8_decode_encode. }
  split; [done|]. intros bucket.
  change (Lambda.parse_event
            (Inputs.s3_event bucket (PStr (quote_plus safe key))))
    with (@Return (pyval * pystr)
            (bucket, unquote_plus (quote_plus safe key))).
  by rewrite Hround.
Qed.

Lemma unquote_plus_quote_plus_witness :
  quote_plus slash_safe MoreInputs.odd_key
    = py "in/my+photo%2B%C3%A9+100%25.jpg"
  /\ unquote_plus (quote_plus slash_safe MoreInputs.odd_key)
     = MoreInputs.odd_key.
Proof.
  split; [vm_compute; reflexivity|].
  apply (unquote_plus_quote_plus slash_safe MoreInputs.odd_key).
  - intros b Hb. apply N.eqb_eq in Hb as ->. repeat split; discriminate.
  - repeat constructor.
Defined.

End QuoteRoundTrip.

(* ===================================================================== *)
(** ** The batch driver, file by file *)
(* ===================================================================== *)

Module BatchRuns.
Import Batch BatchRun.

Lemma rfind_dot_none b i last :
  Forall (fun c => c <> 46%N) b -> rfind_dot b i last = last.
Proof.
  intros Hb. revert i last. induction Hb as [|c b Hc _ IH]; intros i last.
  - done.
  - cbn [rfind_dot]. apply N.eqb_neq in Hc. rewrite Hc. apply IH.
Qed.

Lemma rfind_dot_last a b i last :
  Forall (fun c => c <> 46%N) b ->
  rfind_dot (a ++ 46%N :: b) i last = Some (i + length a)%nat.
Proof.
  intros Hb. revert i last. induction a as [|c a IH]; intros i last.
  - cbn [app rfind_dot length]. rewrite N.eqb_refl, rfind_dot_none by done.
    f_equal. lia.
  - cbn [app rfind_dot length]. rewrite IH. f_equal. lia.
Qed.

Lemma lower_ascii_dot c x :
  PyDecimal.lower_ascii c = x -> (x = 46%N -> c = 46%N) /\ (x <> 46%N -> c <> 46%N).
Proof.
  unfold PyDecimal.lower_ascii. intros H.
  destruct ((65 <=? c) && (c <=? 90))%N eqn:E.
  - apply andb_true_iff in E as [E1 E2].
    apply N.leb_le in E1, E2. split; intros; lia.
  - subst x. split; [done|done].
Qed.

Lemma lower_no_dot ext xs :
  lower ext = xs -> Forall (fun c => c <> 46%N) xs ->
  Forall (fun c => c <> 46%N) ext.
Proof.
  intros <-. induction ext as [|c ext IH]; [done|].
  cbn [lower List.map]. intros H. apply Forall_cons in H as [H1 H2].
  constructor; [|by apply IH].
  by apply (lower_ascii_dot c _ eq_refl).
Qed.

(** An extension that lowers to [.jpg], [.jpeg] or [.png] is a dot
    followed by at least one character, none of them a dot. *)
Lemma image_extension ext :
  lower ext ∈ [py ".jpg"; py ".jpeg"; py ".png"] ->
  exists c b, ext = 46%N :: c :: b /\ Forall (fun c => c <> 46%N) (c :: b).
Proof.
  intros H.
  assert (Hx : exists x xs, lower ext = 46%N :: x :: xs
                            /\ Forall (fun c => c <> 46%N) (x :: xs)).
  { rewrite !elem_of_cons, elem_of_nil in H.
    destruct H as [->|[->|[->|[]]]]; eexists _, _;
      (split; [reflexivity|]); by repeat (constructor; [done|]). }
  destruct Hx as (x & xs & Hl & Hnd).
  destruct ext as [|d [|c b]]; try discriminate Hl.
  cbn [lower List.map] in Hl. injection Hl as Hd Hc Hb.
  exists c, b. split.
  - f_equal. by apply (lower_ascii_dot d _ Hd).
  - apply (lower_no_dot _ (x :: xs)); [|done].
    cbn [lower List.map]. by rewrite Hc, Hb.
Qed.

(** X15.  Which entries of [images/] the driver takes: those whose name is a
    non-empty stem followed by [.jpg], [.jpeg] or [.png] in any letter case.
    A name that is nothing but the extension, like [.jpg], is not taken, and
    neither is one with anything after the extension. *)
Theorem is_image_iff name :
  is_image name = true
  <-> exists stem ext,
        name = stem ++ ext /\ stem <> []
        /\ lower ext ∈ [py ".jpg"; py ".jpeg"; py ".png"].
Proof.
  rewrite BatchFacts.is_image_spec. split.
  - unfold suffix. intros H.
    destruct (rfind_dot name 0 None) as [i|];
      [|by rewrite !elem_of_cons, elem_of_nil in H;
           destruct H as [H|[H|[H|[]]]]].
    destruct ((0 <? i)%nat && (S i <? length name)%nat) eqn:E;
      [|by rewrite !elem_of_cons, elem_of_nil in H;
           destruct H as [H|[H|[H|[]]]]].
    apply andb_true_iff in E as [E1 E2].
    apply Nat.ltb_lt in E1, E2.
    exists (take i name), (drop i name).
    split; [by rewrite take_drop|]. split; [|done].
    intros Hnil. apply (f_equal length) in Hnil.
    rewrite length_take in Hnil. simpl in Hnil. lia.
  - intros (stem & ext & -> & Hstem & Hext).
    destruct (image_extension ext Hext) as (c & b & -> & Hnd).
    unfold suffix. rewrite rfind_dot_last by done.
    assert (E : (0 <? 0 + length stem)%nat
                && (S (0 + length stem) <? length (stem ++ 46%N :: c :: b))%nat
                = true).
    { apply andb_true_iff. split; apply Nat.ltb_lt.
      - destruct stem; [done|]. simpl. lia.
      - rewrite length_app. simpl. lia. }
    rewrite E. cbn [Nat.add]. by rewrite drop_app_length.
Qed.

Lemma process_nothing_found region bucket table branch w name st :
  (forall h c, s3_answer w h c = Return tt) ->
  (forall h c, exists resp,
      rek_answer w h c = Return resp /\ default [] (resp_Labels resp) = []) ->
  (forall h c, ddb_answer w h c = Return tt) ->
  exists up det put,
    process region bucket table branch name w st
    = (Return tt, mkState (calls st ++ [up; det; put]) (S (clock_reads st)))
    /\ shape <$> [up; det; put] = plan name
    /\ is_put_item up = false /\ is_put_item det = false
    /\ written_field "labels" put = Some (ILabels [])
    /\ written_field "branch" put = Some (IVal (PStr branch))
    /\ call_table put = Some table.
Proof.
  intros Hs3 Hrek Hddb. destruct st as [cs n].
  cbv [process mbind M_bind mret M_ret lift upload_file detect_labels
       put_item perform iso_now read_clock calls clock_reads].
  rewrite Hs3.
  match goal with
  | |- context [rek_answer w ?h ?c] =>
      destruct (Hrek h c) as (resp & Hr & Hl); rewrite Hr, Hl
  end.
  cbn [labels_comprehension json_dumps_item]. rewrite Hddb.
  eexists _, _, _. split; [by rewrite <- !app_assoc|].
  repeat split; done.
Qed.

Lemma for_each_nothing_found region bucket table branch w :
  (forall h c, s3_answer w h c = Return tt) ->
  (forall h c, exists resp,
      rek_answer w h c = Return resp /\ default [] (resp_Labels resp) = []) ->
  (forall h c, ddb_answer w h c = Return tt) ->
  forall files st, exists new,
    for_each (process region bucket table branch) files w st
    = (Return tt, mkState (calls st ++ new) (clock_reads st + length files))
    /\ shape <$> new = flat_map plan files
    /\ Forall (fun c => is_put_item c = true ->
                 written_field "labels" c = Some (ILabels [])
                 /\ written_field "branch" c = Some (IVal (PStr branch))
                 /\ call_table c = Some table) new.
Proof.
  intros Hs3 Hrek Hddb files. induction files as [|name files IH]; intros st.
  - exists []. destruct st as [cs n]. cbn [for_each calls clock_reads length].
    rewrite app_nil_r, Nat.add_0_r. repeat split. constructor.
  - cbn [for_each]. unfold mbind, M_bind.
    destruct (process_nothing_found region bucket table branch w name st
                Hs3 Hrek Hddb)
      as (up & det & put & -> & Hsh1 & Hu & Hd & Hp1 & Hp2 & Hp3).
    destruct (IH (mkState (calls st ++ [up; det; put]) (S (clock_reads st))))
      as (new & -> & Hsh & Hw).
    cbn [calls clock_reads].
    exists ([up; det; put] ++ new). split.
    { f_equal. f_equal; [by rewrite <- !app_assoc|]. cbn [length]. lia. }
    split.
    { rewrite fmap_app, Hsh, Hsh1. reflexivity. }
    apply Forall_app. split; [|done].
    apply Forall_cons_2; [by rewrite Hu|].
    apply Forall_cons_2; [by rewrite Hd|].
    apply Forall_cons_2; [done|]. apply Forall_nil_2.
Qed.

(** X16.  A run of the driver in which S3 and the table accept every request
    and Rekognition finds no label goes through all the selected files: it
    returns, having made for each file in turn its upload, its detection and
    its write, with one reading of the clock per file, and every item
    written has an empty list of labels, the branch [GITHUB_REF_NAME] names
    ([unknown] when it is not set) and goes to the table [DYNAMODB_TABLE]
    names. *)
Theorem batch_completes_when_nothing_found w listing region bucket table :
  environ w !! "AWS_REGION"%string = Some region ->
  environ w !! "S3_BUCKET"%string = Some bucket ->
  environ w !! "DYNAMODB_TABLE"%string = Some table ->
  (forall h c, s3_answer w h c = Return tt) ->
  (forall h c, exists resp,
      rek_answer w h c = Return resp /\ default [] (resp_Labels resp) = []) ->
  (forall h c, ddb_answer w h c = Return tt) ->
  let files := List.filter is_image listing in
  let res := run (main listing) w in
  res.1 = Return tt
  /\ shape <$> calls res.2 = flat_map plan files
  /\ clock_reads res.2 = length files
  /\ Forall (fun c => is_put_item c = true ->
               written_field "labels" c = Some (ILabels [])
               /\ written_field "branch" c
                  = Some (IVal (PStr (default (py "unknown")
                              (environ w !! "GITHUB_REF_NAME"%string))))
               /\ call_table c = Some table) (calls res.2).
Proof.
  intros H1 H2 H3 Hs3 Hrek Hddb files res. subst files res.
  rewrite (RunFacts.main_run _ _ _ _ _ H1 H2 H3).
  destruct (for_each_nothing_found region bucket table
              (default (py "unknown") (environ w !! "GITHUB_REF_NAME"%string))
              w Hs3 Hrek Hddb (List.filter is_image listing) initial)
    as (new & -> & Hsh & Hw).
  cbn [fst snd calls clock_reads initial app]. done.
Qed.

Lemma batch_completes_when_nothing_found_witness :
  (run (main Inputs.listing) MoreInputs.nothing_found).1 = Return tt
  /\ shape <$> calls (run (main Inputs.listing) MoreInputs.nothing_found).2
     = flat_map plan (List.filter is_image Inputs.listing).
Proof.
  pose proof (batch_completes_when_nothing_found MoreInputs.nothing_found
                Inputs.listing (py "us-east-1") (py "images-bucket")
                (py "results") eq_refl eq_refl eq_refl
                (fun _ _ => eq_refl)
                (fun _ _ => ex_intro _ Inputs.no_labels (conj eq_refl eq_refl))
                (fun _ _ => eq_refl)) as (Hr & Hs & _).
  exact (conj Hr Hs).
Defined.

(** X17.  The driver guards nothing: the first request that raises ends the
    run with that exception, and the files after it are not touched.  For
    the first selected file: a refused upload leaves one call and no
    detection; a failed detection leaves two calls and no write; an answer
    with an entry that lacks its name or its confidence raises [KeyError]
    before the write; and a refused write, for an image without labels, ends
    the run after its three calls. *)
Theorem batch_stops_at_first_error w listing region bucket table name rest :
  environ w !! "AWS_REGION"%string = Some region ->
  environ w !! "S3_BUCKET"%string = Some bucket ->
  environ w !! "DYNAMODB_TABLE"%string = Some table ->
  List.filter is_image listing = name :: rest ->
  let up := S3_upload_file region (py "images/" ++ name) bucket (key_of name) in
  let det := Rek_detect_labels region (PStr bucket) (PStr (key_of name)) 10 f70 in
  let put := DDB_put_item region table
               {[ "filename"%string := IVal (PStr (key_of name));
                  "labels"%string := ILabels [];
                  "timestamp"%string :=
                    IVal (PStr (PyTime.isoformat_Z (clock w 0%nat)));
                  "branch"%string :=
                    IVal (PStr (default (py "unknown")
                                  (environ w !! "GITHUB_REF_NAME"%string))) ]} in
  (forall e, s3_answer w [] up = Raise e ->
     run (main listing) w = (Raise e, mkState [up] 0))
  /\ (forall e, s3_answer w [] up = Return tt ->
        rek_answer w [up] det = Raise e ->
        run (main listing) w = (Raise e, mkState [up; det] 0))
  /\ (forall resp, s3_answer w [] up = Return tt ->
        rek_answer w [up] det = Return resp ->
        all_complete (default [] (resp_Labels resp)) = false ->
        run (main listing) w = (Raise KeyError, mkState [up; det] 0))
  /\ (forall resp e, s3_answer w [] up = Return tt ->
        rek_answer w [up] det = Return resp ->
        default [] (resp_Labels resp) = [] ->
        ddb_answer w [up; det] put = Raise e ->
        run (main listing) w = (Raise e, mkState [up; det; put] 1)).
Proof.
  intros H1 H2 H3 Hfiles up det put.
  rewrite (RunFacts.main_run _ _ _ _ _ H1 H2 H3), Hfiles.
  cbv [for_each process mbind M_bind mret M_ret lift upload_file detect_labels
       put_item perform iso_now read_clock initial calls clock_reads].
  cbn [app]. fold (key_of name). fold up.
  split; [|split; [|split]].
  - intros e ->. reflexivity.
  - intros e ->. cbn [app]. fold det. intros ->. reflexivity.
  - intros resp ->. cbn [app]. fold det. intros -> Hall.
    rewrite LabelFacts.labels_comprehension_eq.
    unfold all_complete in Hall. by rewrite Hall.
  - intros resp e ->. cbn [app]. fold det. intros -> ->.
    cbn [labels_comprehension json_dumps_item app].
    fold put. intros ->. reflexivity.
Qed.

Lemma batch_stops_at_first_error_witness :
  run (main [py "notes.txt"; py "a.jpg"; py "b.png"]) MoreInputs.s3_down
  = (Raise S3UploadFailedError,
     mkState [S3_upload_file (py "us-east-1") (py "images/a.jpg")
                (py "images-bucket") (py "rekognition-input/a.jpg")] 0).
Proof.
  apply (proj1 (batch_stops_at_first_error MoreInputs.s3_down
                  [py "notes.txt"; py "a.jpg"; py "b.png"]
                  (py "us-east-1") (py "images-bucket") (py "results")
                  (py "a.jpg") [py "b.png"]
                  eq_refl eq_refl eq_refl eq_refl)).
  reflexivity.
Defined.

(** X18, which is [BatchFacts.batch_selection_and_order], at work on a
    listing of six entries of which three are images. *)
Lemma batch_selection_and_order_witness :
  List.filter is_image Inputs.listing `sublist_of` Inputs.listing
  /\ shape <$> calls (run (main Inputs.listing) (Inputs.all_up Inputs.shoe)).2
     `prefix_of` flat_map plan (List.filter is_image Inputs.listing).
Proof.
  pose proof (BatchFacts.batch_selection_and_order (Inputs.all_up Inputs.shoe)
                Inputs.listing (py "us-east-1") (py "images-bucket")
                (py "results") eq_refl eq_refl eq_refl) as (_ & Hs & Hp & _).
  exact (conj Hs Hp).
Defined.

End BatchRuns.

(* ===================================================================== *)
(** ** Timestamps *)
(* ===================================================================== *)

Module Timestamps.
Import PyTime PyFloat.

Lemma civil_round_trip z :
  let '(y, m, d) := civil_from_days z in
  days_from_civil y m d = z /\ 1 <= m <= 12 /\ 1 <= d <= 31
  /\ (-719162 <= z < 2932897 -> 1 <= y <= 9999).
Proof.
  unfold civil_from_days, days_from_civil. cbv zeta.
  set (zz := z + 719468).
  set (era := zz / 146097).
  set (doe := zz - era * 146097).
  assert (Hdoe : 0 <= doe < 146097).
  { subst doe era. pose proof (Z.div_mod zz 146097 ltac:(lia)).
    pose proof (Z.mod_pos_bound zz 146097 ltac:(lia)). lia. }
  assert (Hz : z = era * 146097 + doe - 719468) by (subst doe zz; lia).
  clearbody doe. clearbody era.
  set (yoe := (doe - doe / 1460 + doe / 36524 - doe / 146096) / 365).
  assert (Hyoe : 0 <= yoe <= 399).
  { subst yoe. Z.div_mod_to_equations; lia. }
  set (doy := doe - (365 * yoe + yoe / 4 - yoe / 100)).
  assert (Hdoy : 0 <= doy <= 365).
  { subst doy yoe. Z.div_mod_to_equations; lia. }
  assert (Hdoe' : doe = yoe * 365 + yoe / 4 - yoe / 100 + doy)
    by (subst doy; lia).
  clearbody doy. clearbody yoe.
  set (mp := (5 * doy + 2) / 153).
  assert (Hmp : 0 <= mp <= 11) by (subst mp; Z.div_mod_to_equations; lia).
  assert (Hmp10 : 306 <= doy <-> 10 <= mp)
    by (subst mp; Z.div_mod_to_equations; lia).
  set (d := doy - (153 * mp + 2) / 5 + 1).
  assert (Hd : 1 <= d <= 31) by (subst d mp; Z.div_mod_to_equations; lia).
  assert (Hdoy' : doy = (153 * mp + 2) / 5 + d - 1) by (subst d; lia).
  clearbody d. clearbody mp.
  set (m := if mp <? 10 then mp + 3 else mp - 9).
  assert (Hm : 1 <= m <= 12 /\ (if 2 <? m then m - 3 else m + 9) = mp
               /\ ((m <=? 2) = negb (mp <? 10))).
  { subst m. destruct (Z.ltb_spec mp 10).
    - destruct (Z.ltb_spec 2 (mp + 3)); destruct (Z.leb_spec (mp + 3) 2);
        simpl; lia.
    - destruct (Z.ltb_spec 2 (mp - 9)); destruct (Z.leb_spec (mp - 9) 2);
        simpl; lia. }
  destruct Hm as (Hm & Hmp' & Hle). clearbody m.
  rewrite Hmp'. split; [|split; [assumption|split; [assumption|]]].
  - assert (Hy : (if m <=? 2
                  then yoe + era * 400 + (if m <=? 2 then 1 else 0) - 1
                  else yoe + era * 400 + (if m <=? 2 then 1 else 0))
                 = era * 400 + yoe) by (destruct (m <=? 2); lia).
    rewrite Hy.
    assert (He : (era * 400 + yoe) / 400 = era)
      by (Z.div_mod_to_equations; lia).
    rewrite He. replace (era * 400 + yoe - era * 400) with yoe by lia.
    rewrite <- Hdoy', <- Hdoe'. lia.
  - intros Hrange. rewrite Hle.
    assert (Hera : 0 <= era <= 24) by lia.
    destruct (Z.ltb_spec mp 10) as [Hlt|Hge]; cbn [negb].
    + assert (era = 0 -> 1 <= yoe \/ 306 <= doy).
      { intros ->. Z.div_mod_to_equations. lia. }
      lia.
    + assert (era = 24 -> yoe <= 398).
      { intros ->. Z.div_mod_to_equations. lia. }
      assert (era = 0 -> 0 <= yoe) by lia.
      lia.
Qed.

Lemma digit_char_inj a b :
  0 <= a < 10 -> 0 <= b < 10 -> digit_char a = digit_char b -> a = b.
Proof. unfold digit_char. lia. Qed.

Lemma digits_of_2 D :
  digits_of 2 D = [digit_char (D / 10 mod 10); digit_char (D mod 10)].
Proof. reflexivity. Qed.

Lemma digits_of_4 D :
  digits_of 4 D
  = [digit_char (D / 10 / 10 / 10 mod 10); digit_char (D / 10 / 10 mod 10);
     digit_char (D / 10 mod 10); digit_char (D mod 10)].
Proof. reflexivity. Qed.

Lemma digits_of_2_inj a b :
  0 <= a < 100 -> 0 <= b < 100 -> digits_of 2 a = digits_of 2 b -> a = b.
Proof.
  intros Ha Hb. rewrite !digits_of_2. intros [= H1 H2].
  apply digit_char_inj in H1; [|Z.div_mod_to_equations; lia..].
  apply digit_char_inj in H2; [|Z.div_mod_to_equations; lia..].
  Z.div_mod_to_equations; lia.
Qed.

Lemma digits_of_4_inj a b :
  0 <= a < 10000 -> 0 <= b < 10000 -> digits_of 4 a = digits_of 4 b -> a = b.
Proof.
  intros Ha Hb. rewrite !digits_of_4. intros [= H1 H2 H3 H4].
  apply digit_char_inj in H1; [|Z.div_mod_to_equations; lia..].
  apply digit_char_inj in H2; [|Z.div_mod_to_equations; lia..].
  apply digit_char_inj in H3; [|Z.div_mod_to_equations; lia..].
  apply digit_char_inj in H4; [|Z.div_mod_to_equations; lia..].
  Z.div_mod_to_equations; lia.
Qed.

Lemma timestamp_form_inj y1 mo1 d1 h1 mi1 s1 y2 mo2 d2 h2 mi2 s2 :
  timestamp_form y1 mo1 d1 h1 mi1 s1 = timestamp_form y2 mo2 d2 h2 mi2 s2 ->
  digits_of 4 y1 = digits_of 4 y2 /\ digits_of 2 mo1 = digits_of 2 mo2
  /\ digits_of 2 d1 = digits_of 2 d2 /\ digits_of 2 h1 = digits_of 2 h2
  /\ digits_of 2 mi1 = digits_of 2 mi2 /\ digits_of 2 s1 = digits_of 2 s2.
Proof.
  unfold timestamp_form. rewrite !digits_of_4, !digits_of_2.
  intros H. injection H as -> -> -> -> -> -> -> -> -> -> -> -> -> ->.
  done.
Qed.

(** The fields of the timestamp of an instant. *)
Lemma isoformat_Z_fields us :
  datetime_min <= us < datetime_max ->
  exists y mo d h mi s,
    isoformat_Z us = timestamp_form y mo d h mi s
    /\ 1 <= y <= 9999 /\ 1 <= mo <= 12 /\ 1 <= d <= 31
    /\ 0 <= h <= 23 /\ 0 <= mi <= 59 /\ 0 <= s <= 59
    /\ us / 1000000
       = ((days_from_civil y mo d * 24 + h) * 60 + mi) * 60 + s.
Proof.
  unfold datetime_min, datetime_max. intros Hus.
  unfold isoformat_Z. cbv zeta.
  pose proof (civil_round_trip (us / 1000000 / 86400)) as Hc.
  destruct (civil_from_days (us / 1000000 / 86400)) as [[y mo] d].
  destruct Hc as (Hd & Hmo & Hdd & Hy).
  exists y, mo, d, (us / 1000000 mod 86400 / 3600),
    (us / 1000000 mod 86400 mod 3600 / 60), (us / 1000000 mod 86400 mod 60).
  split; [reflexivity|].
  split; [apply Hy; Z.div_mod_to_equations; lia|].
  split; [done|]. split; [done|].
  rewrite Hd. repeat split; Z.div_mod_to_equations; lia.
Qed.

(** X19.  The timestamp of [iso_now]: for every instant [datetime] can
    represent it is the 20 characters [YYYY-MM-DDTHH:MM:SSZ] of a date and
    time of day (year 1 to 9999, month 1 to 12, day 1 to 31, hour 0 to 23,
    minute and second 0 to 59) that lies, counted in days and seconds from
    1970-01-01, exactly at the whole second of that instant; the part of a
    second is dropped.  So two instants get the same timestamp exactly when
    they fall in the same second.  Each call reads the clock once. *)
Theorem iso_now_timestamp w st us us' :
  clock w (clock_reads st) = us ->
  datetime_min <= us < datetime_max ->
  datetime_min <= us' < datetime_max ->
  iso_now w st
    = (Return (isoformat_Z us), mkState (calls st) (S (clock_reads st)))
  /\ length (isoformat_Z us) = 20%nat
  /\ (exists y mo d h mi s,
        isoformat_Z us = timestamp_form y mo d h mi s
        /\ 1 <= y <= 9999 /\ 1 <= mo <= 12 /\ 1 <= d <= 31
        /\ 0 <= h <= 23 /\ 0 <= mi <= 59 /\ 0 <= s <= 59
        /\ us / 1000000
           = ((days_from_civil y mo d * 24 + h) * 60 + mi) * 60 + s)
  /\ (isoformat_Z us = isoformat_Z us' <-> us / 1000000 = us' / 1000000).
Proof.
  intros Hclock Hus Hus'.
  split; [by cbv [iso_now mbind M_bind read_clock mret M_ret]; rewrite Hclock|].
  split.
  { unfold isoformat_Z. cbv zeta.
    destruct (civil_from_days _) as [[y mo] d]. reflexivity. }
  split; [by apply isoformat_Z_fields|].
  split.
  - destruct (isoformat_Z_fields us Hus)
      as (y1 & mo1 & d1 & h1 & mi1 & s1 & -> & ? & ? & ? & ? & ? & ? & ->).
    destruct (isoformat_Z_fields us' Hus')
      as (y2 & mo2 & d2 & h2 & mi2 & s2 & -> & ? & ? & ? & ? & ? & ? & ->).
    intros Heq.
    apply timestamp_form_inj in Heq as (Hy & Hmo & Hd & Hh & Hmi & Hs).
    apply digits_of_4_inj in Hy; [|lia..].
    apply digits_of_2_inj in Hmo, Hd, Hh, Hmi, Hs; try lia.
    by subst.
  - intros Heq. unfold isoformat_Z. by rewrite Heq.
Qed.

Lemma iso_now_timestamp_witness :
  iso_now (Inputs.all_up Inputs.shoe) initial
    = (Return (py "2023-11-14T22:13:20Z"), mkState [] 1)
  /\ (PyTime.isoformat_Z 1700000000000000 = PyTime.isoformat_Z 1700000000999999
      <-> 1700000000000000 / 1000000 = 1700000000999999 / 1000000).
Proof.
  pose proof (iso_now_timestamp (Inputs.all_up Inputs.shoe) initial
                1700000000000000 1700000000999999 eq_refl) as H.
  destruct H as (H1 & _ & _ & H2).
  - unfold datetime_min, datetime_max. lia.
  - unfold datetime_min, datetime_max. lia.
  - split; [exact H1|exact H2].
Defined.

End Timestamps.

(* ===================================================================== *)
(** ** The confidence that is logged *)
(* ===================================================================== *)

Module LoggedConfidence.
Import PyFloat PyDecimal.

(** All the two-digit decimals from 70.00 to 100.00, by evaluation. *)
Lemma logged_exactly_70_100 :
  forallb logged_exactly
    ((fun i => 7000 + Z.of_nat i) <$> seq 0 (Z.to_nat 3001)) = true.
Proof. vm_compute. reflexivity. Qed.

Lemma logged_exactly_range q : 7000 <= q <= 10000 -> logged_exactly q = true.
Proof.
  intros Hq. pose proof logged_exactly_70_100 as H.
  rewrite forallb_forall in H. apply H.
  apply list_elem_of_In, list_elem_of_fmap. exists (Z.to_nat (q - 7000)).
  split; [lia|]. apply list_elem_of_In, in_seq. lia.
Qed.

(** X20.  What the handler of [src/lambda/lambda_handler.py] logs for a
    label, [float(l["Confidence"])], is exactly [round(conf, 2)]: going
    through [str], [Decimal] and back to [float] loses nothing.  This holds
    for a float [m * 2^e] that rounds to between 70.00 and 100.00, and for
    the zeros, the infinities and NaN, which are stored as such. *)
Theorem logged_confidence name m e :
  7000 <= scaled_round m e 2 <= 10000 ->
  let x := S754_finite false m e in
  Log.label_log (make_record (name, x))
    = Log.ODict [(py "Name", Log.OStr name);
                 (py "Confidence", Log.OFloat (round_float x 2))]
  /\ Log.to_plain (Log.label_obj (make_record (name, x)))
     = Log.label_log (make_record (name, x))
  /\ (forall y, match y with S754_finite _ _ _ => False | _ => True end ->
        Log.float_of_decimal (confidence_value y) = y).
Proof.
  intros Hq x. split; [|split; [reflexivity|]].
  - unfold Log.label_log, make_record. cbn [Name Confidence fst snd].
    do 3 f_equal.
    pose proof (logged_exactly_range _ Hq) as Hl.
    unfold logged_exactly in Hl. cbv zeta in Hl.
    assert (Hr : round_float x 2 = strtod false (scaled_round m e 2) (-2))
      by reflexivity.
    unfold confidence_value, Lambda.confidence, float. rewrite Hr.
    destruct (Decimal (str_float (strtod false (scaled_round m e 2) (-2))))
      as [d|]; cbv beta iota in Hl; [|discriminate Hl].
    apply bool_decide_eq_true in Hl. by rewrite Hl.
  - intros [[]|[]| |] Hy; try done.
Qed.

Lemma logged_confidence_witness :
  Log.label_log (make_record (py "Shoe", Inputs.f_91_235))
  = Log.ODict [(py "Name", Log.OStr (py "Shoe"));
               (py "Confidence",
                Log.OFloat (round_float Inputs.f_91_235 2))].
Proof.
  apply (logged_confidence (py "Shoe") 6420092375049175 (-46)).
  vm_compute. split; discriminate.
Defined.

End LoggedConfidence.
